(** * Smart Schedule Application: rules engine, scheduler and storage

    A shallow embedding of [rules.js], the scheduler and input-manager
    module, [storage.js] and the constants of [config.js], followed by
    the properties proved of them.

    Conventions of the embedding.
    - A JavaScript call either returns or throws: [completion A].  A loop
      without an evident bound takes a number of iterations as fuel and
      yields [None] when it runs out.
    - A property that may be absent is an [option]; reading it yields
      [None] for JavaScript's [undefined].
    - Weights and hours are exact rationals ([Q]); minutes are integers
      ([Z]).  The two efficiency formulas are embedded a second time over
      binary64 numbers in [Module Float64], where they differ.
    - Objects used as dictionaries are [gmap]s keyed by strings, or
      lists of own properties, kept in the order [Object.entries] lists
      them, where the order of the keys is observed; lookups that can
      reach the members inherited from [Object.prototype] say so.
    - The scheduler reaches the rules engine through the methods of the
      imported instance; its definitions take the instance as a
      parameter, and the program is their instance at [rulesEngine]. *)

From Stdlib Require Import ZArith QArith Qround Qabs Lqa Lia List Ascii String DecimalString.
From Stdlib Require Import Floats.
From stdpp Require Import base option list gmap strings.

Local Open Scope Z_scope.
Local Open Scope string_scope.

(** ** Completions *)

Inductive JsError : Type := TypeError | SyntaxError.

Inductive completion (A : Type) : Type :=
| Return (a : A)
| Throw (e : JsError).
Arguments Return {A} a.
Arguments Throw {A} e.

Definition bind {A B} (m : completion A) (k : A -> completion B) : completion B :=
  match m with
  | Return a => k a
  | Throw e => Throw e
  end.

Notation "'do' x <- m ; k" := (bind m (fun x => k))
  (at level 10, x name, m at level 100, k at level 200).

(** [Array.prototype.map] with a callback that may throw: elements are
    visited from the left and the first exception ends the traversal. *)
Fixpoint mapM {A B} (f : A -> completion B) (l : list A) : completion (list B) :=
  match l with
  | [] => Return []
  | x :: xs => do y <- f x; do ys <- mapM f xs; Return (y :: ys)
  end.

(** [Array.prototype.forEach] threading an accumulator through a callback
    that may throw. *)
Fixpoint foldM {A S} (f : S -> A -> completion S) (l : list A) (s : S) : completion S :=
  match l with
  | [] => Return s
  | x :: xs => do s' <- f s x; foldM f xs s'
  end.

Definition returned {A} (m : completion A) : Prop := exists a, m = Return a.

(** ** Numbers *)

(** A value that is [undefined], [NaN] or an integer. *)
Inductive JsNum : Type :=
| JUndefined
| JNaN
| JNum (z : Z).

(** [Math.min(x, k)] and [Math.max(x, k)] for a numeric literal [k]:
    [undefined] converts to [NaN], and [NaN] is absorbing. *)
Definition Math_min (x : JsNum) (k : Z) : JsNum :=
  match x with
  | JNum z => JNum (Z.min z k)
  | _ => JNaN
  end.

Definition Math_max (x : JsNum) (k : Z) : JsNum :=
  match x with
  | JNum z => JNum (Z.max z k)
  | _ => JNaN
  end.

(** [x || d] on numbers: [undefined], [NaN] and [0] are falsy. *)
Definition num_or (x : JsNum) (d : Z) : Z :=
  match x with
  | JNum z => if Z.eqb z 0 then d else z
  | _ => d
  end.

(** [o || d] for an optional rational. *)
Definition q_or (o : option Q) (d : Q) : Q :=
  match o with
  | Some q => if Qeq_bool q 0 then d else q
  | None => d
  end.

(** [Math.round]: nearest integer, ties towards plus infinity. *)
Definition Math_round (q : Q) : Z := Qfloor (q + (1 # 2)).

Definition Math_ceil (q : Q) : Z := Qceiling q.

(** [parseFloat(x.toFixed(digits))]: the nearest multiple of [10^-digits],
    ties away from zero (toFixed rounds the absolute value and picks the
    larger candidate). *)
Definition toFixed (digits : nat) (q : Q) : Q :=
  let scale := Z.pow 10 (Z.of_nat digits) in
  let n := Qfloor (Qabs q * inject_Z scale + (1 # 2)) in
  inject_Z (if Qle_bool 0 q then n else - n) / inject_Z scale.

(** ** Plain objects as dictionaries *)

(** An object literal inherits the members of [Object.prototype]: a
    lookup with one of these keys that is not an own property of the
    object finds the inherited member (a function, or the prototype
    itself for [__proto__]), not [undefined]. *)
Definition Object_prototype_keys : list string :=
  ["constructor"; "__defineGetter__"; "__defineSetter__"; "hasOwnProperty";
   "__lookupGetter__"; "__lookupSetter__"; "isPrototypeOf";
   "propertyIsEnumerable"; "toString"; "valueOf"; "__proto__";
   "toLocaleString"].

Definition inheritedKey (k : string) : bool :=
  existsb (String.eqb k) Object_prototype_keys.

(** ** config.js *)

Module CONFIG.

Module SESSION_TYPES.
Definition STUDY := "study".
Definition BREAK := "break".
Definition REVISION := "revision".
End SESSION_TYPES.

(** The own properties of the two weight tables.  The tables are plain
    objects: for a key of [Object_prototype_keys] the code reads the
    inherited member, which is truthy and multiplies to [NaN]; the
    rational weights below are those of the remaining keys, and the
    results on computed weights exclude the inherited ones. *)
Definition PRIORITY_WEIGHTS (k : string) : option Q :=
  if String.eqb k "high" then Some 3%Q
  else if String.eqb k "medium" then Some 2%Q
  else if String.eqb k "low" then Some 1%Q
  else None.

Definition DIFFICULTY_WEIGHTS (k : string) : option Q :=
  if String.eqb k "hard" then Some (3 # 2)%Q
  else if String.eqb k "medium" then Some 1%Q
  else if String.eqb k "easy" then Some (4 # 5)%Q
  else None.

Module TIME_PREFERENCES.
Definition MORNING_PEAK : list Z := [9; 12].
Definition AFTERNOON_PEAK : list Z := [15; 18].
Definition AVOID_LATE_NIGHT : Z := 22.
End TIME_PREFERENCES.

Module SCHEDULING_RULES.
Definition MAX_SESSIONS_WITHOUT_LONG_BREAK : Z := 4.
Definition LONG_BREAK_DURATION : Z := 30.
Definition REVISION_FREQUENCY : Z := 3.
End SCHEDULING_RULES.

Module STORAGE_KEYS.
Definition STUDY_PLAN := "smartStudyPlan".
Definition USER_PREFS := "studyPreferences".
Definition PROGRESS := "studyProgress".
End STORAGE_KEYS.

End CONFIG.

(** ** Subjects and the rule context *)

Record Subject : Type := mkSubject {
  id : string;
  name : string;
  priority : string;
  difficulty : string;
  hoursNeeded : Q;
  hoursCompleted : Q;
  sessionsCompleted : Z;
  weight : Q
}.

(** The [context] argument of the rules.  Every property is optional: the
    default argument [{}] has none of them. *)
Record Context : Type := mkContext {
  defaultSessionLength : option Z;
  lastScheduledSubject : option string;
  daysSinceLastStudy : option (gmap string Z)
}.

Definition emptyContext : Context :=
  {| defaultSessionLength := None;
     lastScheduledSubject := None;
     daysSinceLastStudy := None |}.

(** The object a rule returns; a property the rule does not set is [None]. *)
Record RuleResult : Type := mkRuleResult {
  weightMultiplier : option Q;
  adaptedSessionLength : option JsNum;
  breakMultiplier : option Q;
  preferredTimeSlots : option (list Z);
  avoidConsecutive : option bool;
  coolDown : option Z;
  needsRevision : option bool;
  revisionPriority : option Q
}.

Record Rule : Type := mkRule {
  rule_name : string;
  apply : Subject -> Context -> completion RuleResult
}.

(** ** rules.js: the rule list *)

Definition opt_to_num (o : option Z) : JsNum :=
  match o with
  | Some z => JNum z
  | None => JUndefined
  end.

Definition priority_allocation : Rule :=
  {| rule_name := "priority_allocation";
     apply := fun subject context =>
       let weight := q_or (CONFIG.PRIORITY_WEIGHTS (priority subject)) 1 in
       Return {| weightMultiplier := Some weight; adaptedSessionLength := None;
                 breakMultiplier := None; preferredTimeSlots := None;
                 avoidConsecutive := None; coolDown := None;
                 needsRevision := None; revisionPriority := None |} |}.

Definition difficulty_adaptation : Rule :=
  {| rule_name := "difficulty_adaptation";
     apply := fun subject context =>
       let sessionLength := opt_to_num (defaultSessionLength context) in
       let adapted :=
         if String.eqb (difficulty subject) "hard"
         then (Math_min sessionLength 45, (3 # 2)%Q)
         else if String.eqb (difficulty subject) "easy"
         then (Math_max sessionLength 60, (4 # 5)%Q)
         else (sessionLength, 1%Q) in
       Return {| weightMultiplier := None;
                 adaptedSessionLength := Some (fst adapted);
                 breakMultiplier := Some (snd adapted); preferredTimeSlots := None;
                 avoidConsecutive := None; coolDown := None;
                 needsRevision := None; revisionPriority := None |} |}.

Definition time_preference : Rule :=
  {| rule_name := "time_preference";
     apply := fun subject context =>
       let slots :=
         if String.eqb (difficulty subject) "hard" || String.eqb (priority subject) "high"
         then CONFIG.TIME_PREFERENCES.MORNING_PEAK
         else if String.eqb (difficulty subject) "medium" || String.eqb (priority subject) "medium"
         then [13; 17]
         else [18; 20] in
       Return {| weightMultiplier := None; adaptedSessionLength := None;
                 breakMultiplier := None; preferredTimeSlots := Some slots;
                 avoidConsecutive := None; coolDown := None;
                 needsRevision := None; revisionPriority := None |} |}.

Definition consecutive_avoidance : Rule :=
  {| rule_name := "consecutive_avoidance";
     apply := fun subject context =>
       let avoid :=
         match lastScheduledSubject context with
         | Some last => String.eqb last (id subject)
         | None => false
         end in
       Return {| weightMultiplier := None; adaptedSessionLength := None;
                 breakMultiplier := None; preferredTimeSlots := None;
                 avoidConsecutive := Some avoid;
                 coolDown := Some (if avoid then 2 else 0);
                 needsRevision := None; revisionPriority := None |} |}.

(** [context.daysSinceLastStudy[subject.id]] reads a property of
    [context.daysSinceLastStudy]; when that is [undefined] the read throws
    a TypeError. *)
Definition revision_scheduling : Rule :=
  {| rule_name := "revision_scheduling";
     apply := fun subject context =>
       match daysSinceLastStudy context with
       | None => Throw TypeError
       | Some days =>
           let since := default 0 (days !! id subject) in
           let needs := Z.leb CONFIG.SCHEDULING_RULES.REVISION_FREQUENCY since in
           Return {| weightMultiplier := None; adaptedSessionLength := None;
                     breakMultiplier := None; preferredTimeSlots := None;
                     avoidConsecutive := None; coolDown := None;
                     needsRevision := Some needs;
                     revisionPriority := Some (if needs then (3 # 2)%Q else 1%Q) |}
       end |}.

Definition rules : list Rule :=
  [priority_allocation; difficulty_adaptation; time_preference;
   consecutive_avoidance; revision_scheduling].

(** ** rules.js: calculateSubjectWeights *)

(** A subject enriched with its weight and the per-rule adjustments:
    the object literal with the spread of [subject], [weight] and
    [adjustments]. *)
Record WeightedSubject : Type := mkWeighted {
  ws_subject : Subject;
  adjustments : gmap string RuleResult
}.

Definition set_weight (s : Subject) (w : Q) : Subject :=
  {| id := id s; name := name s; priority := priority s;
     difficulty := difficulty s; hoursNeeded := hoursNeeded s;
     hoursCompleted := hoursCompleted s;
     sessionsCompleted := sessionsCompleted s; weight := w |}.

(** [if (factor) totalWeight *= factor]. *)
Definition timesIfTruthy (totalWeight : Q) (factor : option Q) : Q :=
  match factor with
  | Some q => if Qeq_bool q 0 then totalWeight else (totalWeight * q)%Q
  | None => totalWeight
  end.

(** One iteration of [this.rules.forEach]. *)
Definition applyRule (subject : Subject) (context : Context)
    (acc : Q * gmap string RuleResult) (rule : Rule)
  : completion (Q * gmap string RuleResult) :=
  do result <- apply rule subject context;
  let totalWeight := timesIfTruthy (fst acc) (weightMultiplier result) in
  let totalWeight := timesIfTruthy totalWeight (revisionPriority result) in
  Return (totalWeight, <[rule_name rule := result]> (snd acc)).

(** The callback of [subjects.map]. *)
Definition weighSubject (context : Context) (subject : Subject)
  : completion WeightedSubject :=
  do acc <- foldM (applyRule subject context) rules (1%Q, ∅);
  let '(totalWeight, adj) := acc in
  let totalWeight :=
    (totalWeight * q_or (CONFIG.DIFFICULTY_WEIGHTS (difficulty subject)) 1)%Q in
  Return {| ws_subject := set_weight subject (toFixed 2 totalWeight);
            adjustments := adj |}.

Definition calculateSubjectWeights (subjects : list Subject) (context : Context)
  : completion (list WeightedSubject) :=
  mapM (weighSubject context) subjects.

(** ** rules.js: allocateDailyHours *)

Record Allocation : Type := mkAllocation {
  alloc_ws : WeightedSubject;
  allocatedHours : Q;
  sessionsPerDay : Z
}.

Definition ws_weight (w : WeightedSubject) : Q := weight (ws_subject w).
Definition alloc_subject (a : Allocation) : Subject := ws_subject (alloc_ws a).

(** [priorityOrder[p]] for the literal [{ high: 3, medium: 2, low: 1 }]. *)
Definition priorityOrder (p : string) : option Z :=
  if String.eqb p "high" then Some 3
  else if String.eqb p "medium" then Some 2
  else if String.eqb p "low" then Some 1
  else None.

(** [x - y] on possibly undefined operands; [None] stands for [NaN]. *)
Definition js_sub (x y : option Z) : option Z :=
  match x, y with
  | Some a, Some b => Some (a - b)
  | _, _ => None
  end.

(** Whether a comparator result orders its first argument after the
    second; [NaN] counts as zero. *)
Definition cmp_after (c : option Z) : bool :=
  match c with
  | Some z => Z.ltb 0 z
  | None => false
  end.

(** [Array.prototype.sort] with a comparator: a stable sort.  For a
    comparator that is a consistent ordering the result is determined by
    stability; this is insertion from the right. *)
Fixpoint sort_insert {A} (cmp : A -> A -> option Z) (x : A) (l : list A) : list A :=
  match l with
  | [] => [x]
  | y :: ys => if cmp_after (cmp x y) then y :: sort_insert cmp x ys else x :: y :: ys
  end.

Definition js_sort {A} (cmp : A -> A -> option Z) (l : list A) : list A :=
  fold_right (sort_insert cmp) [] l.

Definition sumQ (l : list Q) : Q := fold_left Qplus l 0%Q.

(** The body of [allocateDailyHours] after the weights are computed.  The
    quotient [weight / totalWeight] is only evaluated for a non-empty
    list; for a zero [totalWeight] JavaScript yields [NaN] or an infinity,
    which [Q] does not have, so the results below assume it non-zero. *)
Definition allocateHours (weightedSubjects : list WeightedSubject)
    (totalDailyHours : Q) : list Allocation :=
  let totalWeight := sumQ (map ws_weight weightedSubjects) in
  let allocations :=
    map (fun subject =>
           let proportion := (ws_weight subject / totalWeight)%Q in
           let hours := (proportion * totalDailyHours)%Q in
           {| alloc_ws := subject;
              allocatedHours := toFixed 2 hours;
              sessionsPerDay := Z.max 1 (Math_ceil (hours / 2)) |})
        weightedSubjects in
  js_sort (fun a b => js_sub (priorityOrder (priority (alloc_subject b)))
                             (priorityOrder (priority (alloc_subject a))))
          allocations.

Definition allocateDailyHours (subjects : list Subject) (totalDailyHours : Q)
  : completion (list Allocation) :=
  do weightedSubjects <- calculateSubjectWeights subjects emptyContext;
  Return (allocateHours weightedSubjects totalDailyHours).

(** ** rules.js: session length and break duration *)

(** [calculateSubjectWeights([subject])[0].adjustments]; reading
    [.adjustments] of a missing element would throw. *)
Definition adjustmentsOf (subject : Subject) : completion (gmap string RuleResult) :=
  do weighted <- calculateSubjectWeights [subject] emptyContext;
  match weighted with
  | w :: _ => Return (adjustments w)
  | [] => Throw TypeError
  end.

Definition getOptimalSessionLength (subject : Subject) (defaultLength : Z)
  : completion Z :=
  do adj <- adjustmentsOf subject;
  let difficultyRule := adj !! "difficulty_adaptation" in
  let adapted :=
    match difficultyRule with
    | Some r => default JUndefined (adaptedSessionLength r)
    | None => JUndefined
    end in
  Return (num_or adapted defaultLength).

Definition getBreakDuration (subject : Subject) (defaultBreakDuration : Z)
  : completion Z :=
  do adj <- adjustmentsOf subject;
  let difficultyRule := adj !! "difficulty_adaptation" in
  let multiplier :=
    q_or (match difficultyRule with
          | Some r => breakMultiplier r
          | None => None
          end) 1 in
  Return (Math_round (inject_Z defaultBreakDuration * multiplier)).

Definition needsLongBreak (consecutiveSessions maxSessionsWithoutLongBreak : Z) : bool :=
  Z.leb maxSessionsWithoutLongBreak consecutiveSessions.

(** A context as the scheduler builds it: the two properties the rules
    read are present. *)
Definition schedulerContext (last : option string) (days : gmap string Z) : Context :=
  {| defaultSessionLength := None;
     lastScheduledSubject := last;
     daysSinceLastStudy := Some days |}.


(** ** Strings of the scheduler *)

(** [String(n)] for an integer. *)
Definition string_of_Z (z : Z) : string :=
  DecimalString.NilZero.string_of_int (Z.to_int z).

(** [s.padStart(2, '0')]. *)
Definition padStart2 (s : string) : string :=
  match s with
  | EmptyString => "00"
  | String c EmptyString => String "0"%char (String c EmptyString)
  | _ => s
  end.

(** [s.split(':')[0]]: the part of [s] before its first colon. *)
Fixpoint beforeColon (s : string) : string :=
  match s with
  | EmptyString => EmptyString
  | String c rest =>
      if Ascii.eqb c ":"%char then EmptyString else String c (beforeColon rest)
  end.

(** The value of a character as a digit, in a radix up to sixteen. *)
Definition digit_of (c : ascii) : option Z :=
  let n := Z.of_nat (nat_of_ascii c) in
  if (Z.leb 48 n && Z.leb n 57)%bool then Some (n - 48)
  else if (Z.leb 97 n && Z.leb n 102)%bool then Some (n - 87)
  else if (Z.leb 65 n && Z.leb n 70)%bool then Some (n - 55)
  else None.

(** The longest run of digits of the radix at the start of [s]; [acc] is
    the value read so far, [None] when no digit has been read. *)
Fixpoint parse_digits (radix : Z) (s : string) (acc : option Z) : option Z :=
  match s with
  | EmptyString => acc
  | String c rest =>
      match digit_of c with
      | Some d =>
          if Z.ltb d radix
          then parse_digits radix rest (Some (radix * default 0 acc + d))
          else acc
      | None => acc
      end
  end.

(** White space and line terminators among the code units below 256:
    tab, line feed, vertical tab, form feed, carriage return, space and
    the no-break space.  (A string here is a sequence of such code
    units; the white space above them is not representable.) *)
Definition is_blank (c : ascii) : bool :=
  let n := nat_of_ascii c in
  (Nat.eqb n 32 || (Nat.leb 9 n && Nat.leb n 13) || Nat.eqb n 160)%bool.

Fixpoint skip_blanks (s : string) : string :=
  match s with
  | String c rest => if is_blank c then skip_blanks rest else s
  | EmptyString => EmptyString
  end.

(** The digits after the sign: a prefix [0x] or [0X] selects radix
    sixteen, anything else radix ten. *)
Definition parse_unsigned (s : string) : option Z :=
  match s with
  | String c0 (String c1 rest) =>
      if (Ascii.eqb c0 "0"%char && (Ascii.eqb c1 "x"%char || Ascii.eqb c1 "X"%char))%bool
      then parse_digits 16 rest None
      else parse_digits 10 s None
  | _ => parse_digits 10 s None
  end.

(** [parseInt(s)] without a radix argument: leading white space, an
    optional sign, an optional hexadecimal prefix, then the longest run
    of digits; [None] is [NaN].  The value is the exact integer (the
    code rounds it to binary64 above [2^53]). *)
Definition parseInt (s : string) : option Z :=
  match skip_blanks s with
  | String c rest =>
      if Ascii.eqb c "-"%char then option_map Z.opp (parse_unsigned rest)
      else if Ascii.eqb c "+"%char then parse_unsigned rest
      else parse_unsigned (String c rest)
  | EmptyString => None
  end.

(** [x >= k] where [x] may be [NaN]. *)
Definition num_ge (x : option Z) (k : Z) : bool :=
  match x with
  | Some z => Z.leb k z
  | None => false
  end.

(** ** Slots, day schedules and the scheduler's state *)

Record Slot : Type := mkSlot {
  slot_id : string;
  slot_type : string;
  subjectId : option string;
  subjectName : string;
  slot_priority : option string;
  slot_difficulty : option string;
  startTime : string;
  endTime : string;
  duration : Z;
  completed : option bool;
  breakType : option string;
  slot_day : Z
}.

Record DaySchedule : Type := mkDay {
  day : Z;
  date : string;
  totalSessions : Z;
  totalStudyHours : Q;
  slots : list Slot
}.

Record SessionSettings : Type := mkSettings {
  sessionLength : Z;
  breakDuration : Z;
  longBreakDuration : Z;
  dailyHours : option Q
}.

(** [this.context] of the scheduler. *)
Record SchedulerContext : Type := mkSchedulerContext {
  sc_lastScheduledSubject : option string;
  sc_daysSinceLastStudy : gmap string Z;
  consecutiveSessions : Z;
  sessionCountToday : Z
}.

Record SmartScheduler : Type := mkScheduler {
  schedule : list DaySchedule;
  currentDay : Z;
  context : SchedulerContext
}.

(** The state the constructor leaves. *)
Definition newScheduler : SmartScheduler :=
  {| schedule := [];
     currentDay := 0;
     context := {| sc_lastScheduledSubject := None;
                   sc_daysSinceLastStudy := ∅;
                   consecutiveSessions := 0;
                   sessionCountToday := 0 |} |}.

Definition isStudySlot (s : Slot) : bool :=
  (String.eqb (slot_type s) CONFIG.SESSION_TYPES.STUDY
   || String.eqb (slot_type s) CONFIG.SESSION_TYPES.REVISION)%bool.

Definition isBreakSlot (s : Slot) : bool :=
  String.eqb (slot_type s) CONFIG.SESSION_TYPES.BREAK.

(** ** Scheduler: time formatting and slot construction *)

(** [hours % 12 || 12]. *)
Definition displayHours (hours : Z) : Z :=
  let r := Z.rem hours 12 in if Z.eqb r 0 then 12 else r.

Definition formatTime (minutes : Z) : string :=
  let hours := minutes / 60 in
  let mins := Z.rem minutes 60 in
  let period := if Z.leb 12 hours then "PM" else "AM" in
  string_of_Z (displayHours hours) ++ ":" ++ padStart2 (string_of_Z mins)
    ++ " " ++ period.

(** The hour a slot's start time is read back as:
    [parseInt(slot.startTime.split(':')[0])]. *)
Definition startHour (s : Slot) : option Z := parseInt (beforeColon (startTime s)).

Definition daysSince (days : gmap string Z) (subjectId : string) : Z :=
  default 0 (days !! subjectId).

Definition createSessionSlot (this : SmartScheduler) (subject : Subject)
    (startTimeMinutes duration : Z) (dayIndex : nat) : Slot :=
  let type :=
    if Z.leb CONFIG.SCHEDULING_RULES.REVISION_FREQUENCY
             (daysSince (sc_daysSinceLastStudy (context this)) (id subject))
    then CONFIG.SESSION_TYPES.REVISION else CONFIG.SESSION_TYPES.STUDY in
  {| slot_id := "session_" ++ id subject ++ "_" ++ string_of_Z (Z.of_nat dayIndex)
                  ++ "_" ++ string_of_Z startTimeMinutes;
     slot_type := type;
     subjectId := Some (id subject);
     subjectName := name subject;
     slot_priority := Some (priority subject);
     slot_difficulty := Some (difficulty subject);
     startTime := formatTime startTimeMinutes;
     endTime := formatTime (startTimeMinutes + duration);
     duration := duration;
     completed := Some false;
     breakType := None;
     slot_day := Z.of_nat dayIndex + 1 |}.

Definition createBreakSlot (this : SmartScheduler) (startTimeMinutes duration : Z)
    (kind : string) : Slot :=
  let label :=
    if String.eqb kind "long" then "Long Break"
    else if String.eqb kind "lunch" then "Lunch Break"
    else "Break" in
  {| slot_id := "break_" ++ string_of_Z startTimeMinutes;
     slot_type := CONFIG.SESSION_TYPES.BREAK;
     subjectId := None;
     subjectName := label;
     slot_priority := None;
     slot_difficulty := None;
     startTime := formatTime startTimeMinutes;
     endTime := formatTime (startTimeMinutes + duration);
     duration := duration;
     completed := None;
     breakType := Some kind;
     slot_day := currentDay this + 1 |}.

(** ** rules.js: validateSchedule *)

Record Violation : Type := mkViolation {
  v_type : string;
  v_day : option nat;
  v_slot : option nat;
  v_subject : option string;
  v_daysSinceLast : option Z;
  v_message : string
}.

Record SubjectStats : Type := mkStats {
  sessions : Z;
  dailySessions : gmap nat Z;
  lastSessionDay : option Z
}.

(** The own properties of an object used as a dictionary, in the order
    [Object.entries] lists them. *)
Fixpoint assoc_get {V} (k : string) (l : list (string * V)) : option V :=
  match l with
  | [] => None
  | (k', v) :: rest => if String.eqb k' k then Some v else assoc_get k rest
  end.

Fixpoint assoc_set {V} (k : string) (v : V) (l : list (string * V)) : list (string * V) :=
  match l with
  | [] => [(k, v)]
  | (k', v') :: rest =>
      if String.eqb k' k then (k, v) :: rest else (k', v') :: assoc_set k v rest
  end.

(** A key that is an array index: the canonical decimal numeral of an
    integer below [2^32 - 1]. *)
Definition arrayIndex (k : string) : option Z :=
  match parse_digits 10 k None with
  | Some n =>
      if (String.eqb (string_of_Z n) k && Z.leb n 4294967294)%bool
      then Some n else None
  | None => None
  end.

(** Creating the own property [k]: array indices are listed first, in
    ascending order, then the other keys in the order of their
    creation. *)
Fixpoint prop_insert {V} (k : string) (v : V) (l : list (string * V))
  : list (string * V) :=
  match l with
  | [] => [(k, v)]
  | (k', v') :: rest =>
      match arrayIndex k, arrayIndex k' with
      | Some n, Some n' =>
          if Z.ltb n n' then (k, v) :: l else (k', v') :: prop_insert k v rest
      | Some _, None => (k, v) :: l
      | None, _ => (k', v') :: prop_insert k v rest
      end
  end.

(** [o[k] = v] for a key other than [__proto__]: an own property keeps
    its place, a new one is created. *)
Definition prop_set {V} (k : string) (v : V) (l : list (string * V))
  : list (string * V) :=
  match assoc_get k l with
  | Some _ => assoc_set k v l
  | None => prop_insert k v l
  end.

(** The argument [context] of [validateSchedule]: [currentDay] and the
    spread of the scheduler's context. *)
Record ValidationContext : Type := mkValidationContext {
  vc_currentDay : option Z;
  vc_context : SchedulerContext
}.

Record Validation : Type := mkValidation {
  isValid : bool;
  violations : list Violation;
  stats : list (string * SubjectStats)
}.

(** A property key: [undefined] as a key is the string "undefined". *)
Definition keyOf (subjectId : option string) : string :=
  default "undefined" subjectId.

(** [subjects.find(s => s.id === subjectId)]. *)
Definition findSubject (subjects : list Subject) (subjectId : option string)
  : option Subject :=
  match subjectId with
  | Some i => List.find (fun s => String.eqb (id s) i) subjects
  | None => None
  end.

(** Running state of the walk over one day.  [lastSubjectId] is [None]
    for the initial [null]; afterwards it holds the previous session's
    [subjectId], itself possibly [undefined]. *)
Record WalkState : Type := mkWalk {
  w_violations : list Violation;
  w_stats : list (string * SubjectStats);
  consecutiveSameSubject : Z;
  lastSubjectId : option (option string)
}.

Definition sameAsLast (subjectId : option string) (last : option (option string)) : bool :=
  match last, subjectId with
  | Some (Some a), Some b => String.eqb b a
  | Some None, None => true
  | _, _ => false
  end.

(** [subjectStats[subj.id] = {...}] with the id [__proto__] replaces the
    prototype of [subjectStats] by the new object instead of creating a
    property: afterwards [subjectStats] inherits [sessions],
    [dailySessions] and [lastSessionDay] from it. *)
Definition protoAssigned (subjects : list Subject) : bool :=
  existsb (fun s => String.eqb (id s) "__proto__") subjects.

(** Whether [subjectStats[key]], for a key that is not an own property,
    finds a truthy inherited member: one of [Object.prototype], or the
    object [dailySessions] or the number [lastSessionDay] of an assigned
    prototype (its [sessions] is [0], which is falsy). *)
Definition inheritsMember (subjects : list Subject) (key : string) : bool :=
  (inheritedKey key
   || (protoAssigned subjects
       && (String.eqb key "dailySessions" || String.eqb key "lastSessionDay")))%bool.

(** The three statements that track a session in [subjectStats].  When
    the key is an own property, or is created because the lookup is
    falsy, the entry is updated.  When the lookup finds an inherited
    member, that member has no [dailySessions] and reading
    [.dailySessions[dayIndex]] throws a TypeError; the one exception is
    the key [__proto__] after a prototype was assigned, where the
    statements update the prototype and no own property. *)
Definition recordSession (subjects : list Subject) (dayIndex : nat)
    (subjectId : option string) (st : list (string * SubjectStats))
  : completion (list (string * SubjectStats)) :=
  let key := keyOf subjectId in
  let updated (entry : SubjectStats) (st : list (string * SubjectStats)) :=
    prop_set key
      {| sessions := sessions entry + 1;
         dailySessions :=
           <[dayIndex := default 0 (dailySessions entry !! dayIndex) + 1]>
             (dailySessions entry);
         lastSessionDay := Some (Z.of_nat dayIndex) |} st in
  if String.eqb key "__proto__" then
    if protoAssigned subjects then Return st else Throw TypeError
  else
    match assoc_get key st with
    | Some e => Return (updated e st)
    | None =>
        if inheritsMember subjects key then Throw TypeError
        else
          let e := {| sessions := 0; dailySessions := ∅; lastSessionDay := None |} in
          Return (updated e (prop_set key e st))
    end.

(** The time-preference check of one session of a listed subject. *)
Definition checkTimePreference (dayIndex slotIndex : nat) (slot : Slot)
    (subject : Subject) : completion (list Violation) :=
  let hour := startHour slot in
  do adj <- adjustmentsOf subject;
  let preferredSlots :=
    match adj !! "time_preference" with
    | Some r => preferredTimeSlots r
    | None => None
    end in
  match preferredSlots with
  | Some [start; stop] =>
      match hour with
      | Some h =>
          if (Z.ltb h start || Z.leb stop h)%bool
          then Return
                 [{| v_type := "time_preference"; v_day := Some dayIndex;
                     v_slot := Some slotIndex; v_subject := None;
                     v_daysSinceLast := None;
                     v_message := subjectName slot
                       ++ " scheduled outside preferred time ("
                       ++ string_of_Z start ++ ":00-" ++ string_of_Z stop ++ ":00)" |}]
          else Return []
      | None => Return []
      end
  | _ => Return []
  end.

(** The callback of [daySchedule.slots.forEach]. *)
Definition walkSlot (subjects : list Subject) (dayIndex : nat)
    (w : WalkState) (indexed : nat * Slot) : completion WalkState :=
  let '(slotIndex, slot) := indexed in
  if isStudySlot slot then
    let sid := subjectId slot in
    do st <- recordSession subjects dayIndex sid (w_stats w);
    let '(count, vs) :=
      if sameAsLast sid (lastSubjectId w) then
        let count := consecutiveSameSubject w + 1 in
        (count,
         if Z.ltb 1 count
         then app (w_violations w)
                [{| v_type := "consecutive_sessions"; v_day := Some dayIndex;
                    v_slot := Some slotIndex; v_subject := None;
                    v_daysSinceLast := None;
                    v_message := "Subject repeated consecutively: "
                                   ++ subjectName slot |}]
         else w_violations w)
      else (0, w_violations w) in
    do more <-
      match findSubject subjects sid with
      | Some subject => checkTimePreference dayIndex slotIndex slot subject
      | None => Return []
      end;
    Return {| w_violations := app vs more; w_stats := st;
              consecutiveSameSubject := count; lastSubjectId := Some sid |}
  else Return w.

Definition indexed {A} (l : list A) : list (nat * A) := combine (seq 0 (length l)) l.

(** The callback of [schedule.forEach]: the two counters start afresh
    every day. *)
Definition walkDay (subjects : list Subject)
    (acc : list Violation * list (string * SubjectStats))
    (indexedDay : nat * DaySchedule)
  : completion (list Violation * list (string * SubjectStats)) :=
  let '(dayIndex, daySchedule) := indexedDay in
  do w <- foldM (walkSlot subjects dayIndex) (indexed (slots daySchedule))
            {| w_violations := fst acc; w_stats := snd acc;
               consecutiveSameSubject := 0; lastSubjectId := None |};
  Return (w_violations w, w_stats w).

(** The revision check over [Object.entries(subjectStats)]. *)
Definition checkRevision (subjects : list Subject) (ctx : ValidationContext)
    (vs : list Violation) (entry : string * SubjectStats) : list Violation :=
  let '(sid, st) := entry in
  match findSubject subjects (Some sid) with
  | Some subject =>
      match js_sub (vc_currentDay ctx) (lastSessionDay st) with
      | Some daysBetween =>
          if Z.ltb CONFIG.SCHEDULING_RULES.REVISION_FREQUENCY daysBetween
          then app vs
                 [{| v_type := "revision_needed"; v_day := None; v_slot := None;
                     v_subject := Some (name subject);
                     v_daysSinceLast := Some daysBetween;
                     v_message := name subject ++ " hasn't been studied for "
                       ++ string_of_Z daysBetween ++ " days. Needs revision." |}]
          else vs
      | None => vs
      end
  | None => vs
  end.

(** The initial statistics: one own property for each listed id other
    than [__proto__]. *)
Definition initialStats (subjects : list Subject) : list (string * SubjectStats) :=
  fold_left (fun st subj =>
               if String.eqb (id subj) "__proto__" then st
               else prop_set (id subj)
                      {| sessions := 0; dailySessions := ∅; lastSessionDay := Some (-1) |}
                      st)
            subjects [].

Definition validateSchedule (sched : list DaySchedule) (subjects : list Subject)
    (ctx : ValidationContext) : completion Validation :=
  do walked <- foldM (walkDay subjects) (indexed sched) ([], initialStats subjects);
  let '(vs, st) := walked in
  let vs := fold_left (checkRevision subjects ctx) st vs in
  Return {| isValid := Nat.eqb (length vs) 0; violations := vs; stats := st |}.


(** ** rules.js: calculateEfficiencyScore *)

Definition sumZ (l : list Z) : Z := fold_left Z.add l 0.

Definition allSlotsOf (sched : list DaySchedule) : list Slot := concat (map slots sched).

(** The two accumulators after the nested [forEach]. *)
Definition studyMinutes (sl : list Slot) : Z := sumZ (map duration (List.filter isStudySlot sl)).
Definition breakMinutes (sl : list Slot) : Z := sumZ (map duration (List.filter isBreakSlot sl)).

Definition Qmax (a b : Q) : Q := if Qle_bool a b then b else a.

(** [a > b] on rationals. *)
Definition Qgtb (a b : Q) : bool := negb (Qle_bool a b).

Definition calculateEfficiencyScore (sched : list DaySchedule) : Z :=
  let totalStudyTime := studyMinutes (allSlotsOf sched) in
  let totalBreakTime := breakMinutes (allSlotsOf sched) in
  if Z.eqb totalStudyTime 0 then 0
  else
    let actualRatio := (inject_Z totalBreakTime / inject_Z totalStudyTime)%Q in
    let idealRatio := (17 / 52)%Q in
    let ratioScore := Qmax 0 (100 - Qabs (actualRatio - idealRatio) * 1000)%Q in
    let breakBonus :=
      if Qgtb (inject_Z totalBreakTime) (inject_Z totalStudyTime * (2 # 10))
      then 10%Q else 0%Q in
    Z.min 100 (Math_round (ratioScore + breakBonus)).

(** ** rules.js: generateSuggestions *)

Record Suggestion : Type := mkSuggestion {
  sg_type : string;
  sg_message : string;
  sg_action : string;
  sg_priority : string
}.

Definition suggestionFor (v : Violation) : list Suggestion :=
  if String.eqb (v_type v) "consecutive_sessions" then
    [{| sg_type := "warning";
        sg_message := "Avoid consecutive sessions of the same subject. Consider adding a break or switching subjects.";
        sg_action := "reschedule"; sg_priority := "medium" |}]
  else if String.eqb (v_type v) "time_preference" then
    [{| sg_type := "info"; sg_message := v_message v;
        sg_action := "consider_reschedule"; sg_priority := "low" |}]
  else if String.eqb (v_type v) "revision_needed" then
    [{| sg_type := "important"; sg_message := v_message v;
        sg_action := "add_revision"; sg_priority := "high" |}]
  else [].

Definition generateSuggestions (vs : list Violation) (sched : list DaySchedule)
  : list Suggestion :=
  let fromViolations := concat (map suggestionFor vs) in
  let totalStudyTime :=
    sumZ (map (fun d => Z.of_nat (length (List.filter isStudySlot (slots d)))) sched) in
  let breaksTip :=
    if Z.ltb 6 totalStudyTime then
      [{| sg_type := "tip";
          sg_message := "Consider adding more breaks to maintain focus and productivity.";
          sg_action := "increase_breaks"; sg_priority := "medium" |}]
    else [] in
  let efficiencyScore := calculateEfficiencyScore sched in
  let optimizeTip :=
    if Z.ltb efficiencyScore 70 then
      [{| sg_type := "tip";
          sg_message := "Your schedule efficiency is " ++ string_of_Z efficiencyScore
                          ++ "%. Try optimizing session lengths and breaks.";
          sg_action := "optimize"; sg_priority := "medium" |}]
    else [] in
  app fromViolations (app breaksTip optimizeTip).

(** ** Scheduler: generateSummary *)

Record Summary : Type := mkSummary {
  sm_totalStudyHours : Q;
  sm_totalBreakHours : Q;
  sm_totalSessions : nat;
  subjectDistribution : list (string * Q);
  dailyAverages : option (Q * Q);
  efficiencyScore : Z
}.

(** The efficiency block of [generateSummary], over hours. *)
Definition summaryEfficiency (allSlots : list Slot) : Z :=
  let totalStudyHours := (inject_Z (studyMinutes allSlots) / 60)%Q in
  let totalBreakHours := (inject_Z (breakMinutes allSlots) / 60)%Q in
  if Qgtb totalStudyHours 0 then
    let actualRatio := (totalBreakHours / totalStudyHours)%Q in
    let idealRatio := (17 / 52)%Q in
    let ratioScore := Qmax 0 (100 - Qabs (actualRatio - idealRatio) * 1000)%Q in
    let breakBonus :=
      if Qgtb totalBreakHours (totalStudyHours * (2 # 10)) then 10%Q else 0%Q in
    Z.min 100 (Math_round (ratioScore + breakBonus))
  else 0.

(** [subjectDistribution[slot.subjectName] += slot.duration / 60], the
    entry being created as [0] when missing or zero.  For a name of
    [Object_prototype_keys] the code finds the inherited member and
    stores a string (nothing for [__proto__]); the hours below are those
    of the remaining names. *)
Definition addToDistribution (dist : list (string * Q)) (slot : Slot) : list (string * Q) :=
  let key := subjectName slot in
  let dist :=
    if Qeq_bool (default 0%Q (assoc_get key dist)) 0 then prop_set key 0%Q dist
    else dist in
  prop_set key (default 0%Q (assoc_get key dist) + inject_Z (duration slot) / 60)%Q dist.

(** [generateSummary(allSlots, subjects, totalDays)].  The daily averages
    divide by [totalDays]; for [totalDays = 0] JavaScript produces [NaN]
    or an infinity, recorded here as [None]. *)
Definition generateSummary (allSlots : list Slot) (subjects : list Subject)
    (totalDays : nat) : Summary :=
  let studySlots := List.filter isStudySlot allSlots in
  let totalStudyHours := (inject_Z (studyMinutes allSlots) / 60)%Q in
  let totalBreakHours := (inject_Z (breakMinutes allSlots) / 60)%Q in
  {| sm_totalStudyHours := toFixed 1 totalStudyHours;
     sm_totalBreakHours := toFixed 1 totalBreakHours;
     sm_totalSessions := length studySlots;
     subjectDistribution := fold_left addToDistribution studySlots [];
     dailyAverages :=
       match totalDays with
       | O => None
       | _ =>
           let days := inject_Z (Z.of_nat totalDays) in
           Some (toFixed 1 (inject_Z (Z.of_nat (length studySlots)) / days),
                 toFixed 1 (totalStudyHours / days))
       end;
     efficiencyScore := summaryEfficiency allSlots |}.

(** ** The rules engine as the scheduler sees it *)

(** The scheduler module imports the [rulesEngine] instance and reaches
    it only through these methods.  The scheduler's definitions take the
    instance as a parameter; the program is their instantiation at
    [rulesEngine]. *)
Record RulesEngine : Type := mkEngine {
  eng_allocateDailyHours : list Subject -> Q -> completion (list Allocation);
  eng_getOptimalSessionLength : Subject -> Z -> completion Z;
  eng_getBreakDuration : Subject -> Z -> completion Z;
  eng_needsLongBreak : Z -> Z -> bool;
  eng_validateSchedule :
    list DaySchedule -> list Subject -> ValidationContext -> completion Validation;
  eng_generateSuggestions : list Violation -> list DaySchedule -> list Suggestion
}.

Definition rulesEngine : RulesEngine :=
  {| eng_allocateDailyHours := allocateDailyHours;
     eng_getOptimalSessionLength := getOptimalSessionLength;
     eng_getBreakDuration := getBreakDuration;
     eng_needsLongBreak := needsLongBreak;
     eng_validateSchedule := validateSchedule;
     eng_generateSuggestions := generateSuggestions |}.

(** ** Scheduler *)

Record Timeline : Type := mkTimeline {
  totalDays : nat;
  tl_dailyHours : Q
}.

Record Inputs : Type := mkInputs {
  timeline : Timeline;
  sessionSettings : SessionSettings
}.

Record Plan : Type := mkPlan {
  plan_schedule : list DaySchedule;
  allocations : list Allocation;
  validation : Validation;
  suggestions : list Suggestion;
  summary : Summary
}.

(** The variables of the [while] loop of [generateDaySchedule]. *)
Record FillState : Type := mkFill {
  daySlots : list Slot;
  currentTime : Z;
  sessionCount : Z;
  fs_lastSubjectId : option string;
  remainingHours : Q;
  subjectIndex : nat
}.

(** [l.slice(a, b)] for [0 <= a <= b]. *)
Definition slice {A} (a b : nat) (l : list A) : list A := take (b - a) (drop a l).

(** [l.findIndex(p)], [None] for [-1]. *)
Fixpoint findIndex {A} (p : A -> bool) (l : list A) : option nat :=
  match l with
  | [] => None
  | x :: xs => if p x then Some O else option_map S (findIndex p xs)
  end.

(** [l.splice(i, 0, x)] for [i <= length l]. *)
Definition spliceIn {A} (i : nat) (x : A) (l : list A) : list A :=
  app (take i l) (x :: drop i l).

Definition needsRevisionToday (days : gmap string Z) (a : Allocation) : bool :=
  num_ge (days !! id (alloc_subject a)) CONFIG.SCHEDULING_RULES.REVISION_FREQUENCY.

(** The comparator of [todaysSubjects.sort]. *)
Definition todaysOrder (days : gmap string Z) (a b : Allocation) : option Z :=
  let aNeedsRevision := needsRevisionToday days a in
  let bNeedsRevision := needsRevisionToday days b in
  if (aNeedsRevision && negb bNeedsRevision)%bool then Some (-1)
  else if (negb aNeedsRevision && bNeedsRevision)%bool then Some 1
  else js_sub (priorityOrder (priority (alloc_subject b)))
              (priorityOrder (priority (alloc_subject a))).

(** [selectTodaysSubjects].  The property [hoursScheduled] it reads is
    assigned nowhere in the program, so [subject.hoursScheduled || 0] is
    [0].  With no available subject the slice bounds are [NaN] and the
    result is empty. *)
Definition selectTodaysSubjects (this : SmartScheduler)
    (allocs : list Allocation) (dayIndex : nat) : list Allocation :=
  let days := sc_daysSinceLastStudy (context this) in
  let revisionSubjects :=
    List.filter (fun a => Z.leb CONFIG.SCHEDULING_RULES.REVISION_FREQUENCY
                            (daysSince days (id (alloc_subject a)))) allocs in
  match revisionSubjects with
  | _ :: _ => slice 0 3 revisionSubjects
  | [] =>
      let availableSubjects :=
        List.filter (fun a => Qgtb (allocatedHours a * inject_Z (Z.of_nat dayIndex + 1)) 0)
                    allocs in
      let subjectsPerDay := Nat.min (length availableSubjects) 4 in
      match subjectsPerDay with
      | O => []
      | _ =>
          let startIdx :=
            Nat.modulo dayIndex (Nat.max 1 (length availableSubjects / subjectsPerDay)) in
          slice startIdx (startIdx + subjectsPerDay) availableSubjects
      end
  end.

(** [updateContextAfterDay]: the sessions of the day reset their subject's
    counter and record the last subject; then every key is incremented. *)
Definition noteSession (ctx : SchedulerContext) (slot : Slot) : SchedulerContext :=
  if isStudySlot slot then
    {| sc_lastScheduledSubject := subjectId slot;
       sc_daysSinceLastStudy := <[keyOf (subjectId slot) := 0]> (sc_daysSinceLastStudy ctx);
       consecutiveSessions := consecutiveSessions ctx;
       sessionCountToday := sessionCountToday ctx |}
  else ctx.

Definition incrementAll (ctx : SchedulerContext) : SchedulerContext :=
  {| sc_lastScheduledSubject := sc_lastScheduledSubject ctx;
     sc_daysSinceLastStudy := (fun n => n + 1) <$> sc_daysSinceLastStudy ctx;
     consecutiveSessions := consecutiveSessions ctx;
     sessionCountToday := sessionCountToday ctx |}.

Definition updateContextAfterDay (this : SmartScheduler) (dayIndex : nat)
    (daySchedule : DaySchedule) : SmartScheduler :=
  {| schedule := schedule this;
     currentDay := Z.of_nat dayIndex;
     context := incrementAll (fold_left noteSession (slots daySchedule) (context this)) |}.

Section Scheduler.

Variable engine : RulesEngine.

(** [calculateDate] reads the start date from the page and formats it
    for the locale; the schedule only carries the resulting text. *)
Variable calculateDate : nat -> string.

Variable this : SmartScheduler.

(** One iteration of the [while] loop, after its guard held.  The result
    says whether the loop goes on ([true]) or was left by [break].  The
    assignment to [subject.hoursScheduledToday] is left out: nothing
    reads that property.  [remainingHours] is the exact rational; the
    code subtracts in binary64, where a budget that is used up exactly
    can leave a remainder just above zero and the loop run once more,
    so nothing below states at which iteration the budget ends the
    loop. *)
Definition fillStep (todaysSubjects : list Allocation) (settings : SessionSettings)
    (dayIndex : nat) (st : FillState) : completion (bool * FillState) :=
  match nth_error todaysSubjects
          (Nat.modulo (subjectIndex st) (length todaysSubjects)) with
  | None => Return (false, st)
  | Some alloc =>
      let subject := alloc_subject alloc in
      if (match fs_lastSubjectId st with
          | Some last => String.eqb (id subject) last
          | None => false
          end && Nat.ltb 1 (length todaysSubjects))%bool
      then Return (true, {| daySlots := daySlots st; currentTime := currentTime st;
                            sessionCount := sessionCount st;
                            fs_lastSubjectId := fs_lastSubjectId st;
                            remainingHours := remainingHours st;
                            subjectIndex := S (subjectIndex st) |})
      else
        do sessionLen <- eng_getOptimalSessionLength engine subject (sessionLength settings);
        do breakLen <- eng_getBreakDuration engine subject (breakDuration settings);
        let sessionSlot := createSessionSlot this subject (currentTime st) sessionLen dayIndex in
        let time := currentTime st + sessionLen in
        let remaining := (remainingHours st - inject_Z sessionLen / 60)%Q in
        let count := sessionCount st + 1 in
        let '(slots', time, count) :=
          if eng_needsLongBreak engine count
               CONFIG.SCHEDULING_RULES.MAX_SESSIONS_WITHOUT_LONG_BREAK
          then (app (daySlots st)
                    [sessionSlot;
                     createBreakSlot this time CONFIG.SCHEDULING_RULES.LONG_BREAK_DURATION "long"],
                time + CONFIG.SCHEDULING_RULES.LONG_BREAK_DURATION, 0)
          else if Qgtb remaining 0
          then (app (daySlots st)
                    [sessionSlot; createBreakSlot this time breakLen "regular"],
                time + breakLen, count)
          else (app (daySlots st) [sessionSlot], time, count) in
        Return (negb (Z.leb (CONFIG.TIME_PREFERENCES.AVOID_LATE_NIGHT * 60) time),
                {| daySlots := slots'; currentTime := time; sessionCount := count;
                   fs_lastSubjectId := Some (id subject);
                   remainingHours := remaining;
                   subjectIndex := S (subjectIndex st) |})
  end.

(** The [while] loop, bounded by [fuel] iterations: [None] when the
    bound is reached before the loop ends. *)
Fixpoint fillDay (fuel : nat) (todaysSubjects : list Allocation)
    (settings : SessionSettings) (dayIndex : nat) (st : FillState)
  : option (completion FillState) :=
  match fuel with
  | O => None
  | S fuel' =>
      if (Qgtb (remainingHours st) 0 && Z.ltb (currentTime st) (21 * 60))%bool then
        match fillStep todaysSubjects settings dayIndex st with
        | Throw e => Some (Throw e)
        | Return (false, st') => Some (Return st')
        | Return (true, st') => fillDay fuel' todaysSubjects settings dayIndex st'
        end
      else Some (Return st)
  end.

(** The lunch patch after the loop. *)
Definition addLunch (time : Z) (sl : list Slot) : list Slot :=
  if (Z.ltb (12 * 60) time && Z.ltb time (14 * 60))%bool then
    match findIndex (fun slot => num_ge (startHour slot) 12) sl with
    | Some lunchIndex => spliceIn lunchIndex (createBreakSlot this (12 * 60) 60 "lunch") sl
    | None => sl
    end
  else sl.

Definition todaysSubjectsOf (allocs : list Allocation) (dayIndex : nat) : list Allocation :=
  js_sort (todaysOrder (sc_daysSinceLastStudy (context this)))
          (selectTodaysSubjects this allocs dayIndex).

(** The loop of [generateDaySchedule] from its initial variables.
    [sessionSettings.dailyHours] may be [undefined]; then
    [remainingHours > 0] is false and the loop body never runs. *)
Definition runFill (fuel : nat) (dayIndex : nat)
    (allocs : list Allocation) (settings : SessionSettings)
  : option (completion FillState) :=
  let todaysSubjects := todaysSubjectsOf allocs dayIndex in
  let start :=
    {| daySlots := []; currentTime := 9 * 60; sessionCount := 0;
       fs_lastSubjectId := None; remainingHours := default 0%Q (dailyHours settings);
       subjectIndex := O |} in
  match dailyHours settings with
  | None => Some (Return start)
  | Some _ => fillDay fuel todaysSubjects settings dayIndex start
  end.

Definition generateDaySchedule (fuel : nat) (dayIndex : nat)
    (allocs : list Allocation) (settings : SessionSettings)
  : option (completion DaySchedule) :=
  match runFill fuel dayIndex allocs settings with
  | None => None
  | Some (Throw e) => Some (Throw e)
  | Some (Return st) =>
      let sl := addLunch (currentTime st) (daySlots st) in
      Some (Return
        {| day := Z.of_nat dayIndex + 1;
           date := calculateDate dayIndex;
           totalSessions := Z.of_nat (length (List.filter isStudySlot sl));
           totalStudyHours := (inject_Z (studyMinutes sl) / 60)%Q;
           slots := sl |})
  end.

End Scheduler.

(** The [for] loop of [generatePlan] over the day indices: each day is
    generated in the current state, pushed on [this.schedule], its slots
    appended to [allSlots], and the rolling context updated. *)
Fixpoint planDays (engine : RulesEngine) (calculateDate : nat -> string) (fuel : nat)
    (days : list nat) (allocs : list Allocation) (settings : SessionSettings)
    (this : SmartScheduler) (allSlots : list Slot)
  : option (completion (SmartScheduler * list Slot)) :=
  match days with
  | [] => Some (Return (this, allSlots))
  | d :: rest =>
      match generateDaySchedule engine calculateDate this fuel d allocs settings with
      | None => None
      | Some (Throw e) => Some (Throw e)
      | Some (Return daySchedule) =>
          let pushed :=
            {| schedule := app (schedule this) [daySchedule];
               currentDay := currentDay this;
               context := context this |} in
          planDays engine calculateDate fuel rest allocs settings
            (updateContextAfterDay pushed d daySchedule)
            (app allSlots (slots daySchedule))
      end
  end.

(** [generatePlan(inputs, subjects)]: the plan and the scheduler's state
    after the run.  [fuel] bounds each day's loop. *)
Definition generatePlan (engine : RulesEngine) (calculateDate : nat -> string)
    (fuel : nat) (this : SmartScheduler) (inputs : Inputs) (subjects : list Subject)
  : option (completion (Plan * SmartScheduler)) :=
  match eng_allocateDailyHours engine subjects (tl_dailyHours (timeline inputs)) with
  | Throw e => Some (Throw e)
  | Return allocs =>
      let cleared :=
        {| schedule := []; currentDay := currentDay this; context := context this |} in
      match planDays engine calculateDate fuel (seq 0 (totalDays (timeline inputs)))
              allocs (sessionSettings inputs) cleared [] with
      | None => None
      | Some (Throw e) => Some (Throw e)
      | Some (Return (this', allSlots)) =>
          Some (do validated <-
                  eng_validateSchedule engine (schedule this') subjects
                    {| vc_currentDay := Some (currentDay this');
                       vc_context := context this' |};
                Return
                  ({| plan_schedule := schedule this';
                      allocations := allocs;
                      validation := validated;
                      suggestions :=
                        eng_generateSuggestions engine (violations validated) (schedule this');
                      summary := generateSummary allSlots subjects
                                   (totalDays (timeline inputs)) |},
                   this'))
      end
  end.

(** The settings the input manager collects: no [dailyHours] property. *)
Definition getSessionSettings (sessionLen breakLen : Z) : SessionSettings :=
  {| sessionLength := sessionLen; breakDuration := breakLen;
     longBreakDuration := CONFIG.SCHEDULING_RULES.LONG_BREAK_DURATION;
     dailyHours := None |}.

(** The study and revision sessions of a day, in order. *)
Definition studySequence (sl : list Slot) : list Slot := List.filter isStudySlot sl.

(** No slot of the list is directly followed by one of the same subject. *)
Fixpoint noRepeat (sl : list Slot) : bool :=
  match sl with
  | a :: ((b :: _) as rest) =>
      (negb (bool_decide (subjectId a = subjectId b)) && noRepeat rest)%bool
  | _ => true
  end.

Definition isLunch (s : Slot) : bool :=
  bool_decide (breakType s = Some "lunch").

(** ** JSON documents and localStorage *)

#[warnings="-register-all"]
Inductive json : Type :=
| JNull
| JBool (b : bool)
| JNumber (q : Q)
| JString (s : string)
| JArray (items : list json)
| JObject (members : list (string * json)).

(** A string given to [JSON.parse], identified by what [JSON.parse] makes
    of it: the document it denotes, or a syntax error.  The text
    [JSON.stringify] produces for a document denotes that document. *)
Inductive text : Type :=
| Denotes (v : json)
| Malformed.

Definition JSON_stringify (v : json) : text := Denotes v.

Definition JSON_parse (t : text) : completion json :=
  match t with
  | Denotes v => Return v
  | Malformed => Throw SyntaxError
  end.

(** [data.key]: reading a property of [null] throws; a primitive or an
    array has none of the keys read here. *)
Definition getProp (data : json) (key : string) : completion (option json) :=
  match data with
  | JNull => Throw TypeError
  | JObject members => Return (assoc_get key members)
  | _ => Return None
  end.

Definition jsonTruthy (v : option json) : bool :=
  match v with
  | None | Some JNull | Some (JBool false) => false
  | Some (JNumber q) => negb (Qeq_bool q 0)
  | Some (JString s) => negb (String.eqb s "")
  | Some _ => true
  end.

(** What [JSON.stringify] writes for a slot and a day: the own properties
    in creation order, absent ones left out. *)
Definition optMember {A} (key : string) (f : A -> json) (o : option A)
  : list (string * json) :=
  match o with
  | Some a => [(key, f a)]
  | None => []
  end.

Definition JInt (z : Z) : json := JNumber (inject_Z z).

Definition slotToJson (s : Slot) : json :=
  JObject
    (concat
       [[("id", JString (slot_id s)); ("type", JString (slot_type s))];
        optMember "subjectId" JString (subjectId s);
        [("subjectName", JString (subjectName s))];
        optMember "priority" JString (slot_priority s);
        optMember "difficulty" JString (slot_difficulty s);
        [("startTime", JString (startTime s)); ("endTime", JString (endTime s));
         ("duration", JInt (duration s))];
        optMember "completed" JBool (completed s);
        optMember "breakType" JString (breakType s);
        [("day", JInt (slot_day s))]]).

Definition dayToJson (d : DaySchedule) : json :=
  JObject
    [("day", JInt (day d)); ("date", JString (date d));
     ("totalSessions", JInt (totalSessions d));
     ("totalStudyHours", JNumber (totalStudyHours d));
     ("slots", JArray (map slotToJson (slots d)))].

Definition scheduleToJson (sched : list DaySchedule) : json :=
  JArray (map dayToJson sched).

(** [exportSchedule('json')]: [JSON.stringify(this.schedule, null, 2)]. *)
Definition exportSchedule_json (this : SmartScheduler) : text :=
  JSON_stringify (scheduleToJson (schedule this)).

(** ** storage.js *)

Module StorageManager.

Definition planKey := CONFIG.STORAGE_KEYS.STUDY_PLAN.
Definition prefsKey := CONFIG.STORAGE_KEYS.USER_PREFS.
Definition progressKey := CONFIG.STORAGE_KEYS.PROGRESS.

Record ImportResult : Type := mkImportResult {
  success : bool;
  message : string
}.

(** [if (data.key) localStorage.setItem(storeKey, JSON.stringify(data.key))]. *)
Definition storeIfPresent (data : json) (key storeKey : string)
    (ls : gmap string text) : completion (gmap string text) :=
  do v <- getProp data key;
  Return (if jsonTruthy v
          then match v with
               | Some x => <[storeKey := JSON_stringify x]> ls
               | None => ls
               end
          else ls).

(** The body of the [try] block of [importData], threading the store.
    An exception leaves the writes made before it. *)
Definition importBody (jsonString : text) (ls : gmap string text)
  : gmap string text * completion unit :=
  match JSON_parse jsonString with
  | Throw e => (ls, Throw e)
  | Return data =>
      match storeIfPresent data "plan" planKey ls with
      | Throw e => (ls, Throw e)
      | Return ls1 =>
          match storeIfPresent data "progress" progressKey ls1 with
          | Throw e => (ls1, Throw e)
          | Return ls2 =>
              match storeIfPresent data "preferences" prefsKey ls2 with
              | Throw e => (ls2, Throw e)
              | Return ls3 => (ls3, Return tt)
              end
          end
      end
  end.

Definition importData (jsonString : text) (ls : gmap string text)
  : gmap string text * ImportResult :=
  match importBody jsonString ls with
  | (ls', Return _) =>
      (ls', {| success := true; message := "Data imported successfully" |})
  | (ls', Throw _) =>
      (ls', {| success := false; message := "Invalid JSON format" |})
  end.

(** [loadPlan]: [None] is [null]. *)
Definition loadPlan (ls : gmap string text) : option json :=
  match ls !! planKey with
  | None => None
  | Some planData =>
      match JSON_parse planData with
      | Return v => Some v
      | Throw _ => None
      end
  end.

(** The schedule a stored plan carries, if any: [plan.schedule]. *)
Definition loadedSchedule (ls : gmap string text) : option json :=
  match loadPlan ls with
  | Some (JObject members) => assoc_get "schedule" members
  | _ => None
  end.

End StorageManager.

(** ** Input manager: importData *)

Module InputManager.

(** The input manager's [subjects], the values of the form's elements by
    element id, and the local storage. *)
Record State : Type := mkState {
  subjects : json;
  form : gmap string string;
  localStorage : gmap string text
}.

(** A method acting on the state that may throw part-way. *)
Definition cmd (A : Type) : Type := State -> State * completion A.

(** [document.getElementById(id).value]: a missing element is [null],
    whose [value] cannot be read. *)
Definition elementValue (st : State) (elementId : string) : completion string :=
  match form st !! elementId with
  | Some v => Return v
  | None => Throw TypeError
  end.

Definition intOrNull (o : option Z) : json :=
  match o with
  | Some z => JInt z
  | None => JNull
  end.

Section WithPage.

(** Drawing the subject rows and filling the form from imported
    inputs act on the page; the clock gives [lastUpdated]. *)
Variable renderSubjects : cmd unit.
Variable applyInputs : json -> cmd unit.
Variable now : string.

Definition savePreferences : cmd unit := fun st =>
  match
    (do startDate <- elementValue st "startDate";
     do endDate <- elementValue st "endDate";
     do hours <- elementValue st "dailyHours";
     do sessionLen <- elementValue st "sessionLength";
     do breakLen <- elementValue st "breakDuration";
     Return
       (JObject
          [("subjects", subjects st);
           ("preferences",
            JObject
              [("startDate", JString startDate); ("endDate", JString endDate);
               ("dailyHours", intOrNull (parseInt hours));
               ("sessionLength", intOrNull (parseInt sessionLen));
               ("breakDuration", intOrNull (parseInt breakLen));
               ("lastUpdated", JString now)])]))
  with
  | Throw e => (st, Throw e)
  | Return data =>
      ({| subjects := subjects st; form := form st;
          localStorage :=
            <[CONFIG.STORAGE_KEYS.USER_PREFS := JSON_stringify data]> (localStorage st) |},
       Return tt)
  end.

(** The [try] block of [importData]. *)
Definition importBody (jsonString : text) : cmd unit := fun st =>
  match JSON_parse jsonString with
  | Throw e => (st, Throw e)
  | Return data =>
      match getProp data "subjects" with
      | Throw e => (st, Throw e)
      | Return subj =>
          let '(st1, r1) :=
            if jsonTruthy subj then
              renderSubjects {| subjects := default JNull subj; form := form st;
                                localStorage := localStorage st |}
            else (st, Return tt) in
          match r1 with
          | Throw e => (st1, Throw e)
          | Return _ =>
              match getProp data "inputs" with
              | Throw e => (st1, Throw e)
              | Return inputs =>
                  let '(st2, r2) :=
                    if jsonTruthy inputs
                    then applyInputs (default JNull inputs) st1
                    else (st1, Return tt) in
                  match r2 with
                  | Throw e => (st2, Throw e)
                  | Return _ => savePreferences st2
                  end
              end
          end
      end
  end.

Definition importData (jsonString : text) (st : State)
  : State * StorageManager.ImportResult :=
  match importBody jsonString st with
  | (st', Return _) =>
      (st', {| StorageManager.success := true;
               StorageManager.message := "Data imported successfully" |})
  | (st', Throw _) =>
      (st', {| StorageManager.success := false;
               StorageManager.message := "Invalid JSON format" |})
  end.

End WithPage.

End InputManager.
(** ** calculateSubjectWeights over object references *)

(** Subjects are objects: the caller passes references and receives
    references, and a rule's [apply] is handed the reference, through
    which it could write as well as read.  [Heap] embeds
    [calculateSubjectWeights] over a store of objects, so that what the
    call writes is visible.  The objects a rule returns and the
    [adjustments] object are created inside the call and reachable only
    from its results; they are kept as values. *)
Module Heap.

(** A subject object: its own properties, and [adjustments] when it is
    an enriched copy. *)
Record object : Type := mkObject {
  fields : Subject;
  obj_adjustments : option (gmap string RuleResult)
}.

Abbreviation store := (gmap nat object).

(** A rule as the engine holds it: [apply] receives the subject's
    reference and the context, runs on the store and leaves a store. *)
Record RefRule : Type := mkRefRule {
  ref_name : string;
  ref_apply : nat -> Context -> store -> store * completion RuleResult
}.

(** The five arrow functions of [initializeRules] read properties of
    [subject] and of [context] and assign to neither: on the store, each
    reads the subject and leaves the store as it is. *)
Definition reading (r : Rule) : RefRule :=
  {| ref_name := rule_name r;
     ref_apply := fun ref ctx h =>
       match h !! ref with
       | Some o => (h, apply r (fields o) ctx)
       | None => (h, Throw TypeError)
       end |}.

(** [this.rules]. *)
Definition rules : list RefRule :=
  [reading priority_allocation; reading difficulty_adaptation;
   reading time_preference; reading consecutive_avoidance;
   reading revision_scheduling].

(** The object literal of a result: a new object at an unused address. *)
Definition alloc (o : object) (h : store) : nat * store :=
  let l := fresh (dom h) in (l, <[l := o]> h).

(** [this.rules.forEach]: each rule runs on the store the one before it
    left; the first exception ends the traversal. *)
Fixpoint applyRules (rs : list RefRule) (ref : nat) (ctx : Context) (h : store)
    (acc : Q * gmap string RuleResult)
  : store * completion (Q * gmap string RuleResult) :=
  match rs with
  | [] => (h, Return acc)
  | rule :: rest =>
      match ref_apply rule ref ctx h with
      | (h', Throw e) => (h', Throw e)
      | (h', Return result) =>
          let totalWeight := timesIfTruthy (fst acc) (weightMultiplier result) in
          let totalWeight := timesIfTruthy totalWeight (revisionPriority result) in
          applyRules rest ref ctx h'
            (totalWeight, <[ref_name rule := result]> (snd acc))
      end
  end.

(** The callback of [subjects.map] on a reference.  After the rules, it
    reads [subject.difficulty] and spreads the subject's properties, as
    they are in the store by then, into a new object. *)
Definition weighRef (rs : list RefRule) (ctx : Context) (h : store) (ref : nat)
  : store * completion nat :=
  match applyRules rs ref ctx h (1%Q, ∅) with
  | (h1, Throw e) => (h1, Throw e)
  | (h1, Return (totalWeight, adj)) =>
      match h1 !! ref with
      | None => (h1, Throw TypeError)
      | Some o =>
          let totalWeight :=
            (totalWeight
             * q_or (CONFIG.DIFFICULTY_WEIGHTS (difficulty (fields o))) 1)%Q in
          let '(l, h2) :=
            alloc {| fields := set_weight (fields o) (toFixed 2 totalWeight);
                     obj_adjustments := Some adj |} h1 in
          (h2, Return l)
      end
  end.

(** [subjects.map] with the rule list [rs]. *)
Fixpoint calculateWith (rs : list RefRule) (refs : list nat) (ctx : Context)
    (h : store) : store * completion (list nat) :=
  match refs with
  | [] => (h, Return [])
  | r :: rest =>
      match weighRef rs ctx h r with
      | (h1, Throw e) => (h1, Throw e)
      | (h1, Return l) =>
          match calculateWith rs rest ctx h1 with
          | (h2, Throw e) => (h2, Throw e)
          | (h2, Return ls) => (h2, Return (l :: ls))
          end
      end
  end.

Definition calculateSubjectWeights (refs : list nat) (ctx : Context) (h : store)
  : store * completion (list nat) :=
  calculateWith rules refs ctx h.

(** A rule that writes to no object of the store it is given. *)
Definition readOnly (r : RefRule) : Prop :=
  forall ref ctx h, fst (ref_apply r ref ctx h) = h.

(** The properties of a subject other than [weight]. *)
Definition sameProperties (s s' : Subject) : Prop :=
  id s' = id s /\ name s' = name s /\ priority s' = priority s
  /\ difficulty s' = difficulty s /\ hoursNeeded s' = hoursNeeded s
  /\ hoursCompleted s' = hoursCompleted s
  /\ sessionsCompleted s' = sessionsCompleted s.

(** [o'] is an enriched copy of [o]: it has the properties of [o], a
    weight of its own, and an [adjustments] object with one entry for
    each of the rule names. *)
Definition enrichedCopy (names : list string) (o o' : object) : Prop :=
  sameProperties (fields o) (fields o')
  /\ exists adj, obj_adjustments o' = Some adj
                 /\ dom adj = (list_to_set names : gset string).

(** The store [h'] keeps every object of [h] as it is. *)
Definition extends (h h' : store) : Prop :=
  forall l o, h !! l = Some o -> h' !! l = Some o.

(** How a result reference relates to the reference it was made from:
    it was unused before the call and holds an enriched copy of the
    input. *)
Definition copyOf (names : list string) (h h' : store) (ref l : nat) : Prop :=
  h !! l = None
  /\ exists o o', h !! ref = Some o /\ h' !! l = Some o' /\ enrichedCopy names o o'.

End Heap.

(** ** The two efficiency formulas over binary64 *)

(** JavaScript numbers are IEEE 754 binary64 values.  The rational
    embedding above is exact where the program's arithmetic is; the two
    efficiency formulas divide and compare computed quotients, where
    rounding shows.  [Float64] embeds both over the kernel's binary64
    floats. *)
Module Float64.

Import PrimFloat.

(** The number with integer value [z]; exact for [|z| <= 2^53]. *)
Definition ofZ (z : Z) : float :=
  match z with
  | Z0 => zero
  | Zpos _ => of_uint63 (Uint63.of_Z z)
  | Zneg p => opp (of_uint63 (Uint63.of_Z (Zpos p)))
  end.

(** [Math.max(0, x)]. *)
Definition Math_max0 (x : float) : float :=
  if is_nan x then x else if ltb x zero then zero else x.

(** The rational a finite float stands for. *)
Definition toQ (x : float) : option Q :=
  match Prim2SF x with
  | SpecFloat.S754_zero _ => Some 0%Q
  | SpecFloat.S754_finite s m e =>
      let mag :=
        match e with
        | Zneg p => Qmake (Zpos m) (Pos.pow 2 p)
        | _ => inject_Z (Zpos m * Z.pow 2 e)
        end in
      Some (if s then Qopp mag else mag)
  | _ => None
  end.

(** [Math.round(x)]: the nearest integer, ties upwards; [None] when [x]
    is not finite. *)
Definition Math_round (x : float) : option Z :=
  option_map (fun q => Qfloor (q + (1 # 2))) (toQ x).

(** [Math.min(100, r)]. *)
Definition Math_min100 (r : option Z) : option Z := option_map (Z.min 100) r.

(** The literal [0.2]: the binary64 value nearest to one fifth. *)
Definition fifth : float := 0x1.999999999999ap-3%float.

(** [calculateEfficiencyScore], with the two sums accumulated in slot
    order as the nested [forEach] does. *)
Definition calculateEfficiencyScore (sched : list DaySchedule) : option Z :=
  let '(totalStudyTime, totalBreakTime) :=
    fold_left
      (fun acc slot =>
         if isStudySlot slot then (add (fst acc) (ofZ (duration slot)), snd acc)
         else if isBreakSlot slot then (fst acc, add (snd acc) (ofZ (duration slot)))
         else acc)
      (allSlotsOf sched) (zero, zero) in
  if eqb totalStudyTime zero then Some 0
  else
    let actualRatio := div totalBreakTime totalStudyTime in
    let idealRatio := div (ofZ 17) (ofZ 52) in
    let ratioScore :=
      Math_max0 (sub (ofZ 100) (mul (abs (sub actualRatio idealRatio)) (ofZ 1000))) in
    let breakBonus :=
      if ltb (mul totalStudyTime fifth) totalBreakTime then ofZ 10 else zero in
    Math_min100 (Math_round (add ratioScore breakBonus)).

(** The efficiency block of [generateSummary]. *)
Definition summaryEfficiency (allSlots : list Slot) : option Z :=
  let sumDurations (sl : list Slot) :=
    fold_left (fun sum s => add sum (ofZ (duration s))) sl zero in
  let totalStudyHours := div (sumDurations (List.filter isStudySlot allSlots)) (ofZ 60) in
  let totalBreakHours := div (sumDurations (List.filter isBreakSlot allSlots)) (ofZ 60) in
  if ltb zero totalStudyHours then
    let actualRatio := div totalBreakHours totalStudyHours in
    let idealRatio := div (ofZ 17) (ofZ 52) in
    let ratioScore :=
      Math_max0 (sub (ofZ 100) (mul (abs (sub actualRatio idealRatio)) (ofZ 1000))) in
    let breakBonus :=
      if ltb (mul totalStudyHours fifth) totalBreakHours then ofZ 10 else zero in
    Math_min100 (Math_round (add ratioScore breakBonus))
  else Some 0.

End Float64.

(** A session or break slot carrying only what the scores read. *)
Definition plainSlot (type : string) (subject : option string) (minutes : Z) : Slot :=
  {| slot_id := ""; slot_type := type; subjectId := subject;
     subjectName := default "Break" subject; slot_priority := None;
     slot_difficulty := None; startTime := ""; endTime := "";
     duration := minutes; completed := None; breakType := None; slot_day := 1 |}.

Definition plainDay (sl : list Slot) : DaySchedule :=
  {| day := 1; date := ""; totalSessions := Z.of_nat (length (List.filter isStudySlot sl));
     totalStudyHours := (inject_Z (studyMinutes sl) / 60)%Q; slots := sl |}.

(** ** Example data *)

(** The three subjects the input manager starts with. *)
Definition defaultSubjects : list Subject :=
  [ {| id := "ds"; name := "Data Structures"; priority := "high"; difficulty := "hard";
       hoursNeeded := 30; hoursCompleted := 0; sessionsCompleted := 0; weight := 0 |};
    {| id := "algo"; name := "Algorithms"; priority := "high"; difficulty := "medium";
       hoursNeeded := 25; hoursCompleted := 0; sessionsCompleted := 0; weight := 0 |};
    {| id := "db"; name := "Database Systems"; priority := "medium"; difficulty := "medium";
       hoursNeeded := 20; hoursCompleted := 0; sessionsCompleted := 0; weight := 0 |} ].

(** Their weights under the context of a fresh scheduler. *)
Definition defaultWeighted : list WeightedSubject :=
  match calculateSubjectWeights defaultSubjects (schedulerContext None ∅) with
  | Return ws => ws
  | Throw _ => []
  end.

(** An engine to exercise the scheduler with: its session-length and
    break methods run the same rules as [rulesEngine], but hand them a
    context that has [daysSinceLastStudy] and [defaultSessionLength];
    allocation uses a context with [daysSinceLastStudy].  (The program's
    own instance passes no context, and those calls throw.) *)
Definition suppliedContext (defaultLength : option Z) : Context :=
  {| defaultSessionLength := defaultLength;
     lastScheduledSubject := None;
     daysSinceLastStudy := Some ∅ |}.

Definition adjustmentsUnder (ctx : Context) (subject : Subject)
  : completion (gmap string RuleResult) :=
  do weighted <- calculateSubjectWeights [subject] ctx;
  match weighted with
  | w :: _ => Return (adjustments w)
  | [] => Throw TypeError
  end.

Definition suppliedEngine : RulesEngine :=
  {| eng_allocateDailyHours := fun subjects hours =>
       do ws <- calculateSubjectWeights subjects (suppliedContext None);
       Return (allocateHours ws hours);
     eng_getOptimalSessionLength := fun subject defaultLength =>
       do adj <- adjustmentsUnder (suppliedContext (Some defaultLength)) subject;
       Return (num_or
                 match adj !! "difficulty_adaptation" with
                 | Some r => default JUndefined (adaptedSessionLength r)
                 | None => JUndefined
                 end defaultLength);
     eng_getBreakDuration := fun subject defaultBreak =>
       do adj <- adjustmentsUnder (suppliedContext None) subject;
       Return (Math_round
                 (inject_Z defaultBreak
                  * q_or match adj !! "difficulty_adaptation" with
                         | Some r => breakMultiplier r
                         | None => None
                         end 1));
     eng_needsLongBreak := needsLongBreak;
     eng_validateSchedule := validateSchedule;
     eng_generateSuggestions := generateSuggestions |}.

Definition defaultAllocations : list Allocation := allocateHours defaultWeighted 4.

(** Settings with a daily budget, as [generateDaySchedule] reads them. *)
Definition exampleSettings : SessionSettings :=
  {| sessionLength := 60; breakDuration := 10; longBreakDuration := 30;
     dailyHours := Some 4%Q |}.

Definition noDate (dayIndex : nat) : string := "".


(** A day holding one hour of study of the subject "ds". *)
Definition oneSessionDay : DaySchedule :=
  plainDay [plainSlot "study" (Some "ds") 60].

(** A scheduler whose schedule is that day. *)
Definition exampleScheduler : SmartScheduler :=
  {| schedule := [oneSessionDay]; currentDay := 0; context := context newScheduler |}.

(** A schedule with 535 minutes of study and 107 minutes of break. *)
Definition fifthSchedule : list DaySchedule :=
  [plainDay [plainSlot "study" (Some "ds") 535; plainSlot "break" None 107]].

(** The Pomodoro proportion: 52 minutes of study, 17 of break. *)
Definition pomodoroSchedule : list DaySchedule :=
  [plainDay [plainSlot "study" (Some "ds") 52; plainSlot "break" None 17]].


(** A store holding the first two default subjects at addresses 0 and 1. *)
Definition exampleStore : gmap nat Heap.object :=
  <[1%nat := {| Heap.fields := mkSubject "algo" "Algorithms" "high" "medium" 25 0 0 0;
                Heap.obj_adjustments := None |}]>
    (<[0%nat := {| Heap.fields := mkSubject "ds" "Data Structures" "high" "hard" 30 0 0 0;
                   Heap.obj_adjustments := None |}]> ∅).

(** A rule that assigns to its subject, to compare with the rules of the
    program. *)
Definition writingRule : Heap.RefRule :=
  {| Heap.ref_name := "writing";
     Heap.ref_apply := fun ref ctx h =>
       (alter (fun o => {| Heap.fields := set_weight (Heap.fields o) 7;
                           Heap.obj_adjustments := Heap.obj_adjustments o |}) ref h,
        Return {| weightMultiplier := None; adaptedSessionLength := None;
                  breakMultiplier := None; preferredTimeSlots := None;
                  avoidConsecutive := None; coolDown := None;
                  needsRevision := None; revisionPriority := None |}) |}.



(** ** Runs of sessions of one subject *)






(** Whether a session of the schedule names a listed subject. *)
Definition namesListedSubject (subjects : list Subject) (sched : list DaySchedule) : bool :=
  existsb (fun d =>
             existsb (fun s => (isStudySlot s
                                && bool_decide (is_Some (findSubject subjects (subjectId s))))%bool)
                     (slots d))
          sched.

(** Whether a key is the id of a listed subject. *)
Definition listedKey (subjects : list Subject) (k : string) : bool :=
  existsb (fun s => String.eqb (id s) k) subjects.

(** A study or revision slot whose key finds an inherited member of
    [subjectStats]. *)
Definition strayIn (subjects : list Subject) (s : Slot) : bool :=
  (isStudySlot s && inheritsMember subjects (keyOf (subjectId s)))%bool.

(** Whether a session of the schedule has such a key. *)
Definition namesInheritedMember (subjects : list Subject) (sched : list DaySchedule) : bool :=
  existsb (fun d => existsb (strayIn subjects) (slots d)) sched.


Definition studyOf (subject : string) : Slot := plainSlot "study" (Some subject) 60.

Definition freshValidation : ValidationContext :=
  {| vc_currentDay := Some 0; vc_context := context newScheduler |}.


(** ** Lunch *)

(** The test of the lunch patch on a slot: its start time reads as hour
    twelve or more. *)
Definition startsAtTwelve (slot : Slot) : bool := num_ge (startHour slot) 12.

Definition lunchBreaks (sl : list Slot) : list Slot := List.filter isLunch sl.

(** Settings with a daily budget of three hours. *)
Definition threeHourSettings : SessionSettings :=
  {| sessionLength := 60; breakDuration := 10; longBreakDuration := 30;
     dailyHours := Some 3%Q |}.

(** Start and end times of the slots of a returned day. *)
Definition timesOf (r : option (completion DaySchedule)) : list (string * string) :=
  match r with
  | Some (Return d) => map (fun s => (startTime s, endTime s)) (slots d)
  | _ => []
  end.

Definition lunchesOf (r : option (completion DaySchedule)) : option (list Slot) :=
  match r with
  | Some (Return d) => Some (lunchBreaks (slots d))
  | _ => None
  end.


(** The loop's last state on the first day of the default subjects with a
    budget of three hours, under [suppliedEngine]. *)
Definition threeHourFill : FillState :=
  match runFill suppliedEngine newScheduler 100 0 defaultAllocations threeHourSettings with
  | Some (Return st) => st
  | _ => {| daySlots := []; currentTime := 0; sessionCount := 0;
            fs_lastSubjectId := None; remainingHours := 0; subjectIndex := O |}
  end.

(** ** Notions used in the statements and proofs below *)

(** The unrounded share of one subject. *)
Definition share (total hours : Q) (w : WeightedSubject) : Q :=
  (ws_weight w / total * hours)%Q.

(** The loop invariant: no repeat among the sessions so far, and the
    variable [lastSubjectId] is the last session's subject. *)
Definition fillInv (st : FillState) : Prop :=
  noRepeat (studySequence (daySlots st)) = true
  /\ forall y, last (studySequence (daySlots st)) = Some y ->
               subjectId y = fs_lastSubjectId st.


(** The own keys of the statistics during the walk: each is a listed id
    or a key at which [subjectStats] inherits nothing truthy. *)
Definition ownKeysPlain (subjects : list Subject) (st : list (string * SubjectStats)) : Prop :=
  forall k, is_Some (assoc_get k st) ->
            listedKey subjects k = true \/ inheritsMember subjects k = false.

(** A slot at which the walk throws. *)
Definition throwsAt (subjects : list Subject) (s : Slot) : bool :=
  (isStudySlot s
   && (bool_decide (is_Some (findSubject subjects (subjectId s)))
       || inheritsMember subjects (keyOf (subjectId s))))%bool.



(** What the loop puts in a day: slots stamped with a formatted start
    time, none of them a lunch break. *)
Definition loopSlot (s : Slot) : Prop :=
  isLunch s = false /\ exists minutes, startTime s = formatTime minutes.

(** Whether the next iteration of the day's loop would skip its subject:
    the subject in turn is the one of the last session and more than one
    subject was selected. *)
Definition nextSkips (todaysSubjects : list Allocation) (st : FillState) : bool :=
  match nth_error todaysSubjects
          (Nat.modulo (subjectIndex st) (length todaysSubjects)) with
  | Some alloc =>
      (match fs_lastSubjectId st with
       | Some last => String.eqb (id (alloc_subject alloc)) last
       | None => false
       end && Nat.ltb 1 (length todaysSubjects))%bool
  | None => false
  end.

(** A bound on the iterations the day's loop has left: two for every
    minute before 21:00, and one more when the next iteration skips. *)
Definition iterationsLeft (todaysSubjects : list Allocation) (st : FillState) : nat :=
  (2 * Z.to_nat (21 * 60 - currentTime st)
   + if nextSkips todaysSubjects st then 1 else 0)%nat.
From Stdlib Require Import Sorted.

(** ** Further notions used in statements *)

(** The factors of a subject's weight. *)
Definition priorityWeight (s : Subject) : Q := q_or (CONFIG.PRIORITY_WEIGHTS (priority s)) 1.
Definition difficultyWeight (s : Subject) : Q :=
  q_or (CONFIG.DIFFICULTY_WEIGHTS (difficulty s)) 1.
Definition revisionWeight (days : gmap string Z) (s : Subject) : Q :=
  if Z.leb CONFIG.SCHEDULING_RULES.REVISION_FREQUENCY (default 0 (days !! id s))
  then (3 # 2)%Q else 1%Q.

(** A subject whose priority and difficulty are not names of members of
    [Object.prototype]: the lookups in the two weight tables find an own
    property or nothing. *)
Definition plainKeys (s : Subject) : Prop :=
  inheritedKey (priority s) = false /\ inheritedKey (difficulty s) = false.

(** The rank [priorityOrder] gives a priority, [0] when it has none. *)
Definition priorityRank (s : Subject) : Z := default 0 (priorityOrder (priority s)).

Definition knownPriority (s : Subject) : Prop := is_Some (priorityOrder (priority s)).

(** An engine with fixed session and break lengths. *)
Definition fixedEngine (sessionLen breakLen : Z) : RulesEngine :=
  {| eng_allocateDailyHours := fun subjects hours =>
       do ws <- calculateSubjectWeights subjects (suppliedContext None);
       Return (allocateHours ws hours);
     eng_getOptimalSessionLength := fun _ _ => Return sessionLen;
     eng_getBreakDuration := fun _ _ => Return breakLen;
     eng_needsLongBreak := needsLongBreak;
     eng_validateSchedule := validateSchedule;
     eng_generateSuggestions := generateSuggestions |}.

(** The order [allocateDailyHours] leaves its result in: priorities do
    not increase along the list. *)
Definition byPriority (a b : Allocation) : Prop :=
  priorityRank (alloc_subject b) <= priorityRank (alloc_subject a).

Definition hasPriority (p : string) (s : Subject) : bool := String.eqb (priority s) p.

(** Whether a violation is of one of the two kinds a walk can report. *)
Definition reportableKind (v : Violation) : Prop :=
  v_type v = "consecutive_sessions" \/ v_type v = "revision_needed".

(** The slots follow one another from minute [t]: each carries the start
    and end time of its place, and a session starts before 21:00. *)
Fixpoint tiles (t : Z) (sl : list Slot) : Prop :=
  match sl with
  | [] => True
  | s :: rest =>
      startTime s = formatTime t
      /\ endTime s = formatTime (t + duration s)
      /\ (isStudySlot s = true -> t < 21 * 60)
      /\ tiles (t + duration s) rest
  end.

Definition withoutLunch (sl : list Slot) : list Slot :=
  List.filter (fun s => negb (isLunch s)) sl.

(** What the day loop keeps true of its slots and its clock. *)
Definition dayInv (st : FillState) : Prop :=
  tiles (9 * 60) (daySlots st)
  /\ currentTime st = 9 * 60 + sumZ (map duration (daySlots st)).

(** A subject is due for revision. *)
Definition dueForRevision (this : SmartScheduler) (a : Allocation) : bool :=
  Z.leb CONFIG.SCHEDULING_RULES.REVISION_FREQUENCY
        (daysSince (sc_daysSinceLastStudy (context this)) (id (alloc_subject a))).

(** The subjects with a positive allocation. *)
Definition positiveAllocations (allocs : list Allocation) : list Allocation :=
  List.filter (fun a => Qgtb (allocatedHours a) 0) allocs.



(** What holds of a subject read from a row of the form. *)
Definition wellRead (s : Subject) : Prop :=
  name s <> "" /\ (0 < hoursNeeded s)%Q /\ hoursCompleted s = 0%Q
  /\ sessionsCompleted s = 0 /\ weight s = 0%Q.

(** Sessions and breaks in turn, counted from [count] sessions since the
    last long break: every session is followed by a break, a long one
    of 30 minutes after the fourth session since the last long break
    and a regular one otherwise.  The result is the count reached. *)
Fixpoint paired (count : Z) (sl : list Slot) : option Z :=
  match sl with
  | [] => Some count
  | s :: rest =>
      match rest with
      | [] => None
      | b :: rest' =>
          if (isStudySlot s && isBreakSlot b)%bool then
            if Z.leb CONFIG.SCHEDULING_RULES.MAX_SESSIONS_WITHOUT_LONG_BREAK (count + 1)
            then
              if (bool_decide (breakType b = Some "long")
                  && Z.eqb (duration b) CONFIG.SCHEDULING_RULES.LONG_BREAK_DURATION)%bool
              then paired 0 rest' else None
            else
              if bool_decide (breakType b = Some "regular")
              then paired (count + 1) rest' else None
          else None
      end
  end.

(** A day in which sessions and breaks take turns, the last session
    possibly without a break after it. *)
Definition paced (sl : list Slot) : Prop :=
  is_Some (paired 0 sl)
  \/ exists front s, sl = app front [s] /\ is_Some (paired 0 front) /\ isStudySlot s = true.

(** What the day loop keeps true of the turns of sessions and breaks. *)
Definition pacedSoFar (st : FillState) : Prop :=
  paired 0 (daySlots st) = Some (sessionCount st)
  \/ ((remainingHours st <= 0)%Q
      /\ exists front s, daySlots st = app front [s]
                         /\ is_Some (paired 0 front) /\ isStudySlot s = true).

(** ** rules.js: generateConstraints *)









(** ** Scheduler: markSessionCompleted *)

(** [session.completed = true]. *)
Definition setCompleted (s : Slot) : Slot :=
  {| slot_id := slot_id s; slot_type := slot_type s; subjectId := subjectId s;
     subjectName := subjectName s; slot_priority := slot_priority s;
     slot_difficulty := slot_difficulty s; startTime := startTime s;
     endTime := endTime s; duration := duration s; completed := Some true;
     breakType := breakType s; slot_day := slot_day s |}.

(** [day.slots.find(s => s.id === sessionId)] followed by the
    assignment: the slots with the first match marked, [None] when there
    is no match. *)
Fixpoint markInSlots (sessionId : string) (sl : list Slot) : option (list Slot) :=
  match sl with
  | [] => None
  | s :: rest =>
      if String.eqb (slot_id s) sessionId then Some (setCompleted s :: rest)
      else option_map (cons s) (markInSlots sessionId rest)
  end.

Definition withSlots (d : DaySchedule) (sl : list Slot) : DaySchedule :=
  {| day := day d; date := date d; totalSessions := totalSessions d;
     totalStudyHours := totalStudyHours d; slots := sl |}.

(** The loop over [this.schedule], left at the first day with a match. *)
Fixpoint markInDays (sessionId : string) (days : list DaySchedule)
  : list DaySchedule * bool :=
  match days with
  | [] => ([], false)
  | d :: rest =>
      match markInSlots sessionId (slots d) with
      | Some sl => (withSlots d sl :: rest, true)
      | None =>
          let '(rest', found) := markInDays sessionId rest in
          (d :: rest', found)
      end
  end.

Definition markSessionCompleted (this : SmartScheduler) (sessionId : string)
  : SmartScheduler * bool :=
  let '(days, found) := markInDays sessionId (schedule this) in
  ({| schedule := days; currentDay := currentDay this; context := context this |}, found).

(** A slot with its [completed] property left aside. *)
Definition eraseCompleted (s : Slot) : Slot :=
  {| slot_id := slot_id s; slot_type := slot_type s; subjectId := subjectId s;
     subjectName := subjectName s; slot_priority := slot_priority s;
     slot_difficulty := slot_difficulty s; startTime := startTime s;
     endTime := endTime s; duration := duration s; completed := None;
     breakType := breakType s; slot_day := slot_day s |}.

Definition hasId (sessionId : string) (s : Slot) : bool := String.eqb (slot_id s) sessionId.

(** The first slot with a given id marked in a flat list of slots. *)
Fixpoint markFirst (sessionId : string) (sl : list Slot) : list Slot :=
  match sl with
  | [] => []
  | s :: rest =>
      if hasId sessionId s then setCompleted s :: rest else s :: markFirst sessionId rest
  end.

(** What a day records apart from the contents of its slots. *)
Definition dayHeader (d : DaySchedule) : Z * string * Z * Q * nat :=
  (day d, date d, totalSessions d, totalStudyHours d, length (slots d)).

(** ** Reading a formatted time back *)

(** The part of a string after its first colon. *)
Fixpoint afterColon (s : string) : string :=
  match s with
  | EmptyString => EmptyString
  | String c rest => if Ascii.eqb c ":"%char then rest else afterColon rest
  end.

(** The minute of the day a time written by [formatTime] stands for. *)
Definition readClock (s : string) : option Z :=
  match parseInt (beforeColon s), parseInt (afterColon s) with
  | Some h, Some m =>
      let afternoon := String.eqb (String.substring 3 2 (afterColon s)) "PM" in
      Some ((Z.rem h 12 + if afternoon then 12 else 0) * 60 + m)
  | _, _ => None
  end.

Definition minutesOfDay : list Z := map Z.of_nat (seq 0 (24 * 60)).

(** ** storage.js: plans and progress *)

Module Storage.

Import StorageManager.




End Storage.

(** ** Input manager: reading and validating the form *)

Module InputForm.

(** [s.trim()], for the blanks [parseInt] skips. *)
Fixpoint trimEnd (s : string) : string :=
  match s with
  | EmptyString => EmptyString
  | String c rest =>
      match trimEnd rest with
      | EmptyString => if is_blank c then EmptyString else String c EmptyString
      | kept => String c kept
      end
  end.

Definition trim (s : string) : string := trimEnd (skip_blanks s).

(** The values of the four controls of a [.subject-input] row. *)
Record Row : Type := mkRow {
  row_name : string;
  row_priority : string;
  row_difficulty : string;
  row_hours : string
}.

(** The page as the input manager reads it: the values of the form's
    elements by element id, and the subject rows in document order. *)
Record Page : Type := mkPage {
  form : gmap string string;
  rows : list Row
}.

(** The input manager: [this.subjects], and how many ids [generateId]
    has handed out. *)
Record Manager : Type := mkManager {
  subjects : list Subject;
  idsIssued : nat
}.

(** What [getTimelineData] returns.  A date is its time value in
    milliseconds, [None] for an invalid date; a number is [None] when it
    is [NaN]. *)
Record TimelineData : Type := mkTimelineData {
  startDate : option Z;
  endDate : option Z;
  totalDays : option Z;
  dailyHours : option Z;
  totalStudyHours : option Z
}.

Record Checked : Type := mkChecked {
  isValid : bool;
  errors : list string
}.

Definition elementValue (page : Page) (elementId : string) : completion string :=
  match form page !! elementId with
  | Some v => Return v
  | None => Throw TypeError
  end.

Section WithBrowser.

(** [new Date(value).getTime()], [None] for [NaN]; and the ids
    [generateId] draws from the clock and the random source, in the
    order they are handed out. *)
Variable parseDate : string -> option Z.
Variable generateId : nat -> string.

Definition getTimelineData (page : Page) : completion TimelineData :=
  do startValue <- elementValue page "startDate";
  do endValue <- elementValue page "endDate";
  do hoursValue <- elementValue page "dailyHours";
  let startDate := parseDate startValue in
  let endDate := parseDate endValue in
  let dailyHours := parseInt hoursValue in
  let diffTime :=
    match startDate, endDate with
    | Some s, Some e => Some (Z.abs (e - s))
    | _, _ => None
    end in
  let totalDays :=
    option_map (fun d => Math_ceil (inject_Z d / inject_Z (1000 * 60 * 60 * 24)) + 1)
               diffTime in
  Return {| startDate := startDate; endDate := endDate; totalDays := totalDays;
            dailyHours := dailyHours;
            totalStudyHours :=
              match totalDays, dailyHours with
              | Some d, Some h => Some (d * h)
              | _, _ => None
              end |}.

(** The callback of [subjectInputs.forEach]. *)
Definition readRow (acc : list Subject * nat) (input : Row) : list Subject * nat :=
  let name := trim (row_name input) in
  let hoursNeeded := default 0 (parseInt (row_hours input)) in
  if (negb (String.eqb name "") && Z.ltb 0 hoursNeeded)%bool
  then (app (fst acc)
            [{| id := generateId (snd acc); name := name;
                priority := row_priority input; difficulty := row_difficulty input;
                hoursNeeded := inject_Z hoursNeeded; hoursCompleted := 0;
                sessionsCompleted := 0; weight := 0 |}],
        S (snd acc))
  else acc.

Definition getSubjectsData (page : Page) (this : Manager) : list Subject * Manager :=
  let '(subjects, issued) := fold_left readRow (rows page) ([], idsIssued this) in
  (subjects, {| subjects := subjects; idsIssued := issued |}).

Definition pushIf (condition : bool) (message : string) (errors : list string)
  : list string :=
  if condition then app errors [message] else errors.

(** [validateInputs].  The hours are whole numbers and are printed as
    such in the last message. *)
Definition validateInputs (page : Page) (this : Manager)
  : Manager * completion Checked :=
  match getTimelineData page with
  | Throw e => (this, Throw e)
  | Return timeline =>
      let '(subjects, this') := getSubjectsData page this in
      let errors := [] in
      let errors :=
        pushIf match startDate timeline, endDate timeline with
               | Some s, Some e => Z.leb e s
               | _, _ => false
               end
               "End date must be after start date" errors in
      let errors :=
        pushIf match totalDays timeline with
               | Some d => Z.ltb d 1
               | None => false
               end
               "Study period must be at least 1 day" errors in
      let errors :=
        pushIf match dailyHours timeline with
               | Some h => (Z.ltb h 2 || Z.ltb 12 h)%bool
               | None => false
               end
               "Daily study hours must be between 2 and 12 hours" errors in
      let errors :=
        pushIf (Nat.eqb (length subjects) 0) "Please add at least one subject" errors in
      let totalHoursNeeded := sumQ (map hoursNeeded subjects) in
      let errors :=
        match totalStudyHours timeline with
        | Some totalAvailableHours =>
            pushIf (Qgtb totalHoursNeeded (inject_Z totalAvailableHours * (12 # 10)))
                   ("Total hours needed (" ++ string_of_Z (Qfloor totalHoursNeeded)
                    ++ ") exceeds available hours (" ++ string_of_Z totalAvailableHours
                    ++ "). Consider reducing hours or extending timeline.")
                   errors
        | None => errors
        end in
      (this', Return {| isValid := Nat.eqb (length errors) 0; errors := errors |})
  end.

End WithBrowser.

End InputForm.

(** Whether [getSubjectsData] keeps a row: the name has a character
    that is not white space, and the hours read as a positive number. *)
Definition keptRow (row : InputForm.Row) : bool :=
  (negb (String.eqb (InputForm.trim (InputForm.row_name row)) "")
   && Z.ltb 0 (default 0 (parseInt (InputForm.row_hours row))))%bool.

(** The subject a kept row is read as, under the id [i]. *)
Definition subjectOfRow (i : string) (row : InputForm.Row) : Subject :=
  {| id := i; name := InputForm.trim (InputForm.row_name row);
     priority := InputForm.row_priority row;
     difficulty := InputForm.row_difficulty row;
     hoursNeeded := inject_Z (default 0 (parseInt (InputForm.row_hours row)));
     hoursCompleted := 0; sessionsCompleted := 0; weight := 0 |}.

(** A page with six subject rows: hours in hexadecimal, a name between
    no-break spaces, hours followed by letters, a blank name, hours
    that are no number, and negative hours. *)
Definition mixedPage : InputForm.Page :=
  {| InputForm.form := ∅;
     InputForm.rows :=
       [InputForm.mkRow "Logic" "high" "hard" "0x10";
        InputForm.mkRow (String (ascii_of_nat 160) ("Algebra" ++ String (ascii_of_nat 160) ""))
          "medium" "easy" " 12";
        InputForm.mkRow "Optics" "low" "medium" "7 hours";
        InputForm.mkRow "   " "high" "hard" "5";
        InputForm.mkRow "Botany" "high" "hard" "many";
        InputForm.mkRow "Latin" "low" "easy" "-3"] |}.

(** Ids numbered in the order they are handed out. *)
Definition numberedId (n : nat) : string := "id" ++ string_of_Z (Z.of_nat n).

(** A page whose dates and daily hours are not readable, with one
    subject row; and the manager before any id was handed out. *)
Definition unreadablePage : InputForm.Page :=
  {| InputForm.form :=
       <["startDate" := ""]> (<["endDate" := "soon"]> (<["dailyHours" := "many"]> ∅));
     InputForm.rows := [InputForm.mkRow " Algebra " "high" "hard" "12"] |}.

Definition freshManager : InputForm.Manager :=
  {| InputForm.subjects := []; InputForm.idsIssued := 0 |}.

(** * Properties *)

(** ** Completions and traversals *)

Lemma mapM_throw_head {A B} (f : A -> completion B) (x : A) (xs : list A) (e : JsError) :
  f x = Throw e -> mapM f (x :: xs) = Throw e.
Proof. intros H. simpl. rewrite H. reflexivity. Qed.

(** ** The rules under the default context *)

(** The first four rules return under any context. *)
Lemma first_rules_return (s : Subject) (ctx : Context) :
  returned (apply priority_allocation s ctx)
  /\ returned (apply difficulty_adaptation s ctx)
  /\ returned (apply time_preference s ctx)
  /\ returned (apply consecutive_avoidance s ctx).
Proof. repeat split; eexists; reflexivity. Qed.

Lemma revision_scheduling_throws (s : Subject) (ctx : Context) :
  daysSinceLastStudy ctx = None -> apply revision_scheduling s ctx = Throw TypeError.
Proof. intros H. simpl. rewrite H. reflexivity. Qed.

Lemma weighSubject_default_throws (s : Subject) :
  weighSubject emptyContext s = Throw TypeError.
Proof. reflexivity. Qed.

Lemma weights_default_throw (s : Subject) (rest : list Subject) :
  calculateSubjectWeights (s :: rest) emptyContext = Throw TypeError.
Proof. apply mapM_throw_head, weighSubject_default_throws. Qed.

Lemma adjustmentsOf_throws (s : Subject) : adjustmentsOf s = Throw TypeError.
Proof. unfold adjustmentsOf. rewrite weights_default_throw. reflexivity. Qed.

(** C1. For every non-empty subject list, [calculateSubjectWeights] under
    the default context [{}] throws a TypeError, raised by the
    [revision_scheduling] rule reading [context.daysSinceLastStudy[...]]
    (the four rules before it return); [allocateDailyHours],
    [getOptimalSessionLength] and [getBreakDuration], which call it
    without a context, throw likewise instead of returning a value. *)
Theorem default_context_throws (s : Subject) (rest : list Subject) (hours : Q)
    (defaultLength defaultBreak : Z) :
  apply revision_scheduling s emptyContext = Throw TypeError
  /\ calculateSubjectWeights (s :: rest) emptyContext = Throw TypeError
  /\ allocateDailyHours (s :: rest) hours = Throw TypeError
  /\ getOptimalSessionLength s defaultLength = Throw TypeError
  /\ getBreakDuration s defaultBreak = Throw TypeError.
Proof.
  split; [reflexivity|].
  split; [apply weights_default_throw|].
  split.
  - unfold allocateDailyHours. rewrite weights_default_throw. reflexivity.
  - unfold getOptimalSessionLength, getBreakDuration.
    rewrite adjustmentsOf_throws. split; reflexivity.
Qed.

(** With no subject there is nothing to weigh and the calls return. *)
Lemma empty_list_returns (hours : Q) :
  calculateSubjectWeights [] emptyContext = Return []
  /\ allocateDailyHours [] hours = Return [].
Proof. split; reflexivity. Qed.

(** ** Session lengths *)

(** The difficulty rule alone, when the context carries a default length:
    it caps hard subjects at 45, floors easy ones at 60, and leaves the
    others at the default. *)
Lemma difficulty_rule_clamps (s : Subject) (ctx : Context) (d : Z) :
  defaultSessionLength ctx = Some d ->
  exists r, apply difficulty_adaptation s ctx = Return r
    /\ (difficulty s = "hard" -> adaptedSessionLength r = Some (JNum (Z.min d 45)))
    /\ (difficulty s = "easy" -> adaptedSessionLength r = Some (JNum (Z.max d 60)))
    /\ (difficulty s = "medium" -> adaptedSessionLength r = Some (JNum d)).
Proof.
  intros Hd. eexists. split; [reflexivity|]. simpl. rewrite Hd.
  repeat split; intros ->; reflexivity.
Qed.

(** Without a default length in the context the rule computes [NaN] for
    hard and easy subjects. *)
Lemma difficulty_rule_without_default (s : Subject) (ctx : Context) :
  defaultSessionLength ctx = None ->
  exists r, apply difficulty_adaptation s ctx = Return r
    /\ (difficulty s = "hard" -> adaptedSessionLength r = Some JNaN)
    /\ (difficulty s = "easy" -> adaptedSessionLength r = Some JNaN).
Proof.
  intros Hd. eexists. split; [reflexivity|]. simpl. rewrite Hd.
  split; intros ->; reflexivity.
Qed.

(** C3, evaluated on the code: for a medium-difficulty subject and the
    default length 50, and for a hard subject and the default 90,
    [getOptimalSessionLength] throws instead of returning 50 and a value
    of at most 45. *)
Theorem getOptimalSessionLength_throws_on_examples :
  getOptimalSessionLength
    {| id := "s1"; name := "Algorithms"; priority := "high"; difficulty := "medium";
       hoursNeeded := 25; hoursCompleted := 0; sessionsCompleted := 0; weight := 0 |} 50
    = Throw TypeError
  /\ getOptimalSessionLength
    {| id := "s2"; name := "Data Structures"; priority := "high"; difficulty := "hard";
       hoursNeeded := 30; hoursCompleted := 0; sessionsCompleted := 0; weight := 0 |} 90
    = Throw TypeError.
Proof. split; reflexivity. Qed.

(** ** Proportional allocation *)

Lemma sumQ_acc (l : list Q) (a : Q) : (fold_left Qplus l a == a + sumQ l)%Q.
Proof.
  unfold sumQ. revert a. induction l as [|x xs IH]; intros a; simpl.
  - lra.
  - rewrite (IH (a + x)%Q), (IH (0 + x)%Q). lra.
Qed.

Lemma sumQ_cons (x : Q) (l : list Q) : (sumQ (x :: l) == x + sumQ l)%Q.
Proof. unfold sumQ at 1. simpl. rewrite sumQ_acc. lra. Qed.

Lemma sumQ_perm (l l' : list Q) : Permutation l l' -> (sumQ l == sumQ l')%Q.
Proof.
  induction 1 as [|x l l' _ IH|x y l|l l' l'' _ IH1 _ IH2].
  - reflexivity.
  - rewrite !sumQ_cons, IH. reflexivity.
  - rewrite !sumQ_cons. lra.
  - rewrite IH1. exact IH2.
Qed.

Lemma sort_insert_perm {A} (cmp : A -> A -> option Z) (x : A) (l : list A) :
  Permutation (sort_insert cmp x l) (x :: l).
Proof.
  induction l as [|y ys IH]; simpl.
  - reflexivity.
  - destruct (cmp_after (cmp x y)).
    + rewrite IH. apply perm_swap.
    + reflexivity.
Qed.

Lemma js_sort_perm {A} (cmp : A -> A -> option Z) (l : list A) :
  Permutation (js_sort cmp l) l.
Proof.
  induction l as [|x xs IH]; simpl.
  - reflexivity.
  - rewrite sort_insert_perm. apply perm_skip, IH.
Qed.

(** [toFixed] moves a number by at most half a unit of the last digit. *)
Lemma toFixed_error (digits : nat) (q : Q) :
  (Qabs (toFixed digits q - q) <= (1 # 2) / inject_Z (Z.pow 10 (Z.of_nat digits)))%Q.
Proof.
  unfold toFixed.
  set (scale := Z.pow 10 (Z.of_nat digits)).
  assert (Hs : (0 < inject_Z scale)%Q).
  { change 0%Q with (inject_Z 0). rewrite <- Zlt_Qlt. subst scale.
    apply Z.pow_pos_nonneg; lia. }
  set (S := inject_Z scale) in *.
  set (n := Qfloor (Qabs q * S + (1 # 2))).
  pose proof (Qfloor_le (Qabs q * S + (1 # 2))) as Hlo.
  pose proof (Qlt_floor (Qabs q * S + (1 # 2))) as Hhi.
  fold n in Hlo, Hhi. rewrite inject_Z_plus in Hhi.
  change (inject_Z 1) with 1%Q in Hhi.
  assert (Hne : ~ (S == 0)%Q) by lra.
  assert (Hx : (- ((1 # 2) / S) <= inject_Z n / S - Qabs q
                /\ inject_Z n / S - Qabs q <= (1 # 2) / S)%Q).
  { split.
    - apply (Qmult_le_r _ _ S Hs).
      setoid_replace ((inject_Z n / S - Qabs q) * S)%Q
        with (inject_Z n - Qabs q * S)%Q using relation Qeq by (field; exact Hne).
      setoid_replace (- ((1 # 2) / S) * S)%Q with (- (1 # 2))%Q using relation Qeq by (field; exact Hne).
      lra.
    - apply (Qmult_le_r _ _ S Hs).
      setoid_replace ((inject_Z n / S - Qabs q) * S)%Q
        with (inject_Z n - Qabs q * S)%Q using relation Qeq by (field; exact Hne).
      setoid_replace ((1 # 2) / S * S)%Q with (1 # 2)%Q using relation Qeq by (field; exact Hne).
      lra. }
  apply Qabs_Qle_condition.
  destruct (Qle_bool 0 q) eqn:Hq.
  - apply Qle_bool_iff in Hq. rewrite (Qabs_pos q Hq) in Hx. exact Hx.
  - assert (Hneg : (q <= 0)%Q).
    { destruct (Qlt_le_dec 0 q) as [H|H]; [|exact H].
      apply Qlt_le_weak, Qle_bool_iff in H. congruence. }
    rewrite (Qabs_neg q Hneg) in Hx.
    rewrite inject_Z_opp.
    setoid_replace (- inject_Z n / S - q)%Q with (- (inject_Z n / S - - q))%Q
      using relation Qeq by (field; exact Hne).
    destruct Hx as [H1 H2]. split; lra.
Qed.

Lemma toFixed2_error (q : Q) : (Qabs (toFixed 2 q - q) <= 1 # 200)%Q.
Proof.
  pose proof (toFixed_error 2 q) as H.
  change ((1 # 2) / inject_Z (Z.pow 10 (Z.of_nat 2)))%Q with ((1 # 2) / 100)%Q in H.
  setoid_replace ((1 # 2) / 100)%Q with (1 # 200)%Q using relation Qeq in H by reflexivity.
  exact H.
Qed.

Lemma shares_sum (total hours : Q) (ws : list WeightedSubject) :
  ~ (total == 0)%Q ->
  (sumQ (map (share total hours) ws) == sumQ (map ws_weight ws) / total * hours)%Q.
Proof.
  intros Hne. induction ws as [|w ws IH]; simpl.
  - unfold sumQ. simpl. field. exact Hne.
  - rewrite !sumQ_cons, IH. unfold share. field. exact Hne.
Qed.

Lemma rounded_sum_error (xs : list Q) :
  (Qabs (sumQ (map (toFixed 2) xs) - sumQ xs)
   <= inject_Z (Z.of_nat (length xs)) * (1 # 200))%Q.
Proof.
  induction xs as [|x xs IH].
  - vm_compute. discriminate.
  - cbn [map length]. rewrite !sumQ_cons, Nat2Z.inj_succ.
    unfold Z.succ. rewrite inject_Z_plus.
    setoid_replace (toFixed 2 x + sumQ (map (toFixed 2) xs) - (x + sumQ xs))%Q
      with ((toFixed 2 x - x) + (sumQ (map (toFixed 2) xs) - sumQ xs))%Q using relation Qeq by ring.
    eapply Qle_trans; [apply Qabs_triangle|].
    pose proof (toFixed2_error x). change (inject_Z 1) with 1%Q. lra.
Qed.

Lemma allocateHours_hours (ws : list WeightedSubject) (hours : Q) :
  (sumQ (map allocatedHours (allocateHours ws hours))
   == sumQ (map (toFixed 2)
             (map (share (sumQ (map ws_weight ws)) hours) ws)))%Q.
Proof.
  unfold allocateHours.
  rewrite (sumQ_perm _ _ (Permutation_map allocatedHours (js_sort_perm _ _))).
  rewrite !map_map. reflexivity.
Qed.

Lemma positive_total (ws : list WeightedSubject) :
  ws <> [] -> Forall (fun w => 0 < ws_weight w)%Q ws ->
  (0 < sumQ (map ws_weight ws))%Q.
Proof.
  intros Hne Hall. destruct ws as [|w ws]; [congruence|]. clear Hne.
  inversion Hall as [|? ? Hw Hrest]; subst.
  simpl. rewrite sumQ_cons.
  assert (0 <= sumQ (map ws_weight ws))%Q.
  { clear Hw Hall. induction Hrest as [|v vs Hv _ IH]; simpl.
    - vm_compute. discriminate.
    - rewrite sumQ_cons. lra. }
  lra.
Qed.

(** The allocation step, given weights: for a non-empty list of weighted
    subjects with positive weights, every allocation holds the share
    [weight / totalWeight * totalDailyHours] of its subject rounded to
    two decimals, so the allocated hours sum to [totalDailyHours] up to
    0.005 per subject. *)
Lemma allocateHours_sum_within_rounding (ws : list WeightedSubject) (hours : Q) :
  ws <> [] -> Forall (fun w => 0 < ws_weight w)%Q ws ->
  (Qabs (sumQ (map allocatedHours (allocateHours ws hours)) - hours)
   <= inject_Z (Z.of_nat (length ws)) * (1 # 200))%Q.
Proof.
  intros Hne Hpos.
  pose proof (positive_total ws Hne Hpos) as Htotal.
  set (total := sumQ (map ws_weight ws)) in *.
  assert (Hnz : ~ (total == 0)%Q) by lra.
  rewrite allocateHours_hours. fold total.
  pose proof (rounded_sum_error (map (share total hours) ws)) as Herr.
  rewrite length_map in Herr.
  rewrite (shares_sum total hours ws Hnz) in Herr. fold total in Herr.
  setoid_replace (total / total * hours)%Q with hours using relation Qeq in Herr by (field; exact Hnz).
  exact Herr.
Qed.

(** ** The day loop *)

Lemma weighSubject_positive (ctx : Context) (s : Subject) (w : WeightedSubject) :
  weighSubject ctx s = Return w -> (0 < ws_weight w)%Q.
Proof.
  unfold weighSubject. cbn [rules foldM].
  unfold applyRule at 1 2 3 4 5.
  destruct ctx as [dl last [days|]]; cbn -[toFixed Z.leb insert]; [|discriminate].
  intros [= <-]. unfold ws_weight. cbn -[toFixed Z.leb insert].
  unfold CONFIG.PRIORITY_WEIGHTS, CONFIG.DIFFICULTY_WEIGHTS.
  destruct (Z.leb _ _);
    repeat match goal with
           | |- context [String.eqb ?a ?b] => destruct (String.eqb a b)
           end;
    vm_compute; reflexivity.
Qed.

(** Whatever the context, the weights [calculateSubjectWeights] returns
    are positive. *)
Lemma computed_weights_positive (ctx : Context) (subjects : list Subject)
    (ws : list WeightedSubject) :
  calculateSubjectWeights subjects ctx = Return ws ->
  Forall (fun w => 0 < ws_weight w)%Q ws.
Proof.
  unfold calculateSubjectWeights. revert ws.
  induction subjects as [|s rest IH]; intros ws; simpl.
  - intros [= <-]. constructor.
  - destruct (weighSubject ctx s) as [w|e] eqn:Hw; simpl; [|discriminate].
    destruct (mapM (weighSubject ctx) rest) as [ws'|e]; simpl; [|discriminate].
    intros [= <-]. constructor.
    + eapply weighSubject_positive, Hw.
    + apply IH. reflexivity.
Qed.

Lemma session_is_study (this : SmartScheduler) (subject : Subject) (t d : Z) (dayIndex : nat) :
  isStudySlot (createSessionSlot this subject t d dayIndex) = true.
Proof. unfold createSessionSlot, isStudySlot. simpl. destruct (Z.leb _ _); reflexivity. Qed.

Lemma break_is_not_study (this : SmartScheduler) (t d : Z) (kind : string) :
  isStudySlot (createBreakSlot this t d kind) = false.
Proof. reflexivity. Qed.

Lemma studySequence_app (l l' : list Slot) :
  studySequence (app l l') = app (studySequence l) (studySequence l').
Proof. unfold studySequence. apply List.filter_app. Qed.

Lemma noRepeat_snoc (l : list Slot) (x : Slot) :
  noRepeat l = true ->
  (forall y, last l = Some y -> subjectId y <> subjectId x) ->
  noRepeat (app l [x]) = true.
Proof.
  induction l as [|a [|b rest] IH]; intros Hl Hlast.
  - reflexivity.
  - simpl. rewrite bool_decide_eq_false_2; [reflexivity|].
    apply Hlast. reflexivity.
  - change (noRepeat (a :: b :: app rest [x]) = true).
    simpl in Hl. apply andb_true_iff in Hl as [Hab Hrest].
    cbn [noRepeat]. rewrite Hab. simpl. apply IH; [exact Hrest|].
    intros y Hy. apply Hlast. exact Hy.
Qed.

Lemma last_snoc_slot (l : list Slot) (x : Slot) : last (app l [x]) = Some x.
Proof. apply last_snoc. Qed.

Section DayLoop.

Variable engine : RulesEngine.
Variable this : SmartScheduler.
Variable todaysSubjects : list Allocation.
Variable settings : SessionSettings.
Variable dayIndex : nat.

Hypothesis several : (1 < length todaysSubjects)%nat.

Lemma fillStep_inv (st st' : FillState) (again : bool) :
  fillStep engine this todaysSubjects settings dayIndex st = Return (again, st') ->
  fillInv st -> fillInv st'.
Proof.
  unfold fillStep. intros Hstep [Hno Hlast].
  destruct (nth_error _ _) as [alloc|]; [|injection Hstep as _ <-; split; assumption].
  apply Nat.ltb_lt in several as Hlt. rewrite Hlt, andb_true_r in Hstep.
  destruct (match fs_lastSubjectId st with
            | Some l => String.eqb (id (alloc_subject alloc)) l
            | None => false
            end) eqn:Hsame.
  { injection Hstep as _ <-. split; assumption. }
  destruct (eng_getOptimalSessionLength _ _ _) as [len|e]; simpl in Hstep; [|discriminate].
  destruct (eng_getBreakDuration _ _ _) as [brk|e]; simpl in Hstep; [|discriminate].
  set (session := createSessionSlot this (alloc_subject alloc) (currentTime st) len dayIndex)
    in *.
  assert (Hfresh : forall y, last (studySequence (daySlots st)) = Some y ->
                             subjectId y <> subjectId session).
  { intros y Hy. rewrite (Hlast y Hy). simpl.
    destruct (fs_lastSubjectId st) as [l|]; [|discriminate].
    intros [= ->]. rewrite String.eqb_refl in Hsame. discriminate. }
  assert (Hseq : forall extra st2, studySequence extra = [] ->
            daySlots st2 = app (daySlots st) (session :: extra) ->
            fs_lastSubjectId st2 = Some (id (alloc_subject alloc)) ->
            fillInv st2).
  { intros extra st2 Hextra Hslots Hid. unfold fillInv. rewrite Hslots, Hid.
    rewrite studySequence_app.
    change (studySequence (session :: extra))
      with (if isStudySlot session then session :: studySequence extra
            else studySequence extra).
    unfold session at 1 3. rewrite session_is_study, Hextra. fold session.
    split.
    - apply noRepeat_snoc; assumption.
    - intros y. rewrite last_snoc_slot. intros [= <-]. reflexivity. }
  destruct (eng_needsLongBreak _ _ _).
  - injection Hstep as _ <-.
    apply (Hseq [createBreakSlot this (currentTime st + len)
                   CONFIG.SCHEDULING_RULES.LONG_BREAK_DURATION "long"]);
      reflexivity.
  - destruct (Qgtb _ _); injection Hstep as _ <-.
    + apply (Hseq [createBreakSlot this (currentTime st + len) brk "regular"]);
        reflexivity.
    + apply (Hseq []); reflexivity.
Qed.

End DayLoop.

Lemma studySequence_spliceIn (i : nat) (x : Slot) (l : list Slot) :
  isStudySlot x = false -> studySequence (spliceIn i x l) = studySequence l.
Proof.
  intros Hx. unfold spliceIn. rewrite studySequence_app.
  change (studySequence (x :: drop i l))
    with (if isStudySlot x then x :: studySequence (drop i l) else studySequence (drop i l)).
  rewrite Hx, <- studySequence_app, take_drop. reflexivity.
Qed.

Lemma studySequence_addLunch (this : SmartScheduler) (time : Z) (l : list Slot) :
  studySequence (addLunch this time l) = studySequence l.
Proof.
  unfold addLunch. destruct (_ && _)%bool; [|reflexivity].
  destruct (findIndex _ l); [|reflexivity].
  apply studySequence_spliceIn. reflexivity.
Qed.

(** What [generateDaySchedule] returns, in terms of the loop's last state. *)
Lemma generateDaySchedule_returns (engine : RulesEngine) (calculateDate : nat -> string)
    (this : SmartScheduler) (fuel dayIndex : nat) (allocs : list Allocation)
    (settings : SessionSettings) (d : DaySchedule) :
  generateDaySchedule engine calculateDate this fuel dayIndex allocs settings
    = Some (Return d) ->
  exists st,
    runFill engine this fuel dayIndex allocs settings = Some (Return st)
    /\ slots d = addLunch this (currentTime st) (daySlots st).
Proof.
  unfold generateDaySchedule.
  destruct (runFill _ _ _ _ _ _) as [[st|e]|]; try discriminate.
  intros [= <-]. exists st. split; reflexivity.
Qed.

Lemma runFill_inv (engine : RulesEngine) (this : SmartScheduler) (fuel dayIndex : nat)
    (allocs : list Allocation) (settings : SessionSettings) (st : FillState)
    (P : FillState -> Prop) :
  (forall st0, daySlots st0 = [] -> fs_lastSubjectId st0 = None -> P st0) ->
  (forall todays st1 st2 again,
     todays = todaysSubjectsOf this allocs dayIndex ->
     fillStep engine this todays settings dayIndex st1 = Return (again, st2) ->
     P st1 -> P st2) ->
  runFill engine this fuel dayIndex allocs settings = Some (Return st) -> P st.
Proof.
  intros Hstart Hstep. unfold runFill.
  destruct (dailyHours settings) as [hours|].
  - simpl. generalize (Hstart {| daySlots := []; currentTime := 9 * 60; sessionCount := 0;
                                  fs_lastSubjectId := None; remainingHours := hours;
                                  subjectIndex := O |} eq_refl eq_refl).
    generalize {| daySlots := []; currentTime := 9 * 60; sessionCount := 0;
                  fs_lastSubjectId := None; remainingHours := hours;
                  subjectIndex := O |}.
    induction fuel as [|fuel IH]; intros st0 HP; simpl; [discriminate|].
    destruct (_ && _)%bool; [|intros [= <-]; exact HP].
    destruct (fillStep _ _ _ _ _ st0) as [[[|] st1]|e] eqn:Hs.
    + apply IH. eapply Hstep; [reflexivity|exact Hs|exact HP].
    + intros [= <-]. eapply Hstep; [reflexivity|exact Hs|exact HP].
    + discriminate.
  - intros [= <-]. apply Hstart; reflexivity.
Qed.

(** C6. On every day for which two or more subjects were selected, the
    schedule [generateDaySchedule] returns has no study or revision slot
    directly followed, in the day's sequence of sessions, by another slot
    of the same subject.  This holds for every state of the scheduler
    (hence for every day of a run) and every rules engine. *)
Theorem no_back_to_back_sessions (engine : RulesEngine) (calculateDate : nat -> string)
    (this : SmartScheduler) (fuel dayIndex : nat) (allocs : list Allocation)
    (settings : SessionSettings) (d : DaySchedule) :
  generateDaySchedule engine calculateDate this fuel dayIndex allocs settings
    = Some (Return d) ->
  (1 < length (selectTodaysSubjects this allocs dayIndex))%nat ->
  noRepeat (studySequence (slots d)) = true.
Proof.
  intros Hgen Hsel.
  destruct (generateDaySchedule_returns _ _ _ _ _ _ _ _ Hgen) as (st & Hfill & ->).
  rewrite studySequence_addLunch.
  apply (runFill_inv _ _ _ _ _ _ _ fillInv) in Hfill as [Hno _]; [exact Hno| |].
  - intros st0 Hslots Hlast. split; rewrite Hslots; [reflexivity|discriminate].
  - intros todays st1 st2 again -> Hstep Hinv.
    eapply fillStep_inv; [|exact Hstep|exact Hinv].
    unfold todaysSubjectsOf. rewrite (Permutation_length (js_sort_perm _ _)). exact Hsel.
Qed.

(** A day of the default subjects under [suppliedEngine]: three subjects
    are selected and five sessions scheduled. *)
Lemma no_back_to_back_sessions_witness :
  (1 < length (selectTodaysSubjects newScheduler defaultAllocations 0))%nat
  /\ exists d,
       generateDaySchedule suppliedEngine noDate newScheduler 100 0
         defaultAllocations exampleSettings = Some (Return d)
       /\ length (studySequence (slots d)) = 5%nat
       /\ noRepeat (studySequence (slots d)) = true.
Proof.
  split; [vm_compute; lia|].
  eexists. split; [vm_compute; reflexivity|].
  split; [vm_compute; reflexivity|].
  apply (no_back_to_back_sessions suppliedEngine noDate newScheduler 100 0
           defaultAllocations exampleSettings).
  - vm_compute. reflexivity.
  - vm_compute. lia.
Defined.

(** C2, evaluated on the code: for the two subjects of the scenario, one
    of high priority and hard, one of medium priority and medium
    difficulty, and four daily hours, [allocateDailyHours] throws a
    TypeError instead of returning two allocations whose hours sum to
    4.  The call returns for the empty subject list only, and then
    with no allocation: it never returns hours to sum. *)
Theorem allocateDailyHours_throws_on_scenario :
  allocateDailyHours
    [ {| id := "s1"; name := "Data Structures"; priority := "high"; difficulty := "hard";
         hoursNeeded := 30; hoursCompleted := 0; sessionsCompleted := 0; weight := 0 |};
      {| id := "s2"; name := "Database Systems"; priority := "medium";
         difficulty := "medium"; hoursNeeded := 20; hoursCompleted := 0;
         sessionsCompleted := 0; weight := 0 |} ] 4
  = Throw TypeError
  /\ forall (subjects : list Subject) (hours : Q) (allocations : list Allocation),
       allocateDailyHours subjects hours = Return allocations ->
       subjects = [] /\ allocations = [].
Proof.
  split; [reflexivity|].
  intros [|s rest] hours allocations Hreturn.
  - injection Hreturn as <-. split; reflexivity.
  - unfold allocateDailyHours in Hreturn. rewrite weights_default_throw in Hreturn.
    discriminate.
Qed.

(** Past the throw, the hours are rounded to two decimals.  On the input
    manager's three default subjects the call throws as well; the
    allocation step applied to the weights 4.5, 3 and 2 they get under a
    context that has [daysSinceLastStudy] gives 1.89, 1.26 and 0.84
    hours, which sum to 3.99. *)
Lemma allocation_step_example :
  allocateDailyHours defaultSubjects 4 = Throw TypeError
  /\ calculateSubjectWeights defaultSubjects (schedulerContext None ∅)
       = Return defaultWeighted
  /\ Forall (fun w => 0 < ws_weight w)%Q defaultWeighted
  /\ map allocatedHours (allocateHours defaultWeighted 4)
       = [189 # 100; 126 # 100; 84 # 100]%Q
  /\ (sumQ (map allocatedHours (allocateHours defaultWeighted 4)) == 399 # 100)%Q.
Proof.
  split; [reflexivity|].
  split; [vm_compute; reflexivity|].
  split; [apply (computed_weights_positive (schedulerContext None ∅) defaultSubjects);
          vm_compute; reflexivity|].
  split; vm_compute; reflexivity.
Qed.

(** ** The rolling context *)





(** ** The two efficiency scores *)

Lemma Qgtb_compat (a a' b b' : Q) :
  (a == a')%Q -> (b == b')%Q -> Qgtb a b = Qgtb a' b'.
Proof.
  intros Ha Hb. unfold Qgtb. f_equal.
  destruct (Qle_bool a b) eqn:H1, (Qle_bool a' b') eqn:H2; try reflexivity.
  - apply Qle_bool_iff in H1. rewrite Ha, Hb in H1.
    apply Qle_bool_iff in H1. congruence.
  - apply Qle_bool_iff in H2. rewrite <- Ha, <- Hb in H2.
    apply Qle_bool_iff in H2. congruence.
Qed.

Lemma Qmax_compat (a b b' : Q) : (b == b')%Q -> (Qmax a b == Qmax a b')%Q.
Proof.
  intros Hb. unfold Qmax.
  destruct (Qle_bool a b) eqn:H1, (Qle_bool a b') eqn:H2; try assumption; try reflexivity.
  - apply Qle_bool_iff in H1. rewrite Hb in H1. apply Qle_bool_iff in H1. congruence.
  - apply Qle_bool_iff in H2. rewrite <- Hb in H2. apply Qle_bool_iff in H2. congruence.
Qed.

Lemma Math_round_compat (a b : Q) : (a == b)%Q -> Math_round a = Math_round b.
Proof. intros H. unfold Math_round. apply Qfloor_comp. rewrite H. reflexivity. Qed.

(** Dividing both totals by 60 changes neither the ratio nor the outcome
    of the bonus comparison, when the study total is positive. *)
Lemma hours_ratio (brk study : Z) :
  0 < study ->
  (inject_Z brk / 60 / (inject_Z study / 60) == inject_Z brk / inject_Z study)%Q.
Proof.
  intros Hs. assert (~ (inject_Z study == 0)%Q).
  { change 0%Q with (inject_Z 0). rewrite inject_Z_injective. lia. }
  field. assumption.
Qed.

Lemma hours_bonus (brk study : Z) :
  Qgtb (inject_Z brk / 60) (inject_Z study / 60 * (2 # 10))
  = Qgtb (inject_Z brk) (inject_Z study * (2 # 10)).
Proof.
  unfold Qgtb, Qdiv. change (/ 60)%Q with (1 # 60)%Q. f_equal.
  destruct (Qle_bool (inject_Z brk * (1 # 60)) _) eqn:H1,
           (Qle_bool (inject_Z brk) _) eqn:H2; try reflexivity.
  - apply Qle_bool_iff in H1.
    assert (inject_Z brk <= inject_Z study * (2 # 10))%Q as H by lra.
    apply Qle_bool_iff in H. congruence.
  - apply Qle_bool_iff in H2.
    assert (inject_Z brk * (1 # 60) <= inject_Z study * (1 # 60) * (2 # 10))%Q as H by lra.
    apply Qle_bool_iff in H. congruence.
Qed.

(** C8, amended.  In exact arithmetic, for every schedule whose total
    study time is not negative, the efficiency score [generateSummary]
    computes over hours equals the one [calculateEfficiencyScore] computes
    over minutes. *)
Theorem efficiency_scores_agree_exactly (sched : list DaySchedule) :
  0 <= studyMinutes (allSlotsOf sched) ->
  summaryEfficiency (allSlotsOf sched) = calculateEfficiencyScore sched.
Proof.
  intros Hnn. unfold summaryEfficiency, calculateEfficiencyScore.
  set (study := studyMinutes (allSlotsOf sched)) in *.
  set (brk := breakMinutes (allSlotsOf sched)).
  destruct (Z.eqb_spec study 0) as [->|Hne].
  - reflexivity.
  - assert (Hpos : 0 < study) by lia.
    assert (Hgt : Qgtb (inject_Z study / 60) 0 = true).
    { unfold Qgtb. destruct (Qle_bool _ _) eqn:H; [|reflexivity].
      apply Qle_bool_iff in H.
      assert (0 < inject_Z study)%Q.
      { change 0%Q with (inject_Z 0). rewrite <- Zlt_Qlt. exact Hpos. }
      unfold Qdiv in H. change (/ 60)%Q with (1 # 60)%Q in H. lra. }
    rewrite Hgt. cbv zeta. rewrite hours_bonus. f_equal.
    apply Math_round_compat. apply Qplus_comp; [|reflexivity].
    apply Qmax_compat. rewrite (hours_ratio brk study Hpos). reflexivity.
Qed.

Lemma efficiency_scores_agree_witness :
  0 <= studyMinutes (allSlotsOf pomodoroSchedule)
  /\ summaryEfficiency (allSlotsOf pomodoroSchedule) = 100
  /\ calculateEfficiencyScore pomodoroSchedule = 100.
Proof.
  split; [vm_compute; discriminate|].
  split; [reflexivity|].
  rewrite <- (efficiency_scores_agree_exactly pomodoroSchedule).
  - reflexivity.
  - vm_compute. discriminate.
Defined.

(** C8, as stated, fails in the program's arithmetic: for 535 minutes of
    study and 107 minutes of break, [calculateEfficiencyScore] yields 0
    and the summary's score is 10.  Over minutes the bonus test compares
    107 with 535 * 0.2, which are equal; over hours the two quotients by
    60 are rounded and the break side comes out larger. *)
Lemma efficiency_scores_counterexample :
  Float64.calculateEfficiencyScore fifthSchedule = Some 0
  /\ Float64.summaryEfficiency (allSlotsOf fifthSchedule) = Some 10
  /\ PrimFloat.ltb (PrimFloat.mul (Float64.ofZ 535) Float64.fifth) (Float64.ofZ 107) = false
  /\ PrimFloat.ltb
       (PrimFloat.mul (PrimFloat.div (Float64.ofZ 535) (Float64.ofZ 60)) Float64.fifth)
       (PrimFloat.div (Float64.ofZ 107) (Float64.ofZ 60)) = true.
Proof. repeat split; vm_compute; reflexivity. Qed.

(** With a negative study total the two also part in exact arithmetic:
    the summary tests [> 0], the rules engine [=== 0]. *)
Lemma efficiency_scores_negative_study :
  calculateEfficiencyScore
    [plainDay [plainSlot "study" (Some "ds") (-52); plainSlot "break" None (-17)]] = 100
  /\ summaryEfficiency
       [plainSlot "study" (Some "ds") (-52); plainSlot "break" None (-17)] = 0.
Proof. split; vm_compute; reflexivity. Qed.

(** ** Export and import *)

(** The exported text denotes an array, and an array has none of the
    properties the import functions look for. *)
Lemma export_has_no_member (this : SmartScheduler) (key : string) :
  JSON_parse (exportSchedule_json this) = Return (scheduleToJson (schedule this))
  /\ getProp (scheduleToJson (schedule this)) key = Return None.
Proof. split; reflexivity. Qed.

(** C9, amended.  Importing the text [exportSchedule('json')] produces
    does not bring the schedule back.  [storage.importData] reports
    success and leaves the local storage as it was, stored plan included.
    The input manager's [importData] neither replaces its subjects nor
    touches the form; it only runs [savePreferences], reports success when
    that returns, and leaves the stored plan as it was. *)
Theorem exported_schedule_is_not_imported (this : SmartScheduler)
    (ls : gmap string text)
    (renderSubjects : InputManager.cmd unit)
    (applyInputs : json -> InputManager.cmd unit) (now : string)
    (st : InputManager.State) :
  StorageManager.importData (exportSchedule_json this) ls
    = (ls, {| StorageManager.success := true;
              StorageManager.message := "Data imported successfully" |})
  /\ InputManager.importBody renderSubjects applyInputs now (exportSchedule_json this) st
     = InputManager.savePreferences now st
  /\ InputManager.subjects
       (fst (InputManager.importData renderSubjects applyInputs now
               (exportSchedule_json this) st)) = InputManager.subjects st
  /\ InputManager.form
       (fst (InputManager.importData renderSubjects applyInputs now
               (exportSchedule_json this) st)) = InputManager.form st
  /\ StorageManager.loadPlan
       (InputManager.localStorage
          (fst (InputManager.importData renderSubjects applyInputs now
                  (exportSchedule_json this) st)))
     = StorageManager.loadPlan (InputManager.localStorage st).
Proof.
  split; [reflexivity|]. split; [reflexivity|].
  unfold InputManager.importData.
  change (InputManager.importBody renderSubjects applyInputs now
            (exportSchedule_json this) st)
    with (InputManager.savePreferences now st).
  unfold InputManager.savePreferences.
  destruct (bind _ _) as [data|e]; repeat split; try reflexivity.
  cbn [fst InputManager.localStorage]. unfold StorageManager.loadPlan.
  rewrite lookup_insert_ne; [reflexivity|]. discriminate.
Qed.

(** C9, as stated, fails for a schedule of one day with one session:
    after the exported text is imported into an empty storage no plan is
    stored, so there is no schedule to compare slot counts with. *)
Lemma export_import_counterexample :
  scheduleToJson (schedule exampleScheduler)
    = JArray [dayToJson oneSessionDay]
  /\ StorageManager.loadPlan
       (fst (StorageManager.importData (exportSchedule_json exampleScheduler) ∅)) = None
  /\ StorageManager.loadedSchedule
       (fst (StorageManager.importData (exportSchedule_json exampleScheduler) ∅)) = None.
Proof. repeat split. Qed.

(** A plan object carrying the schedule would be stored: the import reads
    the [plan] member of an object. *)
Lemma plan_member_is_imported (sched : json) (ls : gmap string text) :
  StorageManager.loadedSchedule
    (fst (StorageManager.importData
            (JSON_stringify (JObject [("plan", JObject [("schedule", sched)])])) ls))
  = Some sched.
Proof.
  unfold StorageManager.importData, StorageManager.importBody. simpl.
  unfold StorageManager.loadedSchedule, StorageManager.loadPlan.
  cbn [fst]. rewrite lookup_insert_eq. reflexivity.
Qed.
(** ** calculateSubjectWeights leaves its inputs alone *)

Module HeapFacts.

(** The embedding over values, under names that stay apart from the
    ones over references. *)
Local Abbreviation calculateOnValues := calculateSubjectWeights.
Local Abbreviation rulesOnValues := rules.

Import Heap.

Lemma extends_refl (h : store) : extends h h.
Proof. intros l o H. exact H. Qed.

Lemma extends_trans (h1 h2 h3 : store) :
  extends h1 h2 -> extends h2 h3 -> extends h1 h3.
Proof. intros H12 H23 l o H. apply H23, H12, H. Qed.

Lemma alloc_spec (o : object) (h : store) :
  h !! fst (alloc o h) = None
  /\ snd (alloc o h) !! fst (alloc o h) = Some o
  /\ extends h (snd (alloc o h)).
Proof.
  unfold alloc. cbn [fst snd].
  assert (Hfresh : h !! fresh (dom h) = None).
  { apply not_elem_of_dom, is_fresh. }
  split; [exact Hfresh|]. split.
  - apply lookup_insert_eq.
  - intros l o' Hl. rewrite lookup_insert_ne; [exact Hl|].
    intros <-. congruence.
Qed.

(** Each rule of the program is read-only. *)
Lemma reading_readOnly (r : Rule) : readOnly (reading r).
Proof. intros ref ctx h. cbn. destruct (h !! ref); reflexivity. Qed.

Lemma rules_readOnly : Forall readOnly rules.
Proof. repeat constructor; apply reading_readOnly. Qed.


(** Read-only rules leave the store as it was, and [adjustments] gets
    one entry for each rule that ran. *)
Lemma applyRules_spec (rs : list RefRule) (ref : nat) (ctx : Context) (h : store)
    (acc : Q * gmap string RuleResult) :
  Forall readOnly rs ->
  fst (applyRules rs ref ctx h acc) = h
  /\ forall totalWeight adj,
       snd (applyRules rs ref ctx h acc) = Return (totalWeight, adj) ->
       dom adj = dom (snd acc) ∪ (list_to_set (map ref_name rs) : gset string).
Proof.
  intros Hro. revert h acc. induction Hro as [|rule rest Hrule _ IH]; intros h acc.
  - cbn. split; [reflexivity|]. intros totalWeight adj [= ->]. cbn [snd map list_to_set].
    rewrite union_empty_r_L. reflexivity.
  - cbn [applyRules]. pose proof (Hrule ref ctx h) as Hsame.
    destruct (ref_apply rule ref ctx h) as [h' [result|e]]; cbn [fst] in Hsame; subst h'.
    + destruct (IH h (timesIfTruthy (timesIfTruthy (fst acc) (weightMultiplier result))
                        (revisionPriority result),
                      <[ref_name rule := result]> (snd acc))) as [Hstore Hadj].
      split; [exact Hstore|]. intros totalWeight adj Hres.
      rewrite (Hadj _ _ Hres). cbn [snd map list_to_set]. rewrite dom_insert_L.
      rewrite (union_comm_L {[ref_name rule]} (dom (snd acc))), union_assoc_L.
      reflexivity.
    + cbn. split; [reflexivity|discriminate].
Qed.

Lemma set_weight_sameProperties (s : Subject) (w : Q) : sameProperties s (set_weight s w).
Proof. repeat split. Qed.

Lemma weighRef_spec (rs : list RefRule) (ctx : Context) (h : store) (ref : nat) :
  Forall readOnly rs ->
  extends h (fst (weighRef rs ctx h ref))
  /\ forall l, snd (weighRef rs ctx h ref) = Return l ->
       h !! l = None
       /\ exists o o', h !! ref = Some o
                       /\ fst (weighRef rs ctx h ref) !! l = Some o'
                       /\ enrichedCopy (map ref_name rs) o o'.
Proof.
  intros Hro. unfold weighRef.
  destruct (applyRules_spec rs ref ctx h (1%Q, ∅) Hro) as [Hstore Hadj].
  destruct (applyRules rs ref ctx h (1%Q, ∅)) as [h1 [[totalWeight adj]|e]];
    cbn [fst snd] in *; subst h1.
  - destruct (h !! ref) as [o|] eqn:Href.
    + set (o' := {| fields := set_weight (fields o) _; obj_adjustments := Some adj |}).
      destruct (alloc_spec o' h) as (Hnew & Hget & Hext).
      destruct (alloc o' h) as [l h'] eqn:Ha. cbn [fst snd] in *.
      split; [exact Hext|]. intros l0 [= <-]. split; [exact Hnew|].
      exists o, o'. split; [reflexivity|]. split; [exact Hget|].
      split; [apply set_weight_sameProperties|].
      exists adj. split; [reflexivity|].
      rewrite (Hadj _ _ eq_refl). cbn [snd]. rewrite dom_empty_L, union_empty_l_L.
      reflexivity.
    + cbn [fst snd]. split; [apply extends_refl|discriminate].
  - split; [apply extends_refl|discriminate].
Qed.

Lemma Forall2_elem_r {A B} (P : A -> B -> Prop) (xs : list A) (ys : list B) (y : B) :
  Forall2 P xs ys -> In y ys -> exists x, P x y.
Proof.
  induction 1 as [|x y' xs ys Hxy _ IH]; simpl; [tauto|].
  intros [<-|Hin]; [exists x; exact Hxy|apply IH, Hin].
Qed.

(** With read-only rules the call keeps every object of the store, and
    its results are new, distinct objects, each an enriched copy of the
    input at its position. *)
Lemma calculateWith_preserves (rs : list RefRule) (refs : list nat) (ctx : Context)
    (h : store) :
  Forall readOnly rs ->
  Forall (fun r => is_Some (h !! r)) refs ->
  extends h (fst (calculateWith rs refs ctx h))
  /\ forall out, snd (calculateWith rs refs ctx h) = Return out ->
       List.NoDup out
       /\ Forall2 (copyOf (map ref_name rs) h (fst (calculateWith rs refs ctx h))) refs out.
Proof.
  intros Hro. revert h. induction refs as [|r rest IH]; intros h Hvalid.
  - simpl. split; [apply extends_refl|]. intros out [= <-].
    split; constructor.
  - cbn [calculateWith].
    inversion Hvalid as [|? ? _ Hrest]; subst.
    destruct (weighRef_spec rs ctx h r Hro) as [Hext1 Hres1].
    destruct (weighRef rs ctx h r) as [h1 [l|e]]; cbn [fst snd] in *.
    + assert (Hvalid1 : Forall (fun r => is_Some (h1 !! r)) rest).
      { eapply Forall_impl; [exact Hrest|]. intros r' [q Hq]. exists q. apply Hext1, Hq. }
      destruct (IH h1 Hvalid1) as [Hext2 Hres2].
      destruct (calculateWith rs rest ctx h1) as [h2 [ls|e]]; cbn [fst snd] in *.
      * split; [eapply extends_trans; eassumption|].
        intros out [= <-].
        destruct (Hres1 l eq_refl) as (Hnew & o & o' & Hr & Hl & Hcopy).
        destruct (Hres2 ls eq_refl) as (Hnd & Hall).
        split.
        -- constructor; [|exact Hnd].
           intros Hin. destruct (Forall2_elem_r _ _ _ _ Hall Hin) as (r' & Hfresh & _).
           congruence.
        -- constructor.
           ++ split; [exact Hnew|]. exists o, o'.
              split; [exact Hr|]. split; [apply Hext2, Hl|exact Hcopy].
           ++ clear Hres2 Hnd IH. induction Hall as [|r' l' rs' ls' Hone _ IHall];
                constructor.
              ** destruct Hone as (Hfresh & p & p' & Hp & Hp' & Hc). split.
                 --- destruct (h !! l') as [q|] eqn:Hq; [|reflexivity].
                     apply Hext1 in Hq. congruence.
                 --- inversion Hrest as [|? ? [q Hq] _]; subst.
                     exists q, p'. apply Hext1 in Hq as Hq1.
                     rewrite Hq1 in Hp. injection Hp as ->.
                     split; [exact Hq|]. split; [exact Hp'|exact Hc].
              ** apply IHall.
                 --- inversion Hvalid as [|? ? Hr0 Hv0]; subst.
                     inversion Hv0; subst. constructor; assumption.
                 --- inversion Hrest; assumption.
                 --- inversion Hvalid1; assumption.
      * split; [eapply extends_trans; eassumption|discriminate].
    + split; [exact Hext1|discriminate].
Qed.

(** On the subject a reference holds, the rules over the store compute
    what the rules over values compute. *)
Lemma applyRules_reading (rs : list Rule) (ref : nat) (ctx : Context) (h : store)
    (o : object) (acc : Q * gmap string RuleResult) :
  h !! ref = Some o ->
  applyRules (map reading rs) ref ctx h acc
  = (h, foldM (applyRule (fields o) ctx) rs acc).
Proof.
  intros Href. revert acc. induction rs as [|r rs IH]; intros acc; [reflexivity|].
  cbn [map applyRules foldM reading ref_apply ref_name]. rewrite Href.
  unfold applyRule at 1. destruct (apply r (fields o) ctx) as [result|e]; cbn [bind].
  - apply IH.
  - reflexivity.
Qed.

Lemma weighRef_value (ctx : Context) (h : store) (r : nat) (o : object) :
  h !! r = Some o ->
  match weighSubject ctx (fields o) with
  | Throw e => weighRef rules ctx h r = (h, Throw e)
  | Return w =>
      weighRef rules ctx h r
      = (snd (alloc {| fields := ws_subject w; obj_adjustments := Some (adjustments w) |} h),
         Return (fst (alloc {| fields := ws_subject w;
                               obj_adjustments := Some (adjustments w) |} h)))
  end.
Proof.
  intros Hr. unfold weighRef, weighSubject.
  change rules with (map reading rulesOnValues).
  rewrite (applyRules_reading rulesOnValues r ctx h o (1%Q, ∅) Hr).
  destruct (foldM (applyRule (fields o) ctx) rulesOnValues (1%Q, ∅)) as [[totalWeight adj]|e];
    cbn [bind]; [|reflexivity].
  rewrite Hr. cbn [ws_subject adjustments]. destruct (alloc _ h). reflexivity.
Qed.

(** The embedding over references computes what the embedding over
    values computes on the subjects the references hold: it throws when
    that throws, and otherwise its results hold the returned records. *)
Lemma agrees_with_values (refs : list nat) (ctx : Context) (h : store)
    (objs : list object) :
  Forall2 (fun r o => h !! r = Some o) refs objs ->
  match calculateOnValues (map fields objs) ctx with
  | Throw e => snd (calculateSubjectWeights refs ctx h) = Throw e
  | Return ws =>
      exists out,
        snd (calculateSubjectWeights refs ctx h) = Return out
        /\ Forall2 (fun w l =>
                      fst (calculateSubjectWeights refs ctx h) !! l
                      = Some {| fields := ws_subject w;
                                obj_adjustments := Some (adjustments w) |})
                   ws out
  end.
Proof.
  unfold calculateSubjectWeights.
  intros Hrefs. revert h Hrefs. revert refs.
  induction objs as [|o objs IH]; intros refs h Hrefs.
  - inversion Hrefs; subst. simpl. exists []. split; [reflexivity|constructor].
  - inversion Hrefs as [|r ? rest ? Hr Hrest]; subst.
    unfold calculateOnValues in *. cbn [map mapM calculateWith].
    pose proof (weighRef_value ctx h r o Hr) as Hstep.
    destruct (weighSubject ctx (fields o)) as [w|e] eqn:Hw;
      rewrite Hstep; cbn [bind]; [|reflexivity].
    set (o' := {| fields := ws_subject w; obj_adjustments := Some (adjustments w) |}) in *.
    destruct (alloc_spec o' h) as (Hnew & Hget & Hext).
    set (l := fst (alloc o' h)) in *. set (h1 := snd (alloc o' h)) in *.
    assert (Hrest1 : Forall2 (fun r o => h1 !! r = Some o) rest objs).
    { eapply Forall2_impl; [exact Hrest|]. intros r' q Hq. apply Hext, Hq. }
    specialize (IH rest h1 Hrest1).
    destruct (calculateWith_preserves rules rest ctx h1 rules_readOnly) as [Hext2 _].
    { eapply Forall2_Forall_l; [exact Hrest1|].
      apply Forall_true. intros q r' Hq. eexists. exact Hq. }
    destruct (mapM (weighSubject ctx) (map fields objs)) as [ws|e]; cbn [bind].
    + destruct IH as (out & Hout & Hall).
      destruct (calculateWith rules rest ctx h1) as [h2 res]; cbn [fst snd] in *.
      subst res. exists (l :: out). split; [reflexivity|].
      constructor; [apply Hext2, Hget|exact Hall].
    + destruct (calculateWith rules rest ctx h1) as [h2 res]; cbn [fst snd] in *.
      subst res. reflexivity.
Qed.

(** A rule that assigns to its subject shows in the store: with it in
    the rule list, the input is not what it was. *)
Lemma writing_rule_is_seen :
  exists o o',
    exampleStore !! 0%nat = Some o
    /\ fst (calculateWith [writingRule] [0%nat] (schedulerContext None ∅) exampleStore)
         !! 0%nat = Some o'
    /\ o <> o'.
Proof. eexists _, _. split; [|split]; [vm_compute; reflexivity..|discriminate]. Qed.



End HeapFacts.

(** ** Consecutive-session violations *)






Lemma checkTimePreference_throws (dayIndex slotIndex : nat) (slot : Slot) (subject : Subject) :
  checkTimePreference dayIndex slotIndex slot subject = Throw TypeError.
Proof. unfold checkTimePreference. rewrite adjustmentsOf_throws. reflexivity. Qed.

(** *** Own properties *)

Lemma assoc_get_set_eq {V} (key : string) (v : V) (l : list (string * V)) :
  assoc_get key (assoc_set key v l) = Some v.
Proof.
  induction l as [|[k w] l IH]; cbn [assoc_set assoc_get].
  - rewrite String.eqb_refl. reflexivity.
  - destruct (String.eqb k key) eqn:Hk; cbn [assoc_get].
    + rewrite String.eqb_refl. reflexivity.
    + rewrite Hk. exact IH.
Qed.

Lemma assoc_get_set_ne {V} (key other : string) (v : V) (l : list (string * V)) :
  other <> key -> assoc_get other (assoc_set key v l) = assoc_get other l.
Proof.
  intros Hne. induction l as [|[k w] l IH]; cbn [assoc_set assoc_get].
  - destruct (String.eqb_spec key other); [congruence|reflexivity].
  - destruct (String.eqb_spec k key) as [->|Hk]; cbn [assoc_get].
    + destruct (String.eqb_spec key other); [congruence|reflexivity].
    + destruct (String.eqb k other); [reflexivity|exact IH].
Qed.

Lemma assoc_get_insert {V} (q k : string) (v : V) (l : list (string * V)) :
  assoc_get k l = None ->
  assoc_get q (prop_insert k v l) = if String.eqb k q then Some v else assoc_get q l.
Proof.
  induction l as [|[k' v'] l IH]; intros Hk; cbn [prop_insert assoc_get].
  - reflexivity.
  - cbn [assoc_get] in Hk. destruct (String.eqb_spec k' k) as [->|Hne]; [discriminate|].
    assert (Hstep : assoc_get q ((k', v') :: prop_insert k v l)
                    = if String.eqb k q then Some v
                      else if String.eqb k' q then Some v' else assoc_get q l).
    { cbn [assoc_get]. rewrite (IH Hk).
      destruct (String.eqb_spec k' q) as [->|Hq]; [|reflexivity].
      destruct (String.eqb_spec k q); [congruence|reflexivity]. }
    destruct (arrayIndex k) as [n|]; [|exact Hstep].
    destruct (arrayIndex k') as [n'|]; [|reflexivity].
    destruct (Z.ltb n n'); [reflexivity|exact Hstep].
Qed.

(** Reading after [o[k] = v]. *)
Lemma assoc_get_prop_set {V} (q k : string) (v : V) (l : list (string * V)) :
  assoc_get q (prop_set k v l) = if String.eqb k q then Some v else assoc_get q l.
Proof.
  unfold prop_set. destruct (assoc_get k l) as [old|] eqn:Hk.
  - destruct (String.eqb_spec k q) as [->|Hne].
    + apply assoc_get_set_eq.
    + apply assoc_get_set_ne. congruence.
  - apply assoc_get_insert, Hk.
Qed.

Lemma ownKeysPlain_set (subjects : list Subject) (k : string) (v : SubjectStats)
    (st : list (string * SubjectStats)) :
  listedKey subjects k = true \/ inheritsMember subjects k = false ->
  ownKeysPlain subjects st -> ownKeysPlain subjects (prop_set k v st).
Proof.
  intros Hk Hst q. rewrite assoc_get_prop_set.
  destruct (String.eqb_spec k q) as [<-|Hne]; [intros _; exact Hk|apply Hst].
Qed.

Lemma initialStats_keys (subjects : list Subject) :
  ownKeysPlain subjects (initialStats subjects).
Proof.
  unfold initialStats.
  assert (Hgen : forall l st,
             (forall s, In s l -> In s subjects) ->
             ownKeysPlain subjects st ->
             ownKeysPlain subjects
               (fold_left (fun st subj =>
                             if String.eqb (id subj) "__proto__" then st
                             else prop_set (id subj)
                                    {| sessions := 0; dailySessions := ∅;
                                       lastSessionDay := Some (-1) |} st) l st)).
  { induction l as [|s l IH]; intros st Hl Hst; [exact Hst|].
    cbn [fold_left]. apply IH; [intros x Hx; apply Hl; right; exact Hx|].
    destruct (String.eqb (id s) "__proto__"); [exact Hst|].
    apply ownKeysPlain_set; [|exact Hst]. left.
    apply existsb_exists. exists s. split; [apply Hl; left; reflexivity|].
    apply String.eqb_refl. }
  apply Hgen; [trivial|]. intros k [x Hx]. discriminate.
Qed.

Lemma findSubject_listedKey (subjects : list Subject) (k : string) :
  is_Some (findSubject subjects (Some k)) <-> listedKey subjects k = true.
Proof.
  unfold listedKey. cbn [findSubject].
  induction subjects as [|s subjects IH]; cbn [List.find existsb].
  - split; [intros [x Hx]; discriminate|discriminate].
  - destruct (String.eqb (id s) k); cbn [orb]; [|exact IH].
    split; [reflexivity|intros _; eexists; reflexivity].
Qed.

Lemma protoAssigned_listed (subjects : list Subject) :
  protoAssigned subjects = listedKey subjects "__proto__".
Proof. reflexivity. Qed.

Lemma keyOf_proto (sid : option string) : keyOf sid = "__proto__" -> sid = Some "__proto__".
Proof. destruct sid as [k|]; cbn; [intros ->; reflexivity|discriminate]. Qed.

Lemma unlisted_key (subjects : list Subject) (sid : option string) :
  findSubject subjects sid = None ->
  listedKey subjects (keyOf sid) = true ->
  inheritsMember subjects (keyOf sid) = false.
Proof.
  destruct sid as [k|]; cbn [keyOf default from_option Datatypes.id].
  - intros Hfind Hl. apply findSubject_listedKey in Hl as [x Hx]. congruence.
  - intros _ _. unfold inheritsMember. cbn. apply andb_false_r.
Qed.

(** *** The statistics of a session *)

(** Tracking a session throws a TypeError, or returns statistics whose
    own keys are still plain; for a subject that is not listed it throws
    exactly when the key finds an inherited member. *)
Lemma recordSession_outcome (subjects : list Subject) (dayIndex : nat)
    (sid : option string) (st : list (string * SubjectStats)) :
  ownKeysPlain subjects st ->
  match recordSession subjects dayIndex sid st with
  | Return st' =>
      ownKeysPlain subjects st'
      /\ (findSubject subjects sid = None ->
          inheritsMember subjects (keyOf sid) = false)
  | Throw e => e = TypeError /\ inheritsMember subjects (keyOf sid) = true
  end.
Proof.
  intros Hst. unfold recordSession.
  destruct (String.eqb_spec (keyOf sid) "__proto__") as [Hproto|Hproto].
  - destruct (protoAssigned subjects) eqn:Hassigned.
    + split; [exact Hst|]. intros Hfind. exfalso.
      apply keyOf_proto in Hproto. subst sid.
      rewrite protoAssigned_listed in Hassigned.
      apply findSubject_listedKey in Hassigned as [x Hx]. congruence.
    + split; [reflexivity|]. rewrite Hproto. reflexivity.
  - destruct (assoc_get (keyOf sid) st) as [e|] eqn:Hown.
    + assert (Hkey : listedKey subjects (keyOf sid) = true
                     \/ inheritsMember subjects (keyOf sid) = false)
        by (apply Hst; rewrite Hown; eexists; reflexivity).
      split; [apply ownKeysPlain_set; assumption|].
      intros Hfind. destruct Hkey as [Hl|Hp]; [|exact Hp].
      apply unlisted_key; assumption.
    + destruct (inheritsMember subjects (keyOf sid)) eqn:Hinh.
      * split; reflexivity.
      * split; [|reflexivity].
        apply ownKeysPlain_set; [right; exact Hinh|].
        apply ownKeysPlain_set; [right; exact Hinh|exact Hst].
Qed.





(** *** When the walk returns *)

(** A step of the walk throws a TypeError at a session whose subject is
    listed or whose key finds an inherited member, and returns at every
    other slot. *)
Lemma walkSlot_outcome (subjects : list Subject) (dayIndex i : nat) (slot : Slot)
    (w : WalkState) :
  ownKeysPlain subjects (w_stats w) ->
  if throwsAt subjects slot
  then walkSlot subjects dayIndex w (i, slot) = Throw TypeError
  else exists w', walkSlot subjects dayIndex w (i, slot) = Return w'
                  /\ ownKeysPlain subjects (w_stats w').
Proof.
  intros Hst. unfold throwsAt, walkSlot.
  destruct (isStudySlot slot); cbn [andb]; [|exists w; split; [reflexivity|exact Hst]].
  pose proof (recordSession_outcome subjects dayIndex (subjectId slot) (w_stats w) Hst)
    as Hrec.
  destruct (recordSession subjects dayIndex (subjectId slot) (w_stats w)) as [st|e];
    cbn [bind].
  - destruct Hrec as [Hkeys Hplain].
    destruct (findSubject subjects (subjectId slot)) as [subject|] eqn:Hfind.
    + rewrite bool_decide_eq_true_2 by (eexists; reflexivity). cbn [orb].
      rewrite checkTimePreference_throws.
      destruct (sameAsLast _ _); [destruct (Z.ltb _ _)|]; reflexivity.
    + rewrite bool_decide_eq_false_2 by (intros [x Hx]; discriminate).
      rewrite (Hplain eq_refl). cbn [orb].
      destruct (sameAsLast _ _); [destruct (Z.ltb _ _)|];
        cbn [bind]; eexists; (split; [reflexivity|exact Hkeys]).
  - destruct Hrec as [-> ->]. rewrite orb_true_r. reflexivity.
Qed.

Lemma walk_slots_outcome (subjects : list Subject) (dayIndex : nat)
    (l : list (nat * Slot)) (w : WalkState) :
  ownKeysPlain subjects (w_stats w) ->
  if existsb (fun p => throwsAt subjects (snd p)) l
  then foldM (walkSlot subjects dayIndex) l w = Throw TypeError
  else exists w', foldM (walkSlot subjects dayIndex) l w = Return w'
                  /\ ownKeysPlain subjects (w_stats w').
Proof.
  revert w. induction l as [|[i slot] l IH]; intros w Hst; cbn [existsb foldM snd].
  - exists w. split; [reflexivity|exact Hst].
  - pose proof (walkSlot_outcome subjects dayIndex i slot w Hst) as Hstep.
    destruct (throwsAt subjects slot); cbn [orb].
    + rewrite Hstep. reflexivity.
    + destruct Hstep as (w1 & -> & Hst1). cbn [bind]. apply IH, Hst1.
Qed.

Lemma existsb_indexed {A} (f : A -> bool) (l : list A) (k : nat) :
  existsb (fun p => f (snd p)) (combine (seq k (length l)) l) = existsb f l.
Proof.
  revert k. induction l as [|a l IH]; intros k; [reflexivity|].
  cbn [length seq combine existsb snd]. rewrite IH. reflexivity.
Qed.

Lemma walk_days_outcome (subjects : list Subject) (l : list (nat * DaySchedule))
    (acc : list Violation * list (string * SubjectStats)) :
  ownKeysPlain subjects (snd acc) ->
  if existsb (fun p => existsb (throwsAt subjects) (slots (snd p))) l
  then foldM (walkDay subjects) l acc = Throw TypeError
  else returned (foldM (walkDay subjects) l acc).
Proof.
  revert acc. induction l as [|[dayIndex d] l IH]; intros acc Hst; cbn [existsb foldM snd].
  - exists acc. reflexivity.
  - change (walkDay subjects acc (dayIndex, d))
      with (do w <- foldM (walkSlot subjects dayIndex) (indexed (slots d))
                      {| w_violations := fst acc; w_stats := snd acc;
                         consecutiveSameSubject := 0; lastSubjectId := None |};
            Return (w_violations w, w_stats w)).
    pose proof (walk_slots_outcome subjects dayIndex (indexed (slots d))
                  {| w_violations := fst acc; w_stats := snd acc;
                     consecutiveSameSubject := 0; lastSubjectId := None |} Hst) as Hday.
    unfold indexed in Hday at 1. rewrite (existsb_indexed (throwsAt subjects)) in Hday.
    destruct (existsb (throwsAt subjects) (slots d)); cbn [orb].
    + rewrite Hday. reflexivity.
    + destruct Hday as (w & -> & Hst1). cbn [bind]. apply IH. exact Hst1.
Qed.

Lemma existsb_either {A} (f g : A -> bool) (l : list A) :
  existsb (fun a => (f a || g a)%bool) l = (existsb f l || existsb g l)%bool.
Proof.
  induction l as [|a l IH]; [reflexivity|]. cbn [existsb]. rewrite IH.
  destruct (f a), (g a), (existsb f l), (existsb g l); reflexivity.
Qed.

Lemma throwsAt_either (subjects : list Subject) (sched : list DaySchedule) :
  existsb (fun d => existsb (throwsAt subjects) (slots d)) sched
  = (namesListedSubject subjects sched || namesInheritedMember subjects sched)%bool.
Proof.
  unfold namesListedSubject, namesInheritedMember. rewrite <- existsb_either.
  induction sched as [|d sched IH]; [reflexivity|]. cbn [existsb]. rewrite IH. f_equal.
  rewrite <- existsb_either. clear IH.
  induction (slots d) as [|s sl IH]; [reflexivity|]. cbn [existsb]. rewrite IH. f_equal.
  unfold throwsAt, strayIn. destruct (isStudySlot s); reflexivity.
Qed.

(** [validateSchedule] throws a TypeError when a session names a listed
    subject or has a key that finds an inherited member, and returns
    otherwise. *)
Lemma validateSchedule_outcome (sched : list DaySchedule) (subjects : list Subject)
    (ctx : ValidationContext) :
  if (namesListedSubject subjects sched || namesInheritedMember subjects sched)%bool
  then validateSchedule sched subjects ctx = Throw TypeError
  else returned (validateSchedule sched subjects ctx).
Proof.
  unfold validateSchedule.
  pose proof (walk_days_outcome subjects (indexed sched) ([], initialStats subjects)
                (initialStats_keys subjects)) as H.
  unfold indexed in H at 1.
  rewrite (existsb_indexed (fun d => existsb (throwsAt subjects) (slots d))) in H.
  rewrite throwsAt_either in H.
  destruct (namesListedSubject subjects sched || namesInheritedMember subjects sched)%bool.
  - rewrite H. reflexivity.
  - destruct H as [[vs st] ->]. eexists. reflexivity.
Qed.




(** A session whose subject id is [constructor] finds the member the
    statistics object inherits, and the walk throws. *)
Lemma inherited_key_throws :
  validateSchedule [plainDay [studyOf "constructor"]] [] freshValidation
  = Throw TypeError.
Proof. vm_compute. reflexivity. Qed.

(** ** The lunch patch *)

Lemma hour_read_back (d : Z) (rest : string) :
  -12 < d <= 12 ->
  parseInt (beforeColon (string_of_Z d ++ ":" ++ rest)) = Some d.
Proof.
  intros Hd.
  assert (Hcases : d = -11 \/ d = -10 \/ d = -9 \/ d = -8 \/ d = -7 \/ d = -6
                   \/ d = -5 \/ d = -4 \/ d = -3 \/ d = -2 \/ d = -1 \/ d = 0
                   \/ d = 1 \/ d = 2 \/ d = 3 \/ d = 4 \/ d = 5 \/ d = 6 \/ d = 7
                   \/ d = 8 \/ d = 9 \/ d = 10 \/ d = 11 \/ d = 12) by lia.
  repeat (destruct Hcases as [->|Hcases]; [reflexivity|]).
  subst d. reflexivity.
Qed.

Lemma displayHours_range (hours : Z) : -12 < displayHours hours <= 12.
Proof.
  unfold displayHours. pose proof (Z.rem_bound_abs hours 12 ltac:(lia)).
  destruct (Z.eqb_spec (Z.rem hours 12) 0); lia.
Qed.

(** Reading the hour back from a formatted time gives the hour of the
    twelve-hour clock, not the hour of the day. *)
Lemma hour_of_formatTime (minutes : Z) :
  parseInt (beforeColon (formatTime minutes)) = Some (displayHours (minutes / 60)).
Proof. unfold formatTime. apply hour_read_back, displayHours_range. Qed.

Lemma twelve_iff (minutes : Z) :
  num_ge (parseInt (beforeColon (formatTime minutes))) 12 = true
  <-> Z.rem (minutes / 60) 12 = 0.
Proof.
  rewrite hour_of_formatTime. unfold num_ge. rewrite Z.leb_le.
  pose proof (Z.rem_bound_abs (minutes / 60) 12 ltac:(lia)) as Hr. unfold displayHours.
  destruct (Z.eqb_spec (Z.rem (minutes / 60) 12) 0); lia.
Qed.

(** Within a day, the start times that read as twelve are those of the
    hours after midnight and after noon. *)
Lemma twelve_within_day (minutes : Z) :
  0 <= minutes < 24 * 60 ->
  (num_ge (parseInt (beforeColon (formatTime minutes))) 12 = true
   <-> minutes < 60 \/ 12 * 60 <= minutes < 13 * 60).
Proof.
  intros Hm. rewrite twelve_iff.
  assert (0 <= minutes / 60 < 24) by (split; [apply Z.div_pos|apply Z.div_lt_upper_bound]; lia).
  assert (Hq : minutes / 60 = 0 \/ minutes / 60 = 12 \/
               (minutes / 60 <> 0 /\ minutes / 60 <> 12)) by lia.
  pose proof (Z.mul_div_le minutes 60 ltac:(lia)).
  pose proof (Z.mul_succ_div_gt minutes 60 ltac:(lia)).
  destruct Hq as [Hq|[Hq|[Hq0 Hq12]]].
  - rewrite Hq. simpl. split; [intros _; left|reflexivity]. lia.
  - rewrite Hq. simpl. split; [intros _; right|reflexivity]. lia.
  - split.
    + intros Hrem. exfalso.
      assert (Hcases : minutes / 60 = 1 \/ minutes / 60 = 2 \/ minutes / 60 = 3
                \/ minutes / 60 = 4 \/ minutes / 60 = 5 \/ minutes / 60 = 6
                \/ minutes / 60 = 7 \/ minutes / 60 = 8 \/ minutes / 60 = 9
                \/ minutes / 60 = 10 \/ minutes / 60 = 11 \/ minutes / 60 = 13
                \/ minutes / 60 = 14 \/ minutes / 60 = 15 \/ minutes / 60 = 16
                \/ minutes / 60 = 17 \/ minutes / 60 = 18 \/ minutes / 60 = 19
                \/ minutes / 60 = 20 \/ minutes / 60 = 21 \/ minutes / 60 = 22
                \/ minutes / 60 = 23) by lia.
      repeat (destruct Hcases as [Hc|Hcases]; [rewrite Hc in Hrem; discriminate|]).
      rewrite Hcases in Hrem. discriminate.
    + intros [Hlt|Hnoon]; exfalso; lia.
Qed.

Lemma session_loopSlot (this : SmartScheduler) (subject : Subject) (t d : Z) (dayIndex : nat) :
  loopSlot (createSessionSlot this subject t d dayIndex).
Proof. split; [reflexivity|]. exists t. reflexivity. Qed.

Lemma break_loopSlot (this : SmartScheduler) (t d : Z) (kind : string) :
  kind <> "lunch" -> loopSlot (createBreakSlot this t d kind).
Proof.
  intros Hk. split; [|exists t; reflexivity].
  unfold isLunch. simpl. apply bool_decide_eq_false. congruence.
Qed.

Lemma fillStep_loopSlots (engine : RulesEngine) (this : SmartScheduler)
    (todays : list Allocation) (settings : SessionSettings) (dayIndex : nat)
    (st st' : FillState) (again : bool) :
  fillStep engine this todays settings dayIndex st = Return (again, st') ->
  Forall loopSlot (daySlots st) -> Forall loopSlot (daySlots st').
Proof.
  unfold fillStep. intros Hstep Hall.
  destruct (nth_error _ _) as [alloc|]; [|injection Hstep as _ <-; exact Hall].
  destruct (_ && _)%bool; [injection Hstep as _ <-; exact Hall|].
  destruct (eng_getOptimalSessionLength _ _ _) as [len|e]; simpl in Hstep; [|discriminate].
  destruct (eng_getBreakDuration _ _ _) as [brk|e]; simpl in Hstep; [|discriminate].
  destruct (eng_needsLongBreak _ _ _); [|destruct (Qgtb _ _)];
    injection Hstep as _ <-; cbn [daySlots]; apply Forall_app; split; try exact Hall;
    repeat constructor; try apply session_loopSlot; apply break_loopSlot; discriminate.
Qed.

Lemma runFill_loopSlots (engine : RulesEngine) (this : SmartScheduler) (fuel dayIndex : nat)
    (allocs : list Allocation) (settings : SessionSettings) (st : FillState) :
  runFill engine this fuel dayIndex allocs settings = Some (Return st) ->
  Forall loopSlot (daySlots st).
Proof.
  apply (runFill_inv _ _ _ _ _ _ _ (fun s => Forall loopSlot (daySlots s))).
  - intros st0 -> _. constructor.
  - intros todays st1 st2 again _. apply fillStep_loopSlots.
Qed.

Lemma no_lunch_among_loopSlots (sl : list Slot) :
  Forall loopSlot sl -> lunchBreaks sl = [].
Proof.
  induction 1 as [|s sl [Hs _] _ IH]; [reflexivity|].
  unfold lunchBreaks in *. cbn [List.filter]. rewrite Hs. exact IH.
Qed.

Lemma findIndex_first {A} (p : A -> bool) (l : list A) (i : nat) :
  findIndex p l = Some i ->
  exists x, l !! i = Some x /\ p x = true
            /\ Forall (fun y => p y = false) (take i l)
            /\ l = app (take i l) (x :: drop (S i) l).
Proof.
  revert i. induction l as [|a l IH]; intros i; simpl; [discriminate|].
  destruct (p a) eqn:Ha.
  - intros [= <-]. exists a. repeat split; try assumption. constructor.
  - destruct (findIndex p l) as [j|]; simpl; [|discriminate].
    intros [= <-]. destruct (IH j eq_refl) as (x & Hx & Hp & Hbefore & Hsplit).
    exists x. cbn [take drop lookup]. repeat split; try assumption.
    + constructor; assumption.
    + simpl. f_equal. exact Hsplit.
Qed.

Lemma findIndex_none {A} (p : A -> bool) (l : list A) :
  findIndex p l = None -> Forall (fun y => p y = false) l.
Proof.
  induction l as [|a l IH]; simpl; [constructor|].
  destruct (p a) eqn:Ha; [discriminate|].
  destruct (findIndex p l); [discriminate|]. constructor; auto.
Qed.

(** The lunch patch, whatever the engine.  Whenever the day's loop ends,
    [generateDaySchedule] returns, and the lunch break depends on the
    time at which the loop stopped.  If that time is strictly between
    12:00 and 14:00 and some slot's start time reads as hour twelve,
    exactly one lunch break, of 60 minutes from 12:00 PM to 1:00 PM, is
    inserted directly before the first such slot, the other slots
    keeping their order.  If the loop stopped at or before 12:00 or at
    or after 14:00, no lunch break is inserted. *)
Lemma lunch_break_insertion (engine : RulesEngine) (calculateDate : nat -> string)
    (this : SmartScheduler) (fuel dayIndex : nat) (allocs : list Allocation)
    (settings : SessionSettings) (st : FillState) :
  runFill engine this fuel dayIndex allocs settings = Some (Return st) ->
  exists d,
    generateDaySchedule engine calculateDate this fuel dayIndex allocs settings
      = Some (Return d)
    /\ (12 * 60 < currentTime st < 14 * 60 ->
        forall i, findIndex startsAtTwelve (daySlots st) = Some i ->
          exists first minutes lunch,
            daySlots st !! i = Some first
            /\ startTime first = formatTime minutes
            /\ Z.rem (minutes / 60) 12 = 0
            /\ Forall (fun s => startsAtTwelve s = false) (take i (daySlots st))
            /\ slots d = app (take i (daySlots st)) (lunch :: first :: drop (S i) (daySlots st))
            /\ lunchBreaks (slots d) = [lunch]
            /\ duration lunch = 60
            /\ startTime lunch = "12:00 PM" /\ endTime lunch = "1:00 PM")
    /\ (currentTime st <= 12 * 60 \/ 14 * 60 <= currentTime st ->
        slots d = daySlots st /\ lunchBreaks (slots d) = []).
Proof.
  intros Hfill. pose proof (runFill_loopSlots _ _ _ _ _ _ _ Hfill) as Hloop.
  unfold generateDaySchedule. rewrite Hfill. eexists. split; [reflexivity|].
  cbn [slots]. unfold addLunch.
  change (findIndex (fun slot => num_ge (startHour slot) 12) (daySlots st))
    with (findIndex startsAtTwelve (daySlots st)).
  split.
  - intros [Hlo Hhi] i Hi.
    apply Z.ltb_lt in Hlo, Hhi. rewrite Hlo, Hhi, Hi. cbn [andb].
    destruct (findIndex_first _ _ _ Hi) as (first & Hfirst & Htw & Hbefore & Hsplit).
    assert (Hin : loopSlot first).
    { apply (proj1 (Forall_forall _ _) Hloop).
      apply list_elem_of_lookup. exists i. exact Hfirst. }
    destruct Hin as [_ [minutes Hm]].
    exists first, minutes, (createBreakSlot this (12 * 60) 60 "lunch").
    split; [exact Hfirst|]. split; [exact Hm|].
    split; [apply twelve_iff; unfold startsAtTwelve, startHour in Htw; rewrite <- Hm; exact Htw|].
    split; [exact Hbefore|].
    assert (Hdrop : drop i (daySlots st) = first :: drop (S i) (daySlots st)).
    { rewrite Hsplit at 1. rewrite drop_app_length'; [reflexivity|].
      rewrite length_take. apply lookup_lt_Some in Hfirst. lia. }
    split; [unfold spliceIn; rewrite Hdrop; reflexivity|].
    split; [|repeat split].
    unfold spliceIn, lunchBreaks. rewrite List.filter_app. cbn [List.filter].
    change (isLunch (createBreakSlot this (12 * 60) 60 "lunch")) with true. cbv iota.
    assert (Hnone : List.filter isLunch (daySlots st) = []).
    { apply no_lunch_among_loopSlots, Hloop. }
    rewrite <- (take_drop i (daySlots st)), List.filter_app in Hnone.
    apply app_eq_nil in Hnone as [-> ->]. reflexivity.
  - intros Hout.
    assert (Hcond : (Z.ltb (12 * 60) (currentTime st)
                     && Z.ltb (currentTime st) (14 * 60))%bool = false).
    { apply andb_false_iff. destruct Hout; [left|right]; apply Z.ltb_ge; assumption. }
    rewrite Hcond. split; [reflexivity|]. apply no_lunch_among_loopSlots, Hloop.
Qed.

(** With a budget of three hours the loop stops at 1:35 PM; the first
    slot whose start reads as twelve is the break of 12:10 PM, at index
    5, and the lunch break goes before it. *)
Lemma lunch_break_example :
  currentTime threeHourFill = 13 * 60 + 35
  /\ findIndex startsAtTwelve (daySlots threeHourFill) = Some 5%nat
  /\ exists d lunch,
       generateDaySchedule suppliedEngine noDate newScheduler 100 0
         defaultAllocations threeHourSettings = Some (Return d)
       /\ lunchBreaks (slots d) = [lunch]
       /\ slots d !! 5%nat = Some lunch
       /\ duration lunch = 60.
Proof.
  split; [vm_compute; reflexivity|].
  split; [vm_compute; reflexivity|].
  destruct (lunch_break_insertion suppliedEngine noDate newScheduler 100 0
              defaultAllocations threeHourSettings threeHourFill
              ltac:(vm_compute; reflexivity)) as (d & Hgen & Hin & _).
  destruct (Hin ltac:(vm_compute; split; reflexivity) 5%nat
              ltac:(vm_compute; reflexivity))
    as (first & minutes & lunch & _ & _ & _ & _ & Hslots & Hl & Hd & _).
  exists d, lunch. split; [exact Hgen|]. split; [exact Hl|]. split; [|exact Hd].
  rewrite Hslots. reflexivity.
Qed.

(** Under [suppliedEngine], the first day of the default subjects with a
    budget of four hours starts at 9:00 AM and runs past noon until
    2:35 PM, and it has no lunch break, because the loop stopped after
    14:00. *)
Lemma late_day_has_no_lunch :
  timesOf (generateDaySchedule suppliedEngine noDate newScheduler 100 0
             defaultAllocations exampleSettings)
    = [("9:00 AM", "9:45 AM"); ("9:45 AM", "10:00 AM"); ("10:00 AM", "11:00 AM");
       ("11:00 AM", "11:10 AM"); ("11:10 AM", "12:10 PM"); ("12:10 PM", "12:20 PM");
       ("12:20 PM", "1:05 PM"); ("1:05 PM", "1:35 PM"); ("1:35 PM", "2:35 PM")]
  /\ lunchesOf (generateDaySchedule suppliedEngine noDate newScheduler 100 0
                  defaultAllocations exampleSettings) = Some [].
Proof. split; vm_compute; reflexivity. Qed.

(** ** The program's own engine *)

(** With [rulesEngine] itself, a planning run over a non-empty subject
    list throws in [allocateDailyHours], before any day is generated. *)
Lemma own_engine_plan_throws (calculateDate : nat -> string) (fuel : nat)
    (this : SmartScheduler) (inputs : Inputs) (s : Subject) (rest : list Subject) :
  generatePlan rulesEngine calculateDate fuel this inputs (s :: rest)
  = Some (Throw TypeError).
Proof.
  unfold generatePlan. cbn [rulesEngine eng_allocateDailyHours].
  unfold allocateDailyHours. rewrite weights_default_throw. reflexivity.
Qed.

(** And a day whose loop reaches a session throws at the first one. *)
Lemma own_engine_day_throws :
  generateDaySchedule rulesEngine noDate newScheduler 100 0
    defaultAllocations exampleSettings = Some (Throw TypeError).
Proof. vm_compute. reflexivity. Qed.




(** The settings the input manager collects carry no [dailyHours]: the
    loop does not run and the day is empty, whatever the engine. *)
Lemma collected_settings_give_empty_days (engine : RulesEngine)
    (calculateDate : nat -> string) (this : SmartScheduler) (fuel dayIndex : nat)
    (allocs : list Allocation) (sessionLen breakLen : Z) :
  exists d,
    generateDaySchedule engine calculateDate this fuel dayIndex allocs
      (getSessionSettings sessionLen breakLen) = Some (Return d)
    /\ slots d = [].
Proof. eexists. split; reflexivity. Qed.

(** ** Days of a planning run *)

(** Every day the loop of [generatePlan] adds to the schedule is a result
    of [generateDaySchedule] in the state the scheduler had reached, so
    what holds of [generateDaySchedule] in every state holds of every day
    of a run. *)
Lemma planDays_days_generated (engine : RulesEngine) (calculateDate : nat -> string)
    (fuel : nat) (days : list nat) (allocs : list Allocation) (settings : SessionSettings)
    (this this' : SmartScheduler) (allSlots allSlots' : list Slot) :
  planDays engine calculateDate fuel days allocs settings this allSlots
    = Some (Return (this', allSlots')) ->
  exists added,
    schedule this' = app (schedule this) added
    /\ length added = length days
    /\ Forall (fun d => exists state dayIndex,
                 generateDaySchedule engine calculateDate state fuel dayIndex allocs settings
                 = Some (Return d)) added.
Proof.
  revert this allSlots. induction days as [|dayIndex days IH]; intros this allSlots; simpl.
  - intros [= <- _]. exists []. rewrite app_nil_r. repeat split. constructor.
  - destruct (generateDaySchedule engine calculateDate this fuel dayIndex allocs settings)
      as [[d|e]|] eqn:Hgen; try discriminate.
    intros Hrest. destruct (IH _ _ Hrest) as (added & Hsched & Hlen & Hall).
    exists (d :: added). cbn [updateContextAfterDay schedule] in Hsched.
    rewrite Hsched, <- app_assoc. split; [reflexivity|].
    split; [simpl; f_equal; exact Hlen|].
    constructor; [|exact Hall]. exists this, dayIndex. exact Hgen.
Qed.

(** ** The day's loop ends *)

Lemma successor_index_differs (i n : nat) :
  (1 < n)%nat -> Nat.modulo (S i) n <> Nat.modulo i n.
Proof.
  intros Hn Heq.
  pose proof (Nat.div_mod_eq (S i) n) as H1.
  pose proof (Nat.div_mod_eq i n) as H0.
  rewrite Heq in H1.
  assert (Hd : (n * (S i / n) = n * (i / n) + 1)%nat) by lia.
  assert (Hle : (i / n <= S i / n)%nat) by (apply Nat.Div0.div_le_mono; lia).
  assert (Hq : (S i / n = i / n \/ i / n < S i / n)%nat) by lia.
  destruct Hq as [Hq|Hq]; [rewrite Hq in Hd; lia|nia].
Qed.

Section DayLoopEnds.

Variable engine : RulesEngine.
Variable this : SmartScheduler.
Variable todaysSubjects : list Allocation.
Variable settings : SessionSettings.
Variable dayIndex : nat.

(** Sessions last at least a minute and breaks are not negative. *)
Hypothesis sessions_positive :
  forall subject d len,
    eng_getOptimalSessionLength engine subject d = Return len -> 1 <= len.
Hypothesis breaks_nonnegative :
  forall subject d brk,
    eng_getBreakDuration engine subject d = Return brk -> 0 <= brk.

(** The selected subjects have pairwise different ids.  (Were all of
    several selected subjects to share one id, every iteration after the
    first session would skip.) *)
Hypothesis distinct_ids :
  List.NoDup (map (fun a => id (alloc_subject a)) todaysSubjects).

Lemma no_skip_after_skip (st : FillState) (alloc : Allocation) :
  nth_error todaysSubjects (Nat.modulo (subjectIndex st) (length todaysSubjects))
    = Some alloc ->
  (match fs_lastSubjectId st with
   | Some last => String.eqb (id (alloc_subject alloc)) last
   | None => false
   end && Nat.ltb 1 (length todaysSubjects))%bool = true ->
  nextSkips todaysSubjects
    {| daySlots := daySlots st; currentTime := currentTime st;
       sessionCount := sessionCount st; fs_lastSubjectId := fs_lastSubjectId st;
       remainingHours := remainingHours st; subjectIndex := S (subjectIndex st) |}
  = false.
Proof.
  intros Hcur Hskip. apply andb_true_iff in Hskip as [Hsame Hlen].
  apply Nat.ltb_lt in Hlen.
  unfold nextSkips. cbn [subjectIndex fs_lastSubjectId].
  destruct (nth_error todaysSubjects (Nat.modulo (S (subjectIndex st)) _))
    as [next|] eqn:Hnext; [|reflexivity].
  destruct (fs_lastSubjectId st) as [last|]; [|discriminate].
  apply String.eqb_eq in Hsame.
  destruct (String.eqb_spec (id (alloc_subject next)) last) as [Heq|Hne]; [|reflexivity].
  exfalso.
  apply (successor_index_differs (subjectIndex st) (length todaysSubjects) Hlen).
  apply (proj1 (NoDup_nth_error _) distinct_ids).
  - rewrite length_map. apply Nat.mod_upper_bound. lia.
  - rewrite (map_nth_error _ _ _ Hnext), (map_nth_error _ _ _ Hcur).
    congruence.
Qed.

(** With more fuel than [iterationsLeft], the loop ends: by returning or
    by an exception of the engine, not by running out of fuel. *)
Lemma day_loop_ends (fuel : nat) (st : FillState) :
  (iterationsLeft todaysSubjects st < fuel)%nat ->
  is_Some (fillDay engine this fuel todaysSubjects settings dayIndex st).
Proof.
  revert st. induction fuel as [|fuel IH]; intros st Hfuel; [lia|].
  cbn [fillDay].
  destruct (Qgtb (remainingHours st) 0 && Z.ltb (currentTime st) (21 * 60))%bool eqn:Hguard;
    [|eexists; reflexivity].
  apply andb_true_iff in Hguard as [_ Htime]. apply Z.ltb_lt in Htime.
  unfold iterationsLeft in Hfuel.
  unfold fillStep.
  destruct (nth_error todaysSubjects _) as [alloc|] eqn:Hcur; [|eexists; reflexivity].
  destruct (_ && _)%bool eqn:Hskip.
  - apply IH. unfold iterationsLeft.
    rewrite (no_skip_after_skip st alloc Hcur Hskip). cbn [currentTime].
    unfold nextSkips in Hfuel. rewrite Hcur, Hskip in Hfuel. lia.
  - destruct (eng_getOptimalSessionLength engine _ _) as [len|e] eqn:Hlen;
      [|eexists; reflexivity].
    destruct (eng_getBreakDuration engine _ _) as [brk|e] eqn:Hbrk;
      [|eexists; reflexivity].
    apply sessions_positive in Hlen. apply breaks_nonnegative in Hbrk.
    cbn [bind].
    assert (Hstep : forall st', currentTime st + len <= currentTime st' ->
              is_Some (fillDay engine this fuel todaysSubjects settings dayIndex st')).
    { intros st' Hadv. apply IH. unfold iterationsLeft.
      destruct (nextSkips todaysSubjects st'), (nextSkips todaysSubjects st); lia. }
    destruct (eng_needsLongBreak engine _ _); [|destruct (Qgtb _ _)];
      cbv beta iota zeta;
      match goal with
      | |- context [negb ?b] => destruct b
      end; cbn [negb]; try (eexists; reflexivity); apply Hstep; cbn [currentTime];
      unfold CONFIG.SCHEDULING_RULES.LONG_BREAK_DURATION; lia.
Qed.

End DayLoopEnds.

Lemma NoDup_map_filter {A B} (f : A -> B) (p : A -> bool) (l : list A) :
  List.NoDup (map f l) -> List.NoDup (map f (List.filter p l)).
Proof.
  induction l as [|a l IH]; simpl; [trivial|].
  intros Hnd. inversion Hnd as [|? ? Hnotin Hrest]; subst.
  destruct (p a); [|apply IH, Hrest].
  simpl. constructor; [|apply IH, Hrest].
  intros Hin. apply Hnotin. apply in_map_iff in Hin as (x & Hx & Hin).
  apply in_map_iff. exists x. split; [exact Hx|].
  apply List.filter_In in Hin. tauto.
Qed.

Lemma NoDup_map_slice {A B} (f : A -> B) (a b : nat) (l : list A) :
  List.NoDup (map f l) -> List.NoDup (map f (slice a b l)).
Proof.
  intros Hnd. unfold slice.
  rewrite <- (firstn_skipn a l), map_app in Hnd. apply NoDup_app_remove_l in Hnd.
  rewrite <- (firstn_skipn (b - a) (skipn a l)), map_app in Hnd.
  apply NoDup_app_remove_r in Hnd. exact Hnd.
Qed.

Lemma selected_ids_distinct (this : SmartScheduler) (allocs : list Allocation)
    (dayIndex : nat) :
  List.NoDup (map (fun a => id (alloc_subject a)) allocs) ->
  List.NoDup (map (fun a => id (alloc_subject a)) (todaysSubjectsOf this allocs dayIndex)).
Proof.
  intros Hnd. unfold todaysSubjectsOf.
  eapply Permutation_NoDup;
    [apply Permutation_map; symmetry; apply js_sort_perm|].
  unfold selectTodaysSubjects.
  destruct (List.filter _ allocs) as [|r rs] eqn:Hrev.
  - destruct (Nat.min _ _); [constructor|].
    apply NoDup_map_slice, NoDup_map_filter, Hnd.
  - rewrite <- Hrev. apply NoDup_map_slice, NoDup_map_filter, Hnd.
Qed.

(** From 9:00 the loop needs at most 1441 iterations, so with 1442 or
    more [generateDaySchedule] does not run out of fuel, for an engine
    whose sessions last at least a minute and whose breaks are not
    negative, and subjects with pairwise different ids. *)
Lemma generateDaySchedule_ends (engine : RulesEngine) (calculateDate : nat -> string)
    (this : SmartScheduler) (fuel dayIndex : nat) (allocs : list Allocation)
    (settings : SessionSettings) :
  (forall subject d len,
     eng_getOptimalSessionLength engine subject d = Return len -> 1 <= len) ->
  (forall subject d brk,
     eng_getBreakDuration engine subject d = Return brk -> 0 <= brk) ->
  List.NoDup (map (fun a => id (alloc_subject a)) allocs) ->
  (1442 <= fuel)%nat ->
  is_Some (generateDaySchedule engine calculateDate this fuel dayIndex allocs settings).
Proof.
  intros Hlen Hbrk Hids Hfuel.
  assert (Hfill : is_Some (runFill engine this fuel dayIndex allocs settings)).
  { unfold runFill. destruct (dailyHours settings); [|eexists; reflexivity].
    apply day_loop_ends; try assumption.
    - apply selected_ids_distinct, Hids.
    - unfold iterationsLeft. cbn [currentTime].
      destruct (nextSkips _ _); simpl; lia. }
  unfold generateDaySchedule. destruct Hfill as [[st|e] ->]; eexists; reflexivity.
Qed.

(** * Further properties *)

(** ** Weights *)

Lemma toFixed_compat (digits : nat) (a b : Q) :
  (a == b)%Q -> toFixed digits a = toFixed digits b.
Proof.
  intros Hab. unfold toFixed.
  assert (Hfloor : Qfloor (Qabs a * inject_Z (10 ^ Z.of_nat digits) + (1 # 2))
                   = Qfloor (Qabs b * inject_Z (10 ^ Z.of_nat digits) + (1 # 2))).
  { apply Qfloor_comp. rewrite Hab. reflexivity. }
  assert (Hsign : Qle_bool 0 a = Qle_bool 0 b).
  { destruct (Qle_bool 0 a) eqn:Ha, (Qle_bool 0 b) eqn:Hb; try reflexivity.
    - apply Qle_bool_iff in Ha. rewrite Hab in Ha. apply Qle_bool_iff in Ha. congruence.
    - apply Qle_bool_iff in Hb. rewrite <- Hab in Hb. apply Qle_bool_iff in Hb. congruence. }
  rewrite Hfloor, Hsign. reflexivity.
Qed.

(** One subject under a context that has [daysSinceLastStudy]. *)
Lemma weighSubject_value (ctx : Context) (days : gmap string Z) (s : Subject) :
  daysSinceLastStudy ctx = Some days ->
  exists w,
    weighSubject ctx s = Return w
    /\ ws_subject w
       = set_weight s (toFixed 2 (priorityWeight s * revisionWeight days s
                                  * difficultyWeight s))
    /\ dom (adjustments w)
       = list_to_set (map rule_name rules).
Proof.
  intros Hdays. unfold weighSubject. cbn [rules foldM].
  unfold applyRule at 1 2 3 4 5.
  destruct ctx as [dl last d0]; cbn [daysSinceLastStudy] in Hdays; subst d0.
  cbn -[toFixed Z.leb insert dom list_to_set].
  eexists. split; [reflexivity|]. split.
  - cbn [ws_subject]. f_equal. apply toFixed_compat.
    unfold priorityWeight, difficultyWeight, revisionWeight, timesIfTruthy, q_or,
      CONFIG.PRIORITY_WEIGHTS, CONFIG.DIFFICULTY_WEIGHTS.
    destruct (Z.leb _ _);
      repeat match goal with
             | |- context [String.eqb ?a ?b] => destruct (String.eqb a b)
             end;
      vm_compute; reflexivity.
  - cbn [adjustments]. rewrite !dom_insert_L, dom_empty_L.
    cbn [map list_to_set rule_name priority_allocation difficulty_adaptation
           time_preference consecutive_avoidance revision_scheduling].
    set_solver.
Qed.

(** The product of the three factors has at most two decimals, so the
    rounding to two decimals leaves it as it is. *)
Lemma weight_product_exact (days : gmap string Z) (s : Subject) :
  (toFixed 2 (priorityWeight s * revisionWeight days s * difficultyWeight s)
   == priorityWeight s * revisionWeight days s * difficultyWeight s)%Q.
Proof.
  unfold priorityWeight, difficultyWeight, revisionWeight, q_or,
    CONFIG.PRIORITY_WEIGHTS, CONFIG.DIFFICULTY_WEIGHTS.
  destruct (Z.leb _ _);
    repeat match goal with
           | |- context [String.eqb ?a ?b] => destruct (String.eqb a b)
           end;
    vm_compute; reflexivity.
Qed.

(** X1. When the context has [daysSinceLastStudy] and no subject has a
    priority or difficulty that names a member of [Object.prototype],
    [calculateSubjectWeights] returns one record per subject, in order:
    the subject's properties with [weight] replaced by the product of
    its priority weight (3, 2 or 1, and 1 for any other priority), its
    revision multiplier (1.5 or 1) and its difficulty weight (1.5, 1 or
    0.8, and 1 for any other difficulty), which the rounding to two
    decimals leaves unchanged, and adjustments recorded under the five
    rule names. *)
Theorem calculateSubjectWeights_values (ctx : Context) (days : gmap string Z)
    (subjects : list Subject) :
  daysSinceLastStudy ctx = Some days ->
  Forall plainKeys subjects ->
  exists ws,
    calculateSubjectWeights subjects ctx = Return ws
    /\ Forall2
         (fun s w =>
            ws_subject w
            = set_weight s (toFixed 2 (priorityWeight s * revisionWeight days s
                                       * difficultyWeight s))
            /\ (ws_weight w
                == priorityWeight s * revisionWeight days s * difficultyWeight s)%Q
            /\ dom (adjustments w) = list_to_set (map rule_name rules))
         subjects ws.
Proof.
  intros Hdays _. unfold calculateSubjectWeights.
  induction subjects as [|s rest (ws & Hws & Hall)].
  - exists []. split; [reflexivity|constructor].
  - destruct (weighSubject_value ctx days s Hdays) as (w & Hw & Hval & Hdom).
    exists (w :: ws). cbn [mapM]. rewrite Hw, Hws. split; [reflexivity|].
    constructor; [|assumption].
    split; [exact Hval|]. split; [|exact Hdom].
    unfold ws_weight. rewrite Hval. cbn [set_weight weight].
    apply weight_product_exact.
Qed.

Lemma calculateSubjectWeights_values_witness :
  exists ws,
    calculateSubjectWeights defaultSubjects (schedulerContext None ∅) = Return ws
    /\ map ws_weight ws = [450 # 100; 300 # 100; 200 # 100]%Q.
Proof.
  destruct (calculateSubjectWeights_values (schedulerContext None ∅) ∅ defaultSubjects
              eq_refl ltac:(repeat constructor)) as (ws & Hws & _).
  exists ws. split; [exact Hws|].
  assert (Hret : Return ws = Return defaultWeighted).
  { rewrite <- Hws. vm_compute. reflexivity. }
  injection Hret as ->. vm_compute. reflexivity.
Defined.

(** X2. Whatever the context, when no subject has a priority or
    difficulty that names a member of [Object.prototype], a returned
    weight lies between 0.8 and 6.75: the total weight of a non-empty
    list is never zero. *)
Theorem computed_weights_bounded (ctx : Context) (subjects : list Subject)
    (ws : list WeightedSubject) :
  Forall plainKeys subjects ->
  calculateSubjectWeights subjects ctx = Return ws ->
  Forall (fun w => (4 # 5 <= ws_weight w)%Q /\ (ws_weight w <= 27 # 4)%Q) ws.
Proof.
  intros _. unfold calculateSubjectWeights. revert ws.
  induction subjects as [|s rest IH]; intros ws; cbn [mapM].
  - intros [= <-]. constructor.
  - destruct (weighSubject ctx s) as [w|e] eqn:Hw; cbn [bind]; [|discriminate].
    destruct (mapM (weighSubject ctx) rest) as [ws'|e]; cbn [bind]; [|discriminate].
    intros [= <-]. constructor; [|apply IH; reflexivity].
    clear IH. revert Hw. unfold weighSubject. cbn [rules foldM].
    unfold applyRule at 1 2 3 4 5.
    destruct ctx as [dl last [days|]]; cbn -[toFixed Z.leb insert]; [|discriminate].
    intros [= <-]. unfold ws_weight. cbn -[toFixed Z.leb insert].
    unfold CONFIG.PRIORITY_WEIGHTS, CONFIG.DIFFICULTY_WEIGHTS.
    destruct (Z.leb _ _);
      repeat match goal with
             | |- context [String.eqb ?a ?b] => destruct (String.eqb a b)
             end;
      vm_compute; split; discriminate.
Qed.

Lemma computed_weights_bounded_witness :
  Forall (fun w => (4 # 5 <= ws_weight w)%Q /\ (ws_weight w <= 27 # 4)%Q) defaultWeighted.
Proof.
  apply (computed_weights_bounded (schedulerContext None ∅) defaultSubjects).
  - repeat constructor.
  - vm_compute. reflexivity.
Defined.

(** ** The difficulty rule *)

(** X3. When the context carries a default session length, the difficulty
    rule returns a length of at most 45 for a hard subject, of at least
    60 for an easy one, and the default itself for any other difficulty;
    the break multiplier is 1.5, 0.8 and 1. *)
Theorem difficulty_adaptation_bounds (s : Subject) (ctx : Context) (d : Z) :
  defaultSessionLength ctx = Some d ->
  exists r z,
    apply difficulty_adaptation s ctx = Return r
    /\ adaptedSessionLength r = Some (JNum z)
    /\ (if String.eqb (difficulty s) "hard"
        then z = Z.min d 45 /\ z <= 45 /\ breakMultiplier r = Some (3 # 2)%Q
        else if String.eqb (difficulty s) "easy"
        then z = Z.max d 60 /\ 60 <= z /\ breakMultiplier r = Some (4 # 5)%Q
        else z = d /\ breakMultiplier r = Some 1%Q).
Proof.
  intros Hd. cbn [apply difficulty_adaptation]. rewrite Hd. cbn [opt_to_num].
  destruct (String.eqb (difficulty s) "hard");
    [|destruct (String.eqb (difficulty s) "easy")];
    eexists; eexists; (split; [reflexivity|]); (split; [reflexivity|]);
    cbn [breakMultiplier snd]; repeat split; lia.
Qed.

Lemma difficulty_adaptation_bounds_witness :
  exists r,
    apply difficulty_adaptation
      (mkSubject "ds" "Data Structures" "high" "hard" 30 0 0 0)
      (suppliedContext (Some 90)) = Return r
    /\ adaptedSessionLength r = Some (JNum 45).
Proof.
  destruct (difficulty_adaptation_bounds
              (mkSubject "ds" "Data Structures" "high" "hard" 30 0 0 0)
              (suppliedContext (Some 90)) 90 eq_refl) as (r & z & Hr & Hz & Hcase).
  exists r. split; [exact Hr|]. rewrite Hz.
  cbn in Hcase. destruct Hcase as (-> & _). reflexivity.
Defined.

(** ** The order of the allocations *)

Section SortByRank.

Context {A : Type}.
Variable cmp : A -> A -> option Z.
Variable rank : A -> Z.

Lemma sort_insert_sorted (x : A) (l : list A) :
  Forall (fun y => cmp x y = Some (rank y - rank x)) l ->
  StronglySorted (fun a b => rank b <= rank a) l ->
  StronglySorted (fun a b => rank b <= rank a) (sort_insert cmp x l).
Proof.
  intros Hr Hs. induction Hs as [|y ys Hys IH Hall]; cbn [sort_insert].
  - repeat constructor.
  - inversion Hr as [|? ? Hxy Hrest]; subst. rewrite Hxy. cbn [cmp_after].
    destruct (Z.ltb_spec 0 (rank y - rank x)) as [Hlt|Hge].
    + constructor; [apply IH, Hrest|].
      eapply Permutation_Forall; [symmetry; apply sort_insert_perm|].
      constructor; [lia|exact Hall].
    + constructor; [constructor; assumption|].
      constructor; [lia|].
      eapply Forall_impl; [exact Hall|]. cbn. intros z Hz. lia.
Qed.

Lemma js_sort_sorted (l : list A) :
  (forall x y, In x l -> In y l -> cmp x y = Some (rank y - rank x)) ->
  StronglySorted (fun a b => rank b <= rank a) (js_sort cmp l).
Proof.
  induction l as [|x l IH]; intros Hcmp; cbn [js_sort fold_right].
  - constructor.
  - apply sort_insert_sorted.
    + eapply Permutation_Forall; [symmetry; apply js_sort_perm|].
      apply List.Forall_forall. intros y Hy. apply Hcmp; [left; reflexivity|right; exact Hy].
    + apply IH. intros a b Ha Hb. apply Hcmp; right; assumption.
Qed.

(** Insertion only moves an element past elements the test tells apart
    from it, so what a test selects keeps its order. *)
Lemma sort_insert_filter (f : A -> bool) (x : A) (l : list A) :
  (forall y, cmp_after (cmp x y) = true -> f x = true -> f y = false) ->
  List.filter f (sort_insert cmp x l) = List.filter f (x :: l).
Proof.
  intros Hapart. induction l as [|y ys IH]; [reflexivity|].
  cbn [sort_insert]. destruct (cmp_after (cmp x y)) eqn:Hafter; [|reflexivity].
  cbn [List.filter] in *. rewrite IH.
  destruct (f x) eqn:Hx; [|reflexivity].
  rewrite (Hapart y Hafter eq_refl). reflexivity.
Qed.

Lemma js_sort_filter (f : A -> bool) (l : list A) :
  (forall x y, cmp_after (cmp x y) = true -> f x = true -> f y = false) ->
  List.filter f (js_sort cmp l) = List.filter f l.
Proof.
  intros Hapart. induction l as [|x l IH]; [reflexivity|].
  cbn [js_sort fold_right]. fold (js_sort cmp l).
  rewrite sort_insert_filter by (intros y; apply Hapart).
  cbn [List.filter]. rewrite IH. reflexivity.
Qed.

End SortByRank.

Lemma known_priorities_compare (a b : Allocation) :
  knownPriority (alloc_subject a) -> knownPriority (alloc_subject b) ->
  js_sub (priorityOrder (priority (alloc_subject b)))
         (priorityOrder (priority (alloc_subject a)))
  = Some (priorityRank (alloc_subject b) - priorityRank (alloc_subject a)).
Proof.
  unfold knownPriority, priorityRank. intros [x ->] [y ->]. reflexivity.
Qed.

(** X4. The result of the allocation step holds the given subjects, each
    once.  When the total weight is not zero, every allocation plans at
    least one session a day.  When every priority is high, medium or
    low, priorities do not increase along the result and subjects of the
    same priority keep the order they came in. *)
Theorem allocateHours_order (ws : list WeightedSubject) (hours : Q) :
  Permutation (map alloc_ws (allocateHours ws hours)) ws
  /\ (~ (sumQ (map ws_weight ws) == 0)%Q ->
      Forall (fun a => 1 <= sessionsPerDay a) (allocateHours ws hours))
  /\ (Forall (fun w => knownPriority (ws_subject w)) ws ->
      StronglySorted byPriority (allocateHours ws hours)
      /\ forall p, List.filter (fun w => hasPriority p (ws_subject w))
                     (map alloc_ws (allocateHours ws hours))
                   = List.filter (fun w => hasPriority p (ws_subject w)) ws).
Proof.
  unfold allocateHours.
  set (mk := fun subject : WeightedSubject => _).
  set (cmp := fun a b : Allocation => _).
  assert (Hback : map alloc_ws (map mk ws) = ws).
  { rewrite map_map. apply map_id. }
  split; [|split; [|intros Hknown; split]].
  - rewrite <- Hback at 2. apply Permutation_map, js_sort_perm.
  - intros _. eapply Permutation_Forall; [symmetry; apply js_sort_perm|].
    apply List.Forall_forall. intros a Ha. apply in_map_iff in Ha as (w & <- & _).
    subst mk. cbn [sessionsPerDay]. lia.
  - apply (js_sort_sorted cmp (fun a => priorityRank (alloc_subject a))).
    intros x y Hx Hy. apply in_map_iff in Hx as (wx & <- & Hwx).
    apply in_map_iff in Hy as (wy & <- & Hwy).
    rewrite List.Forall_forall in Hknown.
    apply known_priorities_compare; apply Hknown; assumption.
  - intros p.
    assert (Hmap : forall l, List.filter (fun w => hasPriority p (ws_subject w)) (map alloc_ws l)
                             = map alloc_ws
                                 (List.filter (fun a => hasPriority p (alloc_subject a)) l)).
    { induction l as [|a l IH]; [reflexivity|]. cbn [map List.filter].
      unfold alloc_subject at 1. destruct (hasPriority p (ws_subject (alloc_ws a)));
        cbn [map]; rewrite IH; reflexivity. }
    rewrite Hmap, (js_sort_filter cmp), <- Hmap, Hback; [reflexivity|].
    intros x y Hafter Hx. unfold hasPriority in *. apply String.eqb_eq in Hx.
    apply String.eqb_neq. intros Hy. unfold cmp in Hafter.
    rewrite Hx, Hy in Hafter.
    destruct (priorityOrder p) as [r|]; cbn in Hafter; [|discriminate].
    rewrite Z.sub_diag in Hafter. discriminate.
Qed.

Lemma allocateHours_order_witness :
  map (fun a => id (alloc_subject a)) (allocateHours (rev defaultWeighted) 4)
    = ["algo"; "ds"; "db"]
  /\ StronglySorted byPriority (allocateHours (rev defaultWeighted) 4)
  /\ Forall (fun a => 1 <= sessionsPerDay a) (allocateHours (rev defaultWeighted) 4).
Proof.
  split; [vm_compute; reflexivity|].
  destruct (allocateHours_order (rev defaultWeighted) 4) as (_ & Hsessions & Horder).
  split.
  - apply Horder. vm_compute. repeat constructor; eexists; reflexivity.
  - apply Hsessions. vm_compute. discriminate.
Defined.

(** ** The efficiency score is a percentage *)

Lemma Math_round_nonneg (q : Q) : (0 <= q)%Q -> 0 <= Math_round q.
Proof.
  intros Hq. unfold Math_round.
  change 0 with (Qfloor 0). apply Qfloor_resp_le. lra.
Qed.

Lemma Qmax_nonneg (q : Q) : (0 <= Qmax 0 q)%Q.
Proof.
  unfold Qmax. destruct (Qle_bool 0 q) eqn:H; [apply Qle_bool_iff, H|lra].
Qed.

(** X5. Both efficiency scores lie between 0 and 100, and are 0 for a
    schedule without study time. *)
Theorem efficiency_scores_are_percentages (sched : list DaySchedule) (sl : list Slot) :
  0 <= calculateEfficiencyScore sched <= 100
  /\ 0 <= summaryEfficiency sl <= 100
  /\ (studyMinutes (allSlotsOf sched) = 0 -> calculateEfficiencyScore sched = 0)
  /\ (studyMinutes sl = 0 -> summaryEfficiency sl = 0).
Proof.
  assert (Hscore : forall ratio (bonus : bool),
            0 <= Z.min 100 (Math_round (Qmax 0 ratio + if bonus then 10 else 0)) <= 100).
  { intros ratio bonus. split; [|lia].
    apply Z.min_glb; [lia|]. apply Math_round_nonneg.
    pose proof (Qmax_nonneg ratio). destruct bonus; lra. }
  unfold calculateEfficiencyScore, summaryEfficiency.
  split; [|split; [|split]].
  - destruct (Z.eqb _ 0); [lia|]. apply Hscore.
  - destruct (Qgtb _ 0); [|lia]. apply Hscore.
  - intros ->. reflexivity.
  - intros ->. reflexivity.
Qed.

(** ** When validateSchedule throws, and what it can report *)

Lemma walkSlot_kinds (subjects : list Subject) (dayIndex : nat) (p : nat * Slot)
    (w w' : WalkState) :
  walkSlot subjects dayIndex w p = Return w' ->
  Forall reportableKind (w_violations w) -> Forall reportableKind (w_violations w').
Proof.
  destruct p as [i slot]. unfold walkSlot.
  destruct (isStudySlot slot); [|intros [= <-]; trivial].
  destruct (recordSession subjects dayIndex (subjectId slot) (w_stats w)) as [st|e];
    cbn [bind]; [|discriminate].
  destruct (findSubject subjects (subjectId slot)) as [subject|].
  { rewrite checkTimePreference_throws.
    destruct (sameAsLast _ _); [destruct (Z.ltb _ _)|]; discriminate. }
  destruct (sameAsLast _ _); [destruct (Z.ltb _ _)|];
    cbn [bind]; intros [= <-]; cbn [w_violations]; rewrite ?app_nil_r; trivial.
  intros Hall. apply Forall_app. split; [exact Hall|].
  constructor; [left; reflexivity|constructor].
Qed.

Lemma walk_slots_kinds (subjects : list Subject) (dayIndex : nat)
    (l : list (nat * Slot)) (w w' : WalkState) :
  foldM (walkSlot subjects dayIndex) l w = Return w' ->
  Forall reportableKind (w_violations w) -> Forall reportableKind (w_violations w').
Proof.
  revert w. induction l as [|p l IH]; intros w; cbn [foldM].
  - intros [= <-]. trivial.
  - destruct (walkSlot subjects dayIndex w p) as [w1|e] eqn:Hstep; cbn [bind];
      [|discriminate].
    intros Hfold Hall. apply (IH w1 Hfold). exact (walkSlot_kinds _ _ _ _ _ Hstep Hall).
Qed.

Lemma walk_days_kinds (subjects : list Subject) (l : list (nat * DaySchedule))
    (acc acc' : list Violation * list (string * SubjectStats)) :
  foldM (walkDay subjects) l acc = Return acc' ->
  Forall reportableKind (fst acc) -> Forall reportableKind (fst acc').
Proof.
  revert acc. induction l as [|[dayIndex d] l IH]; intros acc; cbn [foldM].
  - intros [= <-]. trivial.
  - change (walkDay subjects acc (dayIndex, d))
      with (do w <- foldM (walkSlot subjects dayIndex) (indexed (slots d))
                      {| w_violations := fst acc; w_stats := snd acc;
                         consecutiveSameSubject := 0; lastSubjectId := None |};
            Return (w_violations w, w_stats w)).
    destruct (foldM (walkSlot subjects dayIndex) _ _) as [w|e] eqn:Hday; cbn [bind];
      [|discriminate].
    intros Hfold Hall. apply (IH _ Hfold). cbn [fst].
    exact (walk_slots_kinds _ _ _ _ _ Hday Hall).
Qed.

Lemma checkRevision_kinds (subjects : list Subject) (ctx : ValidationContext)
    (st : list (string * SubjectStats)) (vs : list Violation) :
  Forall reportableKind vs ->
  Forall reportableKind (fold_left (checkRevision subjects ctx) st vs).
Proof.
  revert vs. induction st as [|[sid s] st IH]; intros vs Hvs; [exact Hvs|].
  cbn [fold_left]. apply IH. unfold checkRevision.
  destruct (findSubject subjects (Some sid)); [|exact Hvs].
  destruct (js_sub _ _); [|exact Hvs].
  destruct (Z.ltb _ _); [|exact Hvs].
  apply Forall_app. split; [exact Hvs|].
  constructor; [right; reflexivity|constructor].
Qed.

(** X6. [validateSchedule] throws a TypeError as soon as a study or revision
    session of the schedule names a subject of the subject list. *)
Theorem validateSchedule_throws_on_listed_subject (sched : list DaySchedule)
    (subjects : list Subject) (ctx : ValidationContext) :
  namesListedSubject subjects sched = true ->
  validateSchedule sched subjects ctx = Throw TypeError.
Proof.
  intros Hlisted. pose proof (validateSchedule_outcome sched subjects ctx) as H.
  rewrite Hlisted in H. exact H.
Qed.

Lemma validateSchedule_throws_witness :
  validateSchedule [plainDay [studyOf "db"; studyOf "ds"]] defaultSubjects freshValidation
  = Throw TypeError.
Proof.
  apply (validateSchedule_throws_on_listed_subject
           [plainDay [studyOf "db"; studyOf "ds"]] defaultSubjects freshValidation).
  vm_compute. reflexivity.
Defined.

Lemma returned_violations_reportable (sched : list DaySchedule) (subjects : list Subject)
    (ctx : ValidationContext) (v : Validation) :
  validateSchedule sched subjects ctx = Return v ->
  Forall reportableKind (violations v) /\ isValid v = Nat.eqb (length (violations v)) 0.
Proof.
  unfold validateSchedule.
  destruct (foldM (walkDay subjects) (indexed sched) ([], initialStats subjects))
    as [[vs st]|e] eqn:Hwalk; cbn [bind]; [|discriminate].
  intros [= <-]. cbn [violations isValid]. split; [|reflexivity].
  apply checkRevision_kinds. apply (walk_days_kinds _ _ _ _ Hwalk). constructor.
Qed.

(** X7. A validation that is returned holds no [time_preference] violation:
    every violation is of kind [consecutive_sessions] or
    [revision_needed], and [isValid] tells whether there is none. *)
Theorem returned_validation_kinds (sched : list DaySchedule) (subjects : list Subject)
    (ctx : ValidationContext) (v : Validation) :
  validateSchedule sched subjects ctx = Return v ->
  Forall reportableKind (violations v)
  /\ (isValid v = true <-> violations v = []).
Proof.
  intros Hv. destruct (returned_violations_reportable _ _ _ _ Hv) as [Hkinds ->].
  split; [exact Hkinds|].
  rewrite Nat.eqb_eq. split; [apply nil_length_inv|intros ->; reflexivity].
Qed.

Lemma returned_validation_kinds_witness :
  exists v,
    validateSchedule [plainDay [studyOf "ds"; studyOf "ds"; studyOf "ds"]] []
      freshValidation = Return v
    /\ Forall reportableKind (violations v).
Proof.
  eexists. split; [vm_compute; reflexivity|].
  apply (returned_validation_kinds
           [plainDay [studyOf "ds"; studyOf "ds"; studyOf "ds"]] [] freshValidation).
  vm_compute. reflexivity.
Defined.

(** ** The day loop: time line *)

Lemma sumZ_acc (l : list Z) (a : Z) : fold_left Z.add l a = a + sumZ l.
Proof.
  unfold sumZ. revert a. induction l as [|x l IH]; intros a; cbn [fold_left]; [lia|].
  rewrite IH, (IH (0 + x)). lia.
Qed.

Lemma sumZ_cons (x : Z) (l : list Z) : sumZ (x :: l) = x + sumZ l.
Proof. unfold sumZ at 1. cbn [fold_left]. rewrite sumZ_acc. lia. Qed.

Lemma sumZ_app (l l' : list Z) : sumZ (app l l') = sumZ l + sumZ l'.
Proof.
  induction l as [|x l IH]; [reflexivity|].
  cbn [app]. rewrite !sumZ_cons, IH. lia.
Qed.

Lemma tiles_app (t : Z) (l l' : list Slot) :
  tiles t l -> tiles (t + sumZ (map duration l)) l' -> tiles t (app l l').
Proof.
  revert t. induction l as [|s l IH]; intros t; cbn [app map tiles].
  - intros _. change (sumZ []) with 0. rewrite Z.add_0_r. trivial.
  - rewrite sumZ_cons. intros (Hs & He & Hb & Hrest) Hl'.
    split; [exact Hs|]. split; [exact He|]. split; [exact Hb|].
    apply IH; [exact Hrest|]. rewrite <- Z.add_assoc. exact Hl'.
Qed.

Lemma Qgtb_pos (q : Q) : Qgtb q 0 = true <-> (0 < q)%Q.
Proof.
  unfold Qgtb. rewrite negb_true_iff. split.
  - intros H. apply Qnot_le_lt. intros Hle. apply Qle_bool_iff in Hle. congruence.
  - intros H. destruct (Qle_bool q 0) eqn:Hle; [|reflexivity].
    apply Qle_bool_iff in Hle. lra.
Qed.

Section DayLine.

Variable engine : RulesEngine.
Variable this : SmartScheduler.
Variable todaysSubjects : list Allocation.
Variable settings : SessionSettings.
Variable dayIndex : nat.

Lemma fillStep_dayInv (st st' : FillState) (again : bool) :
  currentTime st < 21 * 60 ->
  fillStep engine this todaysSubjects settings dayIndex st = Return (again, st') ->
  dayInv st -> dayInv st'.
Proof.
  intros Hclock Hstep (Htiles & Htime). unfold fillStep in Hstep.
  destruct (nth_error _ _) as [alloc|];
    [|injection Hstep as _ <-; split; assumption].
  destruct (_ && _)%bool;
    [injection Hstep as _ <-; split; assumption|].
  destruct (eng_getOptimalSessionLength _ _ _) as [len|e]; cbn [bind] in Hstep; [|discriminate].
  destruct (eng_getBreakDuration _ _ _) as [brk|e]; cbn [bind] in Hstep; [|discriminate].
  set (session := createSessionSlot this (alloc_subject alloc) (currentTime st) len dayIndex)
    in Hstep.
  assert (Hsession : tiles (9 * 60 + sumZ (map duration (daySlots st))) [session]).
  { cbn [tiles]. rewrite <- Htime. repeat split. intros _. exact Hclock. }
  destruct (eng_needsLongBreak _ _ _); [|destruct (Qgtb _ _)];
    injection Hstep as _ <-; unfold dayInv; cbn [daySlots currentTime remainingHours].
  - split.
    + apply tiles_app; [exact Htiles|]. cbn [tiles]. rewrite <- Htime.
      repeat split; try reflexivity; [intros _; exact Hclock|].
      intros Hbreak. rewrite break_is_not_study in Hbreak. discriminate.
    + rewrite map_app, sumZ_app. cbn [map]. rewrite !sumZ_cons. cbn. lia.
  - split.
    + apply tiles_app; [exact Htiles|]. cbn [tiles]. rewrite <- Htime.
      repeat split; try reflexivity; [intros _; exact Hclock|].
      intros Hbreak. rewrite break_is_not_study in Hbreak. discriminate.
    + rewrite map_app, sumZ_app. cbn [map]. rewrite !sumZ_cons. cbn. lia.
  - split.
    + apply tiles_app; [exact Htiles|exact Hsession].
    + rewrite map_app, sumZ_app. cbn [map]. rewrite sumZ_cons. cbn. lia.
Qed.

Lemma fillStep_leaves (st st' : FillState) :
  fillStep engine this todaysSubjects settings dayIndex st = Return (false, st') ->
  todaysSubjects = [] \/ 21 * 60 <= currentTime st'.
Proof.
  unfold fillStep. intros Hstep.
  destruct (nth_error _ _) as [alloc|] eqn:Hnth.
  - right. destruct (_ && _)%bool; [discriminate|].
    destruct (eng_getOptimalSessionLength _ _ _) as [len|e]; cbn [bind] in Hstep; [|discriminate].
    destruct (eng_getBreakDuration _ _ _) as [brk|e]; cbn [bind] in Hstep; [|discriminate].
    destruct (eng_needsLongBreak _ _ _); [|destruct (Qgtb _ _)];
      injection Hstep as Hlate <-; cbn [currentTime];
      apply negb_false_iff, Z.leb_le in Hlate;
      unfold CONFIG.TIME_PREFERENCES.AVOID_LATE_NIGHT in Hlate; lia.
  - left. apply nth_error_None in Hnth.
    destruct todaysSubjects as [|a l]; [reflexivity|]. exfalso.
    pose proof (Nat.mod_upper_bound (subjectIndex st) (length (a :: l))) as Hb.
    cbn [length] in *. lia.
Qed.

Lemma fillDay_outcome (P : FillState -> Prop) (fuel : nat) (st0 st : FillState) :
  (forall st1 st2 again,
     (0 < remainingHours st1)%Q -> currentTime st1 < 21 * 60 ->
     fillStep engine this todaysSubjects settings dayIndex st1 = Return (again, st2) ->
     P st1 -> P st2) ->
  P st0 ->
  fillDay engine this fuel todaysSubjects settings dayIndex st0 = Some (Return st) ->
  P st
  /\ ((remainingHours st <= 0)%Q \/ 21 * 60 <= currentTime st \/ todaysSubjects = []).
Proof.
  intros Hstep. revert st0. induction fuel as [|fuel IH]; intros st0 HP; cbn [fillDay];
    [discriminate|].
  destruct (Qgtb (remainingHours st0) 0) eqn:Hrem; cbn [andb].
  - destruct (Z.ltb_spec (currentTime st0) (21 * 60)) as [Hclock|Hclock].
    + apply Qgtb_pos in Hrem.
      destruct (fillStep _ _ _ _ _ st0) as [[[|] st1]|e] eqn:Hs.
      * apply IH. eapply Hstep; eassumption.
      * intros [= <-]. split; [eapply Hstep; eassumption|].
        destruct (fillStep_leaves _ _ Hs) as [Hnone|Hlate]; auto.
      * discriminate.
    + intros [= <-]. split; [exact HP|]. right. left. exact Hclock.
  - intros [= <-]. split; [exact HP|]. left.
    apply Qnot_lt_le. intros Hlt. apply Qgtb_pos in Hlt. congruence.
Qed.

End DayLine.

Lemma filter_spliceIn {A} (f : A -> bool) (i : nat) (x : A) (l : list A) :
  f x = false -> List.filter f (spliceIn i x l) = List.filter f l.
Proof.
  intros Hx. unfold spliceIn. rewrite List.filter_app. cbn [List.filter]. rewrite Hx.
  rewrite <- List.filter_app, firstn_skipn. reflexivity.
Qed.

Lemma withoutLunch_addLunch (this : SmartScheduler) (time : Z) (sl : list Slot) :
  Forall loopSlot sl -> withoutLunch (addLunch this time sl) = sl.
Proof.
  intros Hloop.
  assert (Hsame : withoutLunch sl = sl).
  { unfold withoutLunch. induction Hloop as [|s sl [Hs _] _ IH]; [reflexivity|].
    cbn [List.filter]. rewrite Hs. cbn [negb]. f_equal. exact IH. }
  unfold addLunch. destruct (_ && _)%bool; [|exact Hsame].
  destruct (findIndex _ sl); [|exact Hsame].
  unfold withoutLunch. rewrite filter_spliceIn; [exact Hsame|reflexivity].
Qed.

Lemma studyMinutes_addLunch (this : SmartScheduler) (time : Z) (sl : list Slot) :
  studyMinutes (addLunch this time sl) = studyMinutes sl.
Proof.
  unfold addLunch. destruct (_ && _)%bool; [|reflexivity].
  destruct (findIndex _ sl); [|reflexivity].
  unfold studyMinutes. rewrite filter_spliceIn; [reflexivity|].
  apply break_is_not_study.
Qed.

Lemma generated_day_state (engine : RulesEngine) (calculateDate : nat -> string)
    (this : SmartScheduler) (fuel dayIndex : nat) (allocs : list Allocation)
    (settings : SessionSettings) (d : DaySchedule) :
  generateDaySchedule engine calculateDate this fuel dayIndex allocs settings
    = Some (Return d) ->
  exists st,
    runFill engine this fuel dayIndex allocs settings = Some (Return st)
    /\ withoutLunch (slots d) = daySlots st
    /\ (totalStudyHours d == inject_Z (studyMinutes (daySlots st)) / 60)%Q.
Proof.
  intros Hgen. pose proof Hgen as Hgen'. unfold generateDaySchedule in Hgen'.
  destruct (runFill _ _ _ _ _ _) as [[st|e]|] eqn:Hfill; try discriminate.
  injection Hgen' as <-. exists st. split; [reflexivity|]. cbn [slots totalStudyHours].
  split; [apply withoutLunch_addLunch; eapply runFill_loopSlots; exact Hfill|].
  rewrite studyMinutes_addLunch. reflexivity.
Qed.

(** X8. The slots of a generated day, an inserted lunch break apart, follow
    one another from 9:00 AM without gap or overlap: each is stamped
    with the minute the one before ends and with its own end, and every
    session starts before 9 PM.  The lunch break is put among them
    without moving any. *)
Theorem day_slots_follow_on (engine : RulesEngine) (calculateDate : nat -> string)
    (this : SmartScheduler) (fuel dayIndex : nat) (allocs : list Allocation)
    (settings : SessionSettings) (d : DaySchedule) :
  generateDaySchedule engine calculateDate this fuel dayIndex allocs settings
    = Some (Return d) ->
  tiles (9 * 60) (withoutLunch (slots d)).
Proof.
  intros Hgen. destruct (generated_day_state _ _ _ _ _ _ _ _ Hgen) as (st & Hfill & -> & _).
  unfold runFill in Hfill. destruct (dailyHours settings) as [h|].
  - apply (fillDay_outcome _ _ _ _ _ dayInv) in Hfill as [(Htiles & _) _];
      [exact Htiles| |].
    + intros st1 st2 again _ Hclock. apply fillStep_dayInv. exact Hclock.
    + split; [exact I|reflexivity].
  - injection Hfill as <-. exact I.
Qed.

Lemma day_slots_follow_on_witness :
  exists d,
    generateDaySchedule suppliedEngine noDate newScheduler 100 0
      defaultAllocations threeHourSettings = Some (Return d)
    /\ length (slots d) = 9%nat
    /\ tiles (9 * 60) (withoutLunch (slots d)).
Proof.
  eexists. split; [vm_compute; reflexivity|].
  split; [vm_compute; reflexivity|].
  apply (day_slots_follow_on suppliedEngine noDate newScheduler 100 0
           defaultAllocations threeHourSettings).
  vm_compute. reflexivity.
Defined.

(** ** The subjects selected for a day *)

Lemma filter_sublist {A} (p : A -> bool) (l : list A) : sublist (List.filter p l) l.
Proof.
  induction l as [|a l IH]; cbn [List.filter]; [constructor|].
  destruct (p a); [apply sublist_skip|apply sublist_cons]; exact IH.
Qed.

Lemma slice_sublist {A} (a b : nat) (l : list A) : sublist (slice a b l) l.
Proof. unfold slice. etrans; [apply sublist_take|apply sublist_drop]. Qed.

Lemma take_drop_sublist {A} (k m : nat) (l : list A) :
  sublist (take m (drop k l)) (take (k + m) l).
Proof.
  revert l. induction k as [|k IH]; intros l; [reflexivity|].
  destruct l as [|x l]; [rewrite drop_nil, take_nil; apply sublist_nil_l|].
  cbn [drop Nat.add take]. apply sublist_cons, IH.
Qed.

Lemma take_sublist_le {A} (a b : nat) (l : list A) :
  (a <= b)%nat -> sublist (take a l) (take b l).
Proof.
  intros Hab. rewrite <- (Nat.min_l a b Hab), <- take_take. apply sublist_take.
Qed.

Lemma available_is_positive (dayIndex : nat) (allocs : list Allocation) :
  List.filter (fun a => Qgtb (allocatedHours a * inject_Z (Z.of_nat dayIndex + 1)) 0) allocs
  = positiveAllocations allocs.
Proof.
  apply List.filter_ext. intros a.
  assert (Hk : (0 < inject_Z (Z.of_nat dayIndex + 1))%Q).
  { change 0%Q with (inject_Z 0). rewrite <- Zlt_Qlt. lia. }
  apply eq_true_iff_eq. rewrite !Qgtb_pos. split; intros H.
  - destruct (Qlt_le_dec 0 (allocatedHours a)) as [Hpos|Hneg]; [exact Hpos|].
    exfalso. assert (allocatedHours a * inject_Z (Z.of_nat dayIndex + 1) <= 0)%Q; [|lra].
    rewrite <- (Qmult_0_l (inject_Z (Z.of_nat dayIndex + 1))).
    apply Qmult_le_compat_r; [exact Hneg|lra].
  - apply Qmult_lt_0_compat; assumption.
Qed.

(** X11. The subjects [selectTodaysSubjects] picks are allocations of the
    plan, in the plan's order, and at most four.  When some subject is
    due for revision, at most three are picked and all of them are due.
    When none is, whatever the day, the pick comes from the first
    [max 4 (n / 4 + 3)] subjects with a positive allocation, [n] being
    their number: with five or more, the later ones are never picked. *)
Theorem selectTodaysSubjects_bounds (this : SmartScheduler) (allocs : list Allocation)
    (dayIndex : nat) :
  sublist (selectTodaysSubjects this allocs dayIndex) allocs
  /\ (length (selectTodaysSubjects this allocs dayIndex) <= 4)%nat
  /\ ((exists a, In a allocs /\ dueForRevision this a = true) ->
      (length (selectTodaysSubjects this allocs dayIndex) <= 3)%nat
      /\ Forall (fun a => dueForRevision this a = true)
           (selectTodaysSubjects this allocs dayIndex))
  /\ ((forall a, In a allocs -> dueForRevision this a = false) ->
      sublist (selectTodaysSubjects this allocs dayIndex)
        (take (Nat.max 4 (length (positiveAllocations allocs) / 4 + 3))
           (positiveAllocations allocs))).
Proof.
  unfold selectTodaysSubjects. rewrite available_is_positive.
  fold (dueForRevision this).
  change (List.filter (fun a => Z.leb CONFIG.SCHEDULING_RULES.REVISION_FREQUENCY
                                  (daysSince (sc_daysSinceLastStudy (context this))
                                     (id (alloc_subject a)))) allocs)
    with (List.filter (dueForRevision this) allocs).
  set (avail := positiveAllocations allocs).
  assert (Hplain :
    sublist match Nat.min (length avail) 4 with
            | O => []
            | S _ =>
                slice (dayIndex mod Nat.max 1 (length avail / Nat.min (length avail) 4))
                  (dayIndex mod Nat.max 1 (length avail / Nat.min (length avail) 4)
                   + Nat.min (length avail) 4) avail
            end
      (take (Nat.max 4 (length avail / 4 + 3)) avail)).
  { destruct (Nat.min (length avail) 4) as [|m'] eqn:Hmin; [apply sublist_nil_l|].
    rewrite <- Hmin. clear m' Hmin.
    set (n := length avail).
    set (k := (dayIndex mod Nat.max 1 (n / Nat.min n 4))%nat).
    unfold slice. replace (k + Nat.min n 4 - k)%nat with (Nat.min n 4) by lia.
    etrans; [apply take_drop_sublist|]. apply take_sublist_le.
    destruct (le_lt_dec n 4) as [Hsmall|Hlarge].
    - destruct (Nat.eq_dec n 0%nat) as [Hz|Hnz].
      + subst k. rewrite Hz. cbn. lia.
      + assert (Hk : k = 0%nat).
        { subst k. rewrite (Nat.min_l n 4 Hsmall), (Nat.div_same n Hnz).
          cbn [Nat.max]. apply Nat.mod_1_r. }
        lia.
    - assert (Hdiv : (1 <= n / 4)%nat) by (apply Nat.div_le_lower_bound; lia).
      assert (Hk : (k < n / 4)%nat).
      { subst k. rewrite (Nat.min_r n 4) by lia.
        rewrite (Nat.max_r 1 (n / 4) Hdiv). apply Nat.mod_upper_bound. lia. }
      lia. }
  destruct (List.filter (dueForRevision this) allocs) as [|r rs] eqn:Hdue.
  - split; [|split; [|split]].
    + etrans; [exact Hplain|]. etrans; [apply sublist_take|apply filter_sublist].
    + destruct (Nat.min (length avail) 4) as [|m'] eqn:Hmin; [cbn; lia|].
      rewrite <- Hmin. unfold slice. rewrite length_take. lia.
    + intros (a & Hin & Ha). exfalso.
      assert (Hf : In a (List.filter (dueForRevision this) allocs))
        by (apply List.filter_In; split; assumption).
      rewrite Hdue in Hf. exact Hf.
    + intros _. exact Hplain.
  - rewrite <- Hdue. split; [|split; [|split]].
    + etrans; [apply slice_sublist|apply filter_sublist].
    + unfold slice. rewrite length_take. lia.
    + intros _. split; [unfold slice; rewrite length_take; lia|].
      apply List.Forall_forall. intros a Ha.
      assert (Hin : In a (List.filter (dueForRevision this) allocs)).
      { apply list_elem_of_In. eapply elem_of_sublist; [|apply slice_sublist].
        apply list_elem_of_In. exact Ha. }
      apply List.filter_In in Hin. tauto.
    + intros Hnone. exfalso.
      assert (Hr : In r (List.filter (dueForRevision this) allocs))
        by (rewrite Hdue; left; reflexivity).
      apply List.filter_In in Hr as [Hin Hr]. rewrite (Hnone r Hin) in Hr. discriminate.
Qed.

(** ** A planning run ends *)

Lemma planDays_ends (engine : RulesEngine) (calculateDate : nat -> string)
    (fuel : nat) (days : list nat) (allocs : list Allocation) (settings : SessionSettings)
    (this : SmartScheduler) (allSlots : list Slot) :
  (forall subject d len,
     eng_getOptimalSessionLength engine subject d = Return len -> 1 <= len) ->
  (forall subject d brk,
     eng_getBreakDuration engine subject d = Return brk -> 0 <= brk) ->
  List.NoDup (map (fun a => id (alloc_subject a)) allocs) ->
  (1442 <= fuel)%nat ->
  is_Some (planDays engine calculateDate fuel days allocs settings this allSlots).
Proof.
  intros Hlen Hbrk Hids Hfuel. revert this allSlots.
  induction days as [|dayIndex days IH]; intros this allSlots; cbn [planDays].
  - eexists. reflexivity.
  - destruct (generateDaySchedule_ends engine calculateDate this fuel dayIndex allocs
                settings Hlen Hbrk Hids Hfuel) as [[d|e] ->].
    + apply IH.
    + eexists. reflexivity.
Qed.

(** X12. A planning run comes to an end, with a plan or an exception: with
    1442 iterations allowed to each day's loop, none of the days runs
    out of them.  This needs an engine whose sessions last at least a
    minute, whose breaks are not negative, and whose allocations have
    pairwise different subject ids. *)
Theorem generatePlan_ends (engine : RulesEngine) (calculateDate : nat -> string)
    (fuel : nat) (this : SmartScheduler) (inputs : Inputs) (subjects : list Subject) :
  (forall subject d len,
     eng_getOptimalSessionLength engine subject d = Return len -> 1 <= len) ->
  (forall subject d brk,
     eng_getBreakDuration engine subject d = Return brk -> 0 <= brk) ->
  (forall allocs,
     eng_allocateDailyHours engine subjects (tl_dailyHours (timeline inputs)) = Return allocs ->
     List.NoDup (map (fun a => id (alloc_subject a)) allocs)) ->
  (1442 <= fuel)%nat ->
  is_Some (generatePlan engine calculateDate fuel this inputs subjects).
Proof.
  intros Hlen Hbrk Hids Hfuel. unfold generatePlan.
  destruct (eng_allocateDailyHours engine subjects _) as [allocs|e]; [|eexists; reflexivity].
  destruct (planDays_ends engine calculateDate fuel (seq 0 (totalDays (timeline inputs)))
              allocs (sessionSettings inputs)
              {| schedule := []; currentDay := currentDay this; context := context this |} []
              Hlen Hbrk (Hids allocs eq_refl) Hfuel) as [[[this' allSlots]|e] ->];
    eexists; reflexivity.
Qed.

Lemma generatePlan_ends_witness :
  is_Some (generatePlan (fixedEngine 50 10) noDate 1442 newScheduler
             {| timeline := {| totalDays := 2; tl_dailyHours := 4 |};
                sessionSettings := exampleSettings |}
             defaultSubjects).
Proof.
  apply (generatePlan_ends (fixedEngine 50 10) noDate 1442 newScheduler
           {| timeline := {| totalDays := 2; tl_dailyHours := 4 |};
              sessionSettings := exampleSettings |}
           defaultSubjects).
  - intros subject d len [= <-]. lia.
  - intros subject d brk [= <-]. lia.
  - intros allocs Hallocs. vm_compute in Hallocs. injection Hallocs as <-.
    vm_compute. repeat (constructor; [simpl; intuition discriminate|]). constructor.
  - lia.
Defined.

(** ** The plans of the program's own engine *)

Lemma empty_allocations_give_empty_day (calculateDate : nat -> string)
    (this : SmartScheduler) (fuel dayIndex : nat) (settings : SessionSettings) :
  (1 <= fuel)%nat ->
  exists d,
    generateDaySchedule rulesEngine calculateDate this fuel dayIndex [] settings
      = Some (Return d)
    /\ slots d = [].
Proof.
  intros Hfuel. destruct fuel as [|fuel]; [lia|].
  unfold generateDaySchedule, runFill. destruct (dailyHours settings) as [h|].
  - cbn [fillDay remainingHours currentTime default from_option Datatypes.id].
    destruct (Qgtb h 0); cbn; eexists; split; reflexivity.
  - eexists. split; reflexivity.
Qed.

Lemma planDays_of_empty_days (engine : RulesEngine) (calculateDate : nat -> string)
    (fuel : nat) (days : list nat) (allocs : list Allocation) (settings : SessionSettings)
    (this : SmartScheduler) :
  (forall state dayIndex,
     exists d,
       generateDaySchedule engine calculateDate state fuel dayIndex allocs settings
       = Some (Return d)
       /\ slots d = []) ->
  Forall (fun d => slots d = []) (schedule this) ->
  exists this',
    planDays engine calculateDate fuel days allocs settings this [] = Some (Return (this', []))
    /\ length (schedule this') = (length (schedule this) + length days)%nat
    /\ Forall (fun d => slots d = []) (schedule this').
Proof.
  intros Hday. revert this. induction days as [|dayIndex days IH]; intros this Hall;
    cbn [planDays].
  - exists this. split; [reflexivity|]. split; [cbn; lia|exact Hall].
  - destruct (Hday this dayIndex) as (d & -> & Hd). rewrite Hd. cbn [app].
    destruct (IH (updateContextAfterDay
                    {| schedule := app (schedule this) [d]; currentDay := currentDay this;
                       context := context this |} dayIndex d)) as (this' & -> & Hlen & Hall').
    + cbn [updateContextAfterDay schedule]. apply Forall_app. split; [exact Hall|].
      constructor; [exact Hd|constructor].
    + exists this'. split; [reflexivity|]. split; [|exact Hall'].
      rewrite Hlen. cbn [updateContextAfterDay schedule]. rewrite length_app. cbn. lia.
Qed.

Lemma empty_days_walk (subjects : list Subject) (l : list (nat * DaySchedule))
    (acc : list Violation * list (string * SubjectStats)) :
  Forall (fun p => slots (snd p) = []) l ->
  foldM (walkDay subjects) l acc = Return acc.
Proof.
  intros Hall. revert acc. induction Hall as [|[i d] l Hd _ IH]; intros acc; [reflexivity|].
  cbn [foldM]. unfold walkDay at 1. cbn [snd] in Hd. rewrite Hd. cbn.
  rewrite IH. destruct acc; reflexivity.
Qed.

Lemma empty_days_have_no_slots (sched : list DaySchedule) :
  Forall (fun d => slots d = []) sched -> allSlotsOf sched = [].
Proof.
  unfold allSlotsOf. induction 1 as [|d sched Hd _ IH]; [reflexivity|].
  cbn [map concat]. rewrite Hd, IH. reflexivity.
Qed.

Lemma empty_days_have_no_sessions (sched : list DaySchedule) :
  Forall (fun d => slots d = []) sched ->
  sumZ (map (fun d => Z.of_nat (length (List.filter isStudySlot (slots d)))) sched) = 0.
Proof.
  induction 1 as [|d sched Hd _ IH]; [reflexivity|].
  cbn [map]. rewrite sumZ_cons, Hd, IH. reflexivity.
Qed.

(** X13. With the program's own engine [generatePlan] throws a TypeError for
    every non-empty subject list, before any day is generated.  For the
    empty list it returns a plan: one day without slots for each day of
    the timeline, no allocation, a valid schedule, no sessions, an
    efficiency of 0, and the tip to optimise as the only suggestion. *)
Theorem own_engine_plan_outcome (calculateDate : nat -> string) (fuel : nat)
    (this : SmartScheduler) (inputs : Inputs) (subjects : list Subject) :
  (1 <= fuel)%nat ->
  match subjects with
  | _ :: _ =>
      generatePlan rulesEngine calculateDate fuel this inputs subjects
      = Some (Throw TypeError)
  | [] =>
      exists plan this',
        generatePlan rulesEngine calculateDate fuel this inputs subjects
        = Some (Return (plan, this'))
        /\ length (plan_schedule plan) = totalDays (timeline inputs)
        /\ Forall (fun d => slots d = []) (plan_schedule plan)
        /\ allocations plan = []
        /\ validation plan = {| isValid := true; violations := []; stats := [] |}
        /\ map sg_action (suggestions plan) = ["optimize"]
        /\ sm_totalSessions (summary plan) = 0%nat
        /\ efficiencyScore (summary plan) = 0
  end.
Proof.
  intros Hfuel. destruct subjects as [|s rest].
  - unfold generatePlan. cbn [rulesEngine eng_allocateDailyHours allocateDailyHours
                               calculateSubjectWeights mapM bind allocateHours map js_sort
                               fold_right].
    destruct (planDays_of_empty_days rulesEngine calculateDate fuel
                (seq 0 (totalDays (timeline inputs))) [] (sessionSettings inputs)
                {| schedule := []; currentDay := currentDay this; context := context this |})
      as (this' & Hdays & Hlen & Hall);
      [intros state dayIndex; apply empty_allocations_give_empty_day, Hfuel|constructor|].
    change (js_sort _ (map _ [])) with (@nil Allocation).
    rewrite Hdays. unfold rulesEngine. cbn [eng_validateSchedule eng_generateSuggestions].
    unfold validateSchedule. rewrite empty_days_walk.
    + cbn [bind initialStats fold_left length Nat.eqb]. eexists _, _. split; [reflexivity|].
      cbn [plan_schedule allocations validation suggestions summary violations].
      split; [rewrite Hlen, length_seq; reflexivity|].
      split; [exact Hall|]. split; [reflexivity|]. split; [reflexivity|].
      split; [|split; reflexivity].
      unfold generateSuggestions, calculateEfficiencyScore.
      rewrite (empty_days_have_no_sessions _ Hall), (empty_days_have_no_slots _ Hall).
      reflexivity.
    + unfold indexed. apply List.Forall_forall. intros [i d] Hin.
      apply in_combine_r in Hin. rewrite List.Forall_forall in Hall. apply Hall, Hin.
  - unfold generatePlan. cbn [rulesEngine eng_allocateDailyHours].
    unfold allocateDailyHours. rewrite weights_default_throw. reflexivity.
Qed.

Lemma own_engine_plan_outcome_witness :
  generatePlan rulesEngine noDate 1 newScheduler
    {| timeline := {| totalDays := 2; tl_dailyHours := 4 |};
       sessionSettings := exampleSettings |}
    defaultSubjects
  = Some (Throw TypeError).
Proof.
  apply (own_engine_plan_outcome noDate 1 newScheduler
           {| timeline := {| totalDays := 2; tl_dailyHours := 4 |};
              sessionSettings := exampleSettings |}
           defaultSubjects).
  lia.
Defined.

(** ** Plans from the collected settings *)

(** X14. The settings the input manager collects have no [dailyHours], which
    is where [generateDaySchedule] looks for the day's budget.  So a
    plan generated from them, whatever the engine, has one day for each
    day of the timeline and every day is empty: no session, no break,
    an efficiency of 0. *)
Theorem collected_settings_plan_is_empty (engine : RulesEngine)
    (calculateDate : nat -> string) (fuel : nat) (this this' : SmartScheduler)
    (days : Timeline) (sessionLen breakLen : Z) (subjects : list Subject) (plan : Plan) :
  generatePlan engine calculateDate fuel this
    {| timeline := days; sessionSettings := getSessionSettings sessionLen breakLen |}
    subjects
  = Some (Return (plan, this')) ->
  length (plan_schedule plan) = totalDays days
  /\ Forall (fun d => slots d = []) (plan_schedule plan)
  /\ sm_totalSessions (summary plan) = 0%nat
  /\ subjectDistribution (summary plan) = []
  /\ efficiencyScore (summary plan) = 0.
Proof.
  unfold generatePlan. cbn [timeline sessionSettings].
  destruct (eng_allocateDailyHours engine subjects _) as [allocs|e]; [|discriminate].
  destruct (planDays_of_empty_days engine calculateDate fuel (seq 0 (totalDays days)) allocs
              (getSessionSettings sessionLen breakLen)
              {| schedule := []; currentDay := currentDay this; context := context this |})
    as (after & -> & Hlen & Hall);
    [intros state dayIndex; eexists; split; reflexivity|constructor|].
  destruct (eng_validateSchedule engine _ _ _) as [validated|e]; [|discriminate].
  cbn [bind]. intros [= <- _]. cbn [plan_schedule summary].
  split; [rewrite Hlen, length_seq; reflexivity|]. split; [exact Hall|].
  repeat split.
Qed.

Lemma collected_settings_plan_is_empty_witness :
  exists plan this',
    generatePlan (fixedEngine 50 10) noDate 100 newScheduler
      {| timeline := {| totalDays := 2; tl_dailyHours := 4 |};
         sessionSettings := getSessionSettings 50 10 |}
      defaultSubjects
    = Some (Return (plan, this'))
    /\ length (allocations plan) = 3%nat
    /\ map slots (plan_schedule plan) = [[]; []].
Proof.
  eexists _, _. split; [vm_compute; reflexivity|].
  split; [vm_compute; reflexivity|].
  destruct (collected_settings_plan_is_empty (fixedEngine 50 10) noDate 100 newScheduler _
              {| totalDays := 2; tl_dailyHours := 4 |} 50 10 defaultSubjects _
              ltac:(vm_compute; reflexivity)) as (_ & _ & _).
  vm_compute. reflexivity.
Defined.

(** ** Scheduling constraints *)





(** ** Marking a session completed *)

Lemma setCompleted_again (s : Slot) : setCompleted (setCompleted s) = setCompleted s.
Proof. reflexivity. Qed.

Lemma markInSlots_spec (sessionId : string) (sl : list Slot) :
  markInSlots sessionId sl
  = if existsb (hasId sessionId) sl then Some (markFirst sessionId sl) else None.
Proof.
  induction sl as [|s sl IH]; [reflexivity|].
  cbn [markInSlots existsb markFirst]. unfold hasId at 1 3.
  destruct (String.eqb (slot_id s) sessionId); [reflexivity|].
  cbn [orb]. rewrite IH. destruct (existsb _ sl); reflexivity.
Qed.

Lemma markFirst_none (sessionId : string) (sl : list Slot) :
  existsb (hasId sessionId) sl = false -> markFirst sessionId sl = sl.
Proof.
  induction sl as [|s sl IH]; [reflexivity|]. cbn [existsb markFirst].
  destruct (hasId sessionId s); [discriminate|]. cbn [orb]. intros H. rewrite IH; trivial.
Qed.

Lemma markFirst_app (sessionId : string) (l l' : list Slot) :
  markFirst sessionId (app l l')
  = if existsb (hasId sessionId) l
    then app (markFirst sessionId l) l'
    else app l (markFirst sessionId l').
Proof.
  induction l as [|s l IH]; [reflexivity|]. cbn [app markFirst existsb].
  destruct (hasId sessionId s); [reflexivity|]. cbn [orb]. rewrite IH.
  destruct (existsb _ l); reflexivity.
Qed.

Lemma markFirst_again (sessionId : string) (sl : list Slot) :
  markFirst sessionId (markFirst sessionId sl) = markFirst sessionId sl.
Proof.
  induction sl as [|s sl IH]; [reflexivity|]. cbn [markFirst].
  destruct (hasId sessionId s) eqn:Hs; cbn [markFirst].
  - unfold hasId in *. cbn [setCompleted slot_id]. rewrite Hs. reflexivity.
  - rewrite Hs, IH. reflexivity.
Qed.

Lemma markFirst_exists (sessionId : string) (sl : list Slot) :
  existsb (hasId sessionId) (markFirst sessionId sl) = existsb (hasId sessionId) sl.
Proof.
  induction sl as [|s sl IH]; [reflexivity|]. cbn [markFirst].
  destruct (hasId sessionId s) eqn:Hs; cbn [existsb].
  - unfold hasId in *. cbn [setCompleted slot_id]. rewrite Hs. reflexivity.
  - rewrite Hs, IH. reflexivity.
Qed.

Lemma markFirst_erased (sessionId : string) (sl : list Slot) :
  map eraseCompleted (markFirst sessionId sl) = map eraseCompleted sl.
Proof.
  induction sl as [|s sl IH]; [reflexivity|]. cbn [markFirst].
  destruct (hasId sessionId s); cbn [map]; [reflexivity|]. rewrite IH. reflexivity.
Qed.

Lemma markFirst_length (sessionId : string) (sl : list Slot) :
  length (markFirst sessionId sl) = length sl.
Proof.
  induction sl as [|s sl IH]; [reflexivity|]. cbn [markFirst].
  destruct (hasId sessionId s); cbn [length]; [reflexivity|]. rewrite IH. reflexivity.
Qed.

Lemma markInDays_spec (sessionId : string) (days : list DaySchedule) :
  snd (markInDays sessionId days) = existsb (hasId sessionId) (allSlotsOf days)
  /\ allSlotsOf (fst (markInDays sessionId days)) = markFirst sessionId (allSlotsOf days)
  /\ map dayHeader (fst (markInDays sessionId days)) = map dayHeader days
  /\ markInDays sessionId (fst (markInDays sessionId days)) = markInDays sessionId days
  /\ (snd (markInDays sessionId days) = false -> fst (markInDays sessionId days) = days).
Proof.
  unfold allSlotsOf. induction days as [|d days (IHfound & IHslots & IHhead & IHagain & IHsame)].
  - repeat split.
  - cbn [markInDays map concat]. rewrite markInSlots_spec, existsb_app, markFirst_app.
    destruct (existsb (hasId sessionId) (slots d)) eqn:Hd.
    + cbn [fst snd orb map concat markInDays withSlots slots].
      split; [reflexivity|]. split; [reflexivity|].
      split; [f_equal; unfold dayHeader, withSlots;
              cbn [day date totalSessions totalStudyHours slots];
              rewrite markFirst_length; reflexivity|].
      split; [|discriminate].
      rewrite markInSlots_spec, markFirst_exists, Hd, markFirst_again. reflexivity.
    + destruct (markInDays sessionId days) as [rest found] eqn:Hrest.
      cbn [fst snd orb map concat] in *.
      split; [exact IHfound|]. split; [rewrite IHslots; reflexivity|].
      split; [rewrite IHhead; reflexivity|].
      split.
      * cbn [markInDays]. rewrite markInSlots_spec, Hd, IHagain. reflexivity.
      * intros Hf. rewrite (IHsame Hf). reflexivity.
Qed.

(** X16. [markSessionCompleted] answers whether some slot of the schedule has
    the id.  It sets [completed] on the first such slot in schedule
    order and on nothing else: every other slot, and every other
    property of that slot, of its day and of the scheduler, stays as it
    was.  Marking again changes nothing more, and an unknown id leaves
    the scheduler as it was. *)
Theorem markSessionCompleted_effect (this : SmartScheduler) (sessionId : string) :
  snd (markSessionCompleted this sessionId)
  = existsb (hasId sessionId) (allSlotsOf (schedule this))
  /\ allSlotsOf (schedule (fst (markSessionCompleted this sessionId)))
     = markFirst sessionId (allSlotsOf (schedule this))
  /\ map eraseCompleted (allSlotsOf (schedule (fst (markSessionCompleted this sessionId))))
     = map eraseCompleted (allSlotsOf (schedule this))
  /\ map dayHeader (schedule (fst (markSessionCompleted this sessionId)))
     = map dayHeader (schedule this)
  /\ currentDay (fst (markSessionCompleted this sessionId)) = currentDay this
  /\ context (fst (markSessionCompleted this sessionId)) = context this
  /\ markSessionCompleted (fst (markSessionCompleted this sessionId)) sessionId
     = markSessionCompleted this sessionId
  /\ (snd (markSessionCompleted this sessionId) = false ->
      fst (markSessionCompleted this sessionId) = this).
Proof.
  destruct (markInDays_spec sessionId (schedule this))
    as (Hfound & Hslots & Hhead & Hagain & Hsame).
  unfold markSessionCompleted.
  destruct (markInDays sessionId (schedule this)) as [days found] eqn:Hdays.
  cbn [fst snd schedule currentDay context] in *.
  split; [exact Hfound|]. split; [exact Hslots|].
  split; [rewrite Hslots; apply markFirst_erased|].
  split; [exact Hhead|]. split; [reflexivity|]. split; [reflexivity|].
  split; [rewrite Hagain; reflexivity|].
  intros Hf. rewrite (Hsame Hf). destruct this; reflexivity.
Qed.

(** ** Formatted times *)

Lemma minutesOfDay_read_back :
  forallb (fun m => match readClock (formatTime m) with
                    | Some m' => Z.eqb m' m
                    | None => false
                    end) minutesOfDay = true.
Proof. vm_compute. reflexivity. Qed.

Lemma readClock_formatTime (m : Z) :
  0 <= m < 24 * 60 -> readClock (formatTime m) = Some m.
Proof.
  intros Hm. pose proof minutesOfDay_read_back as Hall.
  rewrite forallb_forall in Hall. specialize (Hall m).
  assert (Hin : In m minutesOfDay).
  { unfold minutesOfDay. apply in_map_iff. exists (Z.to_nat m).
    split; [lia|]. apply in_seq. lia. }
  specialize (Hall Hin). destruct (readClock (formatTime m)) as [m'|]; [|discriminate].
  apply Z.eqb_eq in Hall. congruence.
Qed.

(** X17. Within a day the times [formatTime] writes are unambiguous: the
    minute can be read back from the text, so two different minutes of
    a day never get the same text.  The hour read from the text by
    [parseInt] is the hour of the twelve-hour clock, between 1 and 12.
    From 24:00 on the texts of the day are used again. *)
Theorem formatTime_within_day (m : Z) :
  0 <= m < 24 * 60 ->
  readClock (formatTime m) = Some m
  /\ (forall m', 0 <= m' < 24 * 60 -> formatTime m' = formatTime m -> m' = m)
  /\ (exists h, parseInt (beforeColon (formatTime m)) = Some h /\ 1 <= h <= 12)
  /\ formatTime (m + 24 * 60) = formatTime (Z.rem m (12 * 60) + 12 * 60).
Proof.
  intros Hm. split; [apply readClock_formatTime, Hm|].
  split.
  - intros m' Hm' Heq. apply readClock_formatTime in Hm'.
    rewrite Heq, (readClock_formatTime m Hm) in Hm'. congruence.
  - split.
    + exists (displayHours (m / 60)). split; [apply hour_of_formatTime|].
      assert (0 <= m / 60 < 24)
        by (split; [apply Z.div_pos|apply Z.div_lt_upper_bound]; lia).
      unfold displayHours. pose proof (Z.rem_bound_pos (m / 60) 12 ltac:(lia) ltac:(lia)).
      destruct (Z.eqb_spec (Z.rem (m / 60) 12) 0); lia.
    + assert (Hall : forallb (fun m => String.eqb (formatTime (m + 24 * 60))
                                         (formatTime (Z.rem m (12 * 60) + 12 * 60)))
                       minutesOfDay = true) by (vm_compute; reflexivity).
      rewrite forallb_forall in Hall. apply String.eqb_eq, Hall.
      unfold minutesOfDay. apply in_map_iff. exists (Z.to_nat m).
      split; [lia|]. apply in_seq. lia.
Qed.

Lemma formatTime_within_day_witness :
  formatTime (13 * 60 + 5) = "1:05 PM"
  /\ readClock "1:05 PM" = Some (13 * 60 + 5)
  /\ formatTime (24 * 60) = formatTime (12 * 60).
Proof.
  destruct (formatTime_within_day (13 * 60 + 5) ltac:(lia)) as (Hread & _ & _ & _).
  destruct (formatTime_within_day 0 ltac:(lia)) as (_ & _ & _ & Hnext).
  split; [vm_compute; reflexivity|]. split; [exact Hread|exact Hnext].
Defined.

(** ** Imports *)




(** ** Reading and validating the form *)

Section FormFacts.

Variable parseDate : string -> option Z.
Variable generateId : nat -> string.

Lemma readRows_from (rows : list InputForm.Row) (acc : list Subject) (issued : nat) :
  exists added,
    fold_left (InputForm.readRow generateId) rows (acc, issued)
    = (app acc added, (issued + length added)%nat)
    /\ map id added = map generateId (seq issued (length added))
    /\ (length added <= length rows)%nat
    /\ Forall wellRead added.
Proof.
  revert acc issued. induction rows as [|row rows IH]; intros acc issued; cbn [fold_left].
  - exists []. rewrite app_nil_r, Nat.add_0_r. repeat split; constructor.
  - unfold InputForm.readRow at 2. cbn [fst snd].
    destruct (negb (String.eqb (InputForm.trim (InputForm.row_name row)) "")) eqn:Hname;
      cbn [andb].
    + destruct (Z.ltb_spec 0 (default 0 (parseInt (InputForm.row_hours row)))) as [Hpos|Hneg].
      * match goal with
        | |- context [fold_left _ rows (app acc [?s], _)] =>
            destruct (IH (app acc [s]) (S issued)) as (added & -> & Hids & Hlen & Hall);
            exists (s :: added)
        end. rewrite <- app_assoc. cbn [app length].
        split; [f_equal; lia|]. split; [cbn [map seq id]; rewrite Hids; reflexivity|].
        split; [cbn [length]; lia|]. constructor; [|exact Hall].
        unfold wellRead. cbn [name hoursNeeded hoursCompleted sessionsCompleted weight].
        split; [apply negb_true_iff, String.eqb_neq in Hname; exact Hname|].
        split; [|repeat split].
        change 0%Q with (inject_Z 0). rewrite <- Zlt_Qlt. exact Hpos.
      * destruct (IH acc issued) as (added & -> & Hids & Hlen & Hall).
        exists added. repeat split; try assumption. cbn [length]. lia.
    + destruct (IH acc issued) as (added & -> & Hids & Hlen & Hall).
      exists added. repeat split; try assumption. cbn [length]. lia.
Qed.

(** The rows are read in document order; a row is kept or passed over
    on its own, and the kept ones take the next ids in turn. *)
Lemma readRows_kept (rows : list InputForm.Row) (acc : list Subject) (issued : nat) :
  fold_left (InputForm.readRow generateId) rows (acc, issued)
  = (app acc (imap (fun k row => subjectOfRow (generateId (issued + k)) row)
                   (List.filter keptRow rows)),
     (issued + length (List.filter keptRow rows))%nat).
Proof.
  revert acc issued. induction rows as [|row rows IH]; intros acc issued;
    cbn [fold_left List.filter].
  - cbn. rewrite app_nil_r, Nat.add_0_r. reflexivity.
  - unfold InputForm.readRow at 2. cbn [fst snd]. fold (keptRow row).
    destruct (keptRow row).
    + rewrite IH. cbn [imap length]. rewrite <- app_assoc. cbn [app].
      rewrite Nat.add_0_r. f_equal; [|lia]. f_equal. f_equal.
      apply imap_ext. intros k r _. cbn. f_equal. f_equal. lia.
    + apply IH.
Qed.

(** X22. [getSubjectsData] reads the rows in document order and keeps
    exactly those whose name has a character that is not white space
    and whose hours read, as [parseInt] reads them, as a positive
    number: the subjects are the kept rows, each with its trimmed name,
    its priority and difficulty as selected, the hours read, nothing
    completed and weight 0, under the next ids [generateId] hands out.
    So there are at most as many subjects as rows, each with a
    non-empty name and positive hours; and the subjects become the
    manager's subjects. *)
Theorem getSubjectsData_reads (page : InputForm.Page) (this : InputForm.Manager) :
  fst (InputForm.getSubjectsData generateId page this)
  = imap (fun k row => subjectOfRow (generateId (InputForm.idsIssued this + k)) row)
         (List.filter keptRow (InputForm.rows page))
  /\ InputForm.subjects (snd (InputForm.getSubjectsData generateId page this))
     = fst (InputForm.getSubjectsData generateId page this)
  /\ InputForm.idsIssued (snd (InputForm.getSubjectsData generateId page this))
     = (InputForm.idsIssued this
        + length (fst (InputForm.getSubjectsData generateId page this)))%nat
  /\ map id (fst (InputForm.getSubjectsData generateId page this))
     = map generateId
         (seq (InputForm.idsIssued this)
              (length (fst (InputForm.getSubjectsData generateId page this))))
  /\ (length (fst (InputForm.getSubjectsData generateId page this))
      <= length (InputForm.rows page))%nat
  /\ Forall wellRead (fst (InputForm.getSubjectsData generateId page this)).
Proof.
  split.
  - unfold InputForm.getSubjectsData. rewrite readRows_kept. reflexivity.
  - unfold InputForm.getSubjectsData.
    destruct (readRows_from (InputForm.rows page) [] (InputForm.idsIssued this))
      as (added & -> & Hids & Hlen & Hall).
    cbn [app fst snd InputForm.subjects InputForm.idsIssued]. repeat split; assumption.
Qed.

Lemma subjects_recorded (page : InputForm.Page) (this : InputForm.Manager) :
  InputForm.subjects (snd (InputForm.getSubjectsData generateId page this))
  = fst (InputForm.getSubjectsData generateId page this).
Proof.
  unfold InputForm.getSubjectsData. destruct (fold_left _ _ _). reflexivity.
Qed.

Lemma pushIf_app (condition : bool) (message : string) (errors : list string) :
  InputForm.pushIf condition message errors
  = app errors (if condition then [message] else []).
Proof. unfold InputForm.pushIf. destruct condition; [reflexivity|]. rewrite app_nil_r. reflexivity. Qed.

Lemma day_count_positive (d : Z) :
  0 <= d -> 1 <= Math_ceil (inject_Z d / inject_Z (1000 * 60 * 60 * 24)) + 1.
Proof.
  intros Hd. unfold Math_ceil.
  assert (Hq : (0 <= inject_Z d / inject_Z (1000 * 60 * 60 * 24))%Q).
  { unfold Qdiv. apply Qmult_le_0_compat.
    - change 0%Q with (inject_Z 0). rewrite <- Zle_Qle. exact Hd.
    - apply Qinv_le_0_compat. change 0%Q with (inject_Z 0). rewrite <- Zle_Qle. lia. }
  pose proof (Qle_ceiling (inject_Z d / inject_Z (1000 * 60 * 60 * 24))) as Hc.
  assert (Hz : (inject_Z 0 <= inject_Z (Qceiling (inject_Z d / inject_Z (1000 * 60 * 60 * 24))))%Q).
  { change (inject_Z 0) with 0%Q. eapply Qle_trans; eassumption. }
  rewrite <- Zle_Qle in Hz. lia.
Qed.

Lemma whole_days (n : Z) :
  Math_ceil (inject_Z (1000 * 60 * 60 * 24 * n) / inject_Z (1000 * 60 * 60 * 24)) = n.
Proof.
  unfold Math_ceil. transitivity (Qceiling (inject_Z n)); [|apply Qceiling_Z].
  apply Qceiling_comp. rewrite inject_Z_mult. field. discriminate.
Qed.

(** X23. What [validateInputs] accepts.  The day count is at least 1 whenever
    both dates can be read, and it counts both ends of a range of whole
    days, so the error about a study period of less than a day is never
    reported.  The inputs are valid exactly when some subject was read,
    the start date is before the end date, the daily hours are between
    2 and 12, and the hours needed are at most 1.2 times the hours
    available, each of the last three being required only when the
    values in question can be read: a date or a number of hours that
    cannot be read raises no error. *)
Theorem validateInputs_accepts (page : InputForm.Page) (this this' : InputForm.Manager)
    (checked : InputForm.Checked) :
  InputForm.validateInputs parseDate generateId page this = (this', Return checked) ->
  exists timeline,
    InputForm.getTimelineData parseDate page = Return timeline
    /\ this' = snd (InputForm.getSubjectsData generateId page this)
    /\ (forall days, InputForm.totalDays timeline = Some days -> 1 <= days)
    /\ (forall s e n, InputForm.startDate timeline = Some s ->
                      InputForm.endDate timeline = Some e ->
                      Z.abs (e - s) = 1000 * 60 * 60 * 24 * n ->
                      InputForm.totalDays timeline = Some (n + 1))
    /\ ~ In "Study period must be at least 1 day" (InputForm.errors checked)
    /\ (InputForm.isValid checked = true
        <-> InputForm.subjects this' <> []
            /\ (forall s e, InputForm.startDate timeline = Some s ->
                            InputForm.endDate timeline = Some e -> s < e)
            /\ (forall h, InputForm.dailyHours timeline = Some h -> 2 <= h <= 12)
            /\ (forall available,
                  InputForm.totalStudyHours timeline = Some available ->
                  (sumQ (map hoursNeeded (InputForm.subjects this'))
                   <= inject_Z available * (12 # 10))%Q)).
Proof.
  unfold InputForm.validateInputs.
  destruct (InputForm.getTimelineData parseDate page) as [timeline|e] eqn:Htimeline;
    [|discriminate].
  pose proof (subjects_recorded page this) as Hafter.
  destruct (InputForm.getSubjectsData generateId page this) as [subjects after] eqn:Hread.
  cbn [fst snd] in Hafter.
  rewrite !pushIf_app. cbn [app].
  intros [= <- <-]. exists timeline. split; [reflexivity|]. split; [reflexivity|].
  assert (Hdays : forall days, InputForm.totalDays timeline = Some days -> 1 <= days).
  { unfold InputForm.getTimelineData in Htimeline.
    destruct (InputForm.elementValue page "startDate") as [sv|]; [|discriminate].
    destruct (InputForm.elementValue page "endDate") as [ev|]; [|discriminate].
    destruct (InputForm.elementValue page "dailyHours") as [hv|]; [|discriminate].
    cbn [bind] in Htimeline. injection Htimeline as <-. cbn [InputForm.totalDays].
    destruct (parseDate sv) as [s|], (parseDate ev) as [e|]; try discriminate.
    cbn [option_map]. intros days [= <-]. apply day_count_positive. lia. }
  split; [exact Hdays|]. split.
  { unfold InputForm.getTimelineData in Htimeline.
    destruct (InputForm.elementValue page "startDate") as [sv|]; [|discriminate].
    destruct (InputForm.elementValue page "endDate") as [ev|]; [|discriminate].
    destruct (InputForm.elementValue page "dailyHours") as [hv|]; [|discriminate].
    cbn [bind] in Htimeline. injection Htimeline as <-.
    cbn [InputForm.totalDays InputForm.startDate InputForm.endDate].
    intros s e n -> -> Hn. cbn [option_map]. rewrite Hn, whole_days. reflexivity. }
  assert (Hshort : match InputForm.totalDays timeline with
                   | Some d => Z.ltb d 1
                   | None => false
                   end = false).
  { destruct (InputForm.totalDays timeline) as [d|] eqn:Hd; [|reflexivity].
    apply Z.ltb_ge. apply Hdays. reflexivity. }
  rewrite Hshort. cbn [app]. rewrite app_nil_r.
  cbn [InputForm.errors InputForm.isValid]. rewrite Hafter.
  set (lateStart := match InputForm.startDate timeline, InputForm.endDate timeline with
                    | Some s, Some e => Z.leb e s
                    | _, _ => false
                    end).
  set (hoursOff := match InputForm.dailyHours timeline with
                   | Some h => (Z.ltb h 2 || Z.ltb 12 h)%bool
                   | None => false
                   end).
  split.
  - intros Hin.
    destruct (InputForm.totalStudyHours timeline) as [available|];
      [rewrite pushIf_app in Hin|];
      repeat (apply in_app_or in Hin; destruct Hin as [Hin|Hin]);
      repeat match goal with
             | H : In _ (if ?c then _ else _) |- _ => destruct c
             | H : In _ [] |- _ => destruct H
             | H : In _ [_] |- _ => destruct H as [H|H]
             end;
      discriminate.
  - assert (Hlate : lateStart = false
                    <-> forall s e, InputForm.startDate timeline = Some s ->
                                    InputForm.endDate timeline = Some e -> s < e).
    { subst lateStart.
      destruct (InputForm.startDate timeline) as [s|], (InputForm.endDate timeline) as [e|];
        try (split; [intros _ ? ? ? ?; discriminate|reflexivity]);
        try (split; [intros _ ? ? ?; discriminate|reflexivity]).
      rewrite Z.leb_gt. split; [intros H ? ? [= <-] [= <-]; exact H|intros H; apply H; reflexivity]. }
    assert (Hhours : hoursOff = false
                     <-> forall h, InputForm.dailyHours timeline = Some h -> 2 <= h <= 12).
    { subst hoursOff. destruct (InputForm.dailyHours timeline) as [h|];
        [|split; [intros _ ? ?; discriminate|reflexivity]].
      rewrite orb_false_iff, !Z.ltb_ge.
      split; [intros [? ?] ? [= <-]; lia|intros H; specialize (H h eq_refl); lia]. }
    assert (Hnone : Nat.eqb (length subjects) 0 = false <-> subjects <> []).
    { destruct subjects; cbn; split; congruence. }
    destruct (InputForm.totalStudyHours timeline) as [available|].
    + rewrite pushIf_app, !length_app, Nat.eqb_eq.
      split.
      * intros Hlen.
        destruct lateStart; [cbn in Hlen; lia|].
        destruct hoursOff; [cbn in Hlen; lia|].
        destruct (Nat.eqb (length subjects) 0) eqn:Hs; [cbn in Hlen; lia|].
        destruct (Qgtb _ _) eqn:Hq; [cbn in Hlen; lia|].
        split; [apply Hnone; reflexivity|]. split; [apply Hlate; reflexivity|].
        split; [apply Hhours; reflexivity|].
        intros a [= <-]. apply Qnot_lt_le. intros Hlt.
        unfold Qgtb in Hq. apply negb_false_iff, Qle_bool_iff in Hq. lra.
      * intros (Hsome & Hdates & Hh & Htotal).
        apply Hnone in Hsome. apply Hlate in Hdates. apply Hhours in Hh.
        rewrite Hsome, Hdates, Hh.
        replace (Qgtb _ _) with false; [reflexivity|].
        symmetry. unfold Qgtb. apply negb_false_iff, Qle_bool_iff, Htotal. reflexivity.
    + rewrite !length_app, Nat.eqb_eq. split.
      * intros Hlen.
        destruct lateStart; [cbn in Hlen; lia|].
        destruct hoursOff; [cbn in Hlen; lia|].
        destruct (Nat.eqb (length subjects) 0) eqn:Hs; [cbn in Hlen; lia|].
        split; [apply Hnone; reflexivity|]. split; [apply Hlate; reflexivity|].
        split; [apply Hhours; reflexivity|]. intros a [=].
      * intros (Hsome & Hdates & Hh & _).
        apply Hnone in Hsome. apply Hlate in Hdates. apply Hhours in Hh.
        rewrite Hsome, Hdates, Hh. reflexivity.
Qed.

End FormFacts.

Lemma getSubjectsData_reads_witness :
  fst (InputForm.getSubjectsData numberedId mixedPage freshManager)
  = [mkSubject "id0" "Logic" "high" "hard" 16 0 0 0;
     mkSubject "id1" "Algebra" "medium" "easy" 12 0 0 0;
     mkSubject "id2" "Optics" "low" "medium" 7 0 0 0].
Proof.
  rewrite (proj1 (getSubjectsData_reads numberedId mixedPage freshManager)).
  vm_compute. reflexivity.
Defined.

(** A page whose dates and daily hours cannot be read and that has one
    subject row passes validation. *)
Lemma validateInputs_accepts_witness :
  exists this' checked,
    InputForm.validateInputs (fun _ => None) (fun _ => "s1") unreadablePage freshManager
    = (this', Return checked)
    /\ InputForm.isValid checked = true
    /\ map name (InputForm.subjects this') = ["Algebra"]
    /\ ~ In "Study period must be at least 1 day" (InputForm.errors checked).
Proof.
  eexists _, _. split; [vm_compute; reflexivity|].
  split; [vm_compute; reflexivity|]. split; [vm_compute; reflexivity|].
  destruct (validateInputs_accepts (fun _ => None) (fun _ => "s1")
              unreadablePage freshManager _ _ ltac:(vm_compute; reflexivity))
    as (timeline & _ & _ & _ & _ & Hnever & _).
  exact Hnever.
Defined.

(** ** Suggestions for a validated schedule *)

Lemma suggestions_of_reportable (vs : list Violation) :
  Forall reportableKind vs ->
  map sg_type (concat (map suggestionFor vs))
  = map (fun v => if String.eqb (v_type v) "consecutive_sessions"
                  then "warning" else "important") vs.
Proof.
  induction 1 as [|v vs Hv _ IH]; [reflexivity|].
  cbn [map concat]. rewrite map_app, IH. f_equal.
  unfold suggestionFor. destruct Hv as [-> | ->]; reflexivity.
Qed.

(** X18. The suggestions made for the violations of a returned validation:
    one for each violation, in order, a warning for consecutive sessions
    and an important note for a missing revision; after them come at
    most two tips.  No violation goes without a suggestion, and none of
    the suggestions is of the kind made for time preferences. *)
Theorem suggestions_follow_violations (sched : list DaySchedule)
    (subjects : list Subject) (ctx : ValidationContext) (v : Validation) :
  validateSchedule sched subjects ctx = Return v ->
  exists fromViolations tips,
    generateSuggestions (violations v) sched = app fromViolations tips
    /\ map sg_type fromViolations
       = map (fun x => if String.eqb (v_type x) "consecutive_sessions"
                       then "warning" else "important") (violations v)
    /\ Forall (fun s => sg_type s = "tip") tips
    /\ (length tips <= 2)%nat
    /\ Forall (fun s => sg_type s <> "info") (generateSuggestions (violations v) sched).
Proof.
  intros Hv. destruct (returned_violations_reportable _ _ _ _ Hv) as [Hkinds _].
  unfold generateSuggestions.
  set (breaksTip := if Z.ltb 6 _ then _ else _).
  set (optimizeTip := if Z.ltb (calculateEfficiencyScore sched) 70 then _ else _).
  exists (concat (map suggestionFor (violations v))), (app breaksTip optimizeTip).
  assert (Htips : Forall (fun s => sg_type s = "tip") (app breaksTip optimizeTip)).
  { apply Forall_app. subst breaksTip optimizeTip.
    split; [destruct (Z.ltb 6 _)|destruct (Z.ltb _ 70)]; repeat constructor. }
  split; [reflexivity|]. split; [apply suggestions_of_reportable, Hkinds|].
  split; [exact Htips|]. split.
  - rewrite length_app. subst breaksTip optimizeTip.
    destruct (Z.ltb 6 _), (Z.ltb _ 70); cbn; lia.
  - apply Forall_app. split.
    + pose proof (suggestions_of_reportable _ Hkinds) as Htypes.
      apply List.Forall_forall. intros s Hs Hinfo.
      assert (Hin : In "info" (map sg_type (concat (map suggestionFor (violations v)))))
        by (rewrite <- Hinfo; apply in_map, Hs).
      rewrite Htypes in Hin. apply in_map_iff in Hin as (x & Hx & _).
      destruct (String.eqb (v_type x) "consecutive_sessions"); discriminate.
    + eapply Forall_impl; [exact Htips|]. cbn. intros s Hs. rewrite Hs. discriminate.
Qed.

Lemma suggestions_follow_violations_witness :
  exists v,
    validateSchedule [plainDay [studyOf "ds"; studyOf "ds"; studyOf "ds"]] []
      freshValidation = Return v
    /\ map sg_type
         (generateSuggestions (violations v)
            [plainDay [studyOf "ds"; studyOf "ds"; studyOf "ds"]])
       = ["warning"; "tip"].
Proof.
  eexists. split; [vm_compute; reflexivity|].
  destruct (suggestions_follow_violations
              [plainDay [studyOf "ds"; studyOf "ds"; studyOf "ds"]] [] freshValidation _
              ltac:(vm_compute; reflexivity)) as (fromViolations & tips & _).
  vm_compute. reflexivity.
Defined.

(** ** The summary *)

Lemma assoc_set_sum (key : string) (v : Q) (dist : list (string * Q)) :
  (sumQ (map snd (assoc_set key v dist))
   == sumQ (map snd dist) - default 0 (assoc_get key dist) + v)%Q.
Proof.
  induction dist as [|[k w] dist IH]; cbn [assoc_set assoc_get map snd].
  - rewrite sumQ_cons. cbn. lra.
  - destruct (String.eqb k key); cbn [map snd].
    + rewrite !sumQ_cons. cbn. lra.
    + rewrite !sumQ_cons, IH. lra.
Qed.

Lemma assoc_set_keys {V} (key : string) (v : V) (l : list (string * V)) :
  is_Some (assoc_get key l) -> map fst (assoc_set key v l) = map fst l.
Proof.
  induction l as [|[k w] l IH]; cbn [assoc_set assoc_get map fst].
  - intros [x Hx]. discriminate.
  - destruct (String.eqb_spec k key) as [->|Hne]; cbn [map fst]; [reflexivity|].
    intros Hin. rewrite (IH Hin). reflexivity.
Qed.

Lemma prop_insert_perm {V} (key : string) (v : V) (l : list (string * V)) :
  Permutation (prop_insert key v l) ((key, v) :: l).
Proof.
  induction l as [|[k w] l IH]; cbn [prop_insert]; [reflexivity|].
  assert (Hstep : Permutation ((k, w) :: prop_insert key v l) ((key, v) :: (k, w) :: l)).
  { rewrite IH. apply perm_swap. }
  destruct (arrayIndex key) as [n|]; [|exact Hstep].
  destruct (arrayIndex k) as [n'|]; [|reflexivity].
  destruct (Z.ltb n n'); [reflexivity|exact Hstep].
Qed.

Lemma assoc_get_none {V} (key : string) (l : list (string * V)) :
  assoc_get key l = None -> ~ In key (map fst l).
Proof.
  induction l as [|[k w] l IH]; cbn [assoc_get map fst]; [intros _ []|].
  destruct (String.eqb_spec k key) as [->|Hne]; [discriminate|].
  intros Hget [Hk|Hin]; [congruence|exact (IH Hget Hin)].
Qed.

Lemma prop_set_NoDup {V} (key : string) (v : V) (l : list (string * V)) :
  List.NoDup (map fst l) -> List.NoDup (map fst (prop_set key v l)).
Proof.
  intros Hnd. unfold prop_set. destruct (assoc_get key l) as [old|] eqn:Hget.
  - rewrite assoc_set_keys by (rewrite Hget; eexists; reflexivity). exact Hnd.
  - eapply Permutation_NoDup.
    + symmetry. apply Permutation_map, prop_insert_perm.
    + cbn [map fst]. constructor; [apply assoc_get_none, Hget|exact Hnd].
Qed.

Lemma prop_set_sum (key : string) (v : Q) (dist : list (string * Q)) :
  (sumQ (map snd (prop_set key v dist))
   == sumQ (map snd dist) - default 0 (assoc_get key dist) + v)%Q.
Proof.
  unfold prop_set. destruct (assoc_get key dist) as [old|] eqn:Hget.
  - rewrite assoc_set_sum, Hget. reflexivity.
  - rewrite (sumQ_perm _ _ (Permutation_map snd (prop_insert_perm key v dist))).
    cbn [map snd]. rewrite sumQ_cons. cbn. lra.
Qed.

Lemma addToDistribution_sum (dist : list (string * Q)) (s : Slot) :
  (sumQ (map snd (addToDistribution dist s))
   == sumQ (map snd dist) + inject_Z (duration s) / 60)%Q.
Proof.
  unfold addToDistribution.
  destruct (Qeq_bool (default 0%Q (assoc_get (subjectName s) dist)) 0) eqn:Hzero.
  - apply Qeq_bool_iff in Hzero.
    rewrite prop_set_sum, assoc_get_prop_set, String.eqb_refl, prop_set_sum.
    cbn [default from_option Datatypes.id]. rewrite Hzero. lra.
  - rewrite prop_set_sum. lra.
Qed.

Lemma distribution_adds_up (sessions : list Slot) (dist : list (string * Q)) :
  List.NoDup (map fst dist) ->
  List.NoDup (map fst (fold_left addToDistribution sessions dist))
  /\ (sumQ (map snd (fold_left addToDistribution sessions dist))
      == sumQ (map snd dist) + inject_Z (sumZ (map duration sessions)) / 60)%Q.
Proof.
  revert dist. induction sessions as [|s sessions IH]; intros dist Hnd; cbn [fold_left map].
  - split; [exact Hnd|]. change (sumZ []) with 0.
    setoid_replace (inject_Z 0 / 60)%Q with 0%Q using relation Qeq by reflexivity. lra.
  - destruct (IH (addToDistribution dist s)) as [Hkeys Hsum].
    { unfold addToDistribution. apply prop_set_NoDup.
      destruct (Qeq_bool _ 0); [apply prop_set_NoDup|]; exact Hnd. }
    split; [exact Hkeys|]. rewrite Hsum, addToDistribution_sum, sumZ_cons, inject_Z_plus.
    field.
Qed.

(** X19. The summary of a plan whose sessions carry no subject name of
    [Object.prototype] adds up: the hours of the subject distribution,
    which has one entry for each subject name, sum to the study time of
    all sessions; the total shown differs from it by at most 0.05, the
    rounding to one decimal; and the session count is the number of
    study and revision slots. *)
Theorem summary_adds_up (allSlots : list Slot) (subjects : list Subject)
    (totalDays : nat) :
  Forall (fun s => inheritedKey (subjectName s) = false) (studySequence allSlots) ->
  (sumQ (map snd (subjectDistribution (generateSummary allSlots subjects totalDays)))
   == inject_Z (studyMinutes allSlots) / 60)%Q
  /\ List.NoDup (map fst (subjectDistribution (generateSummary allSlots subjects totalDays)))
  /\ (Qabs (sm_totalStudyHours (generateSummary allSlots subjects totalDays)
            - inject_Z (studyMinutes allSlots) / 60) <= 1 # 20)%Q
  /\ sm_totalSessions (generateSummary allSlots subjects totalDays)
     = length (studySequence allSlots).
Proof.
  intros _.
  unfold generateSummary. cbn [subjectDistribution sm_totalStudyHours sm_totalSessions].
  destruct (distribution_adds_up (List.filter isStudySlot allSlots) [] (List.NoDup_nil _))
    as [Hkeys Hsum].
  split; [|split; [exact Hkeys|split; [|reflexivity]]].
  - rewrite Hsum. unfold studyMinutes. cbn. field.
  - pose proof (toFixed_error 1 (inject_Z (studyMinutes allSlots) / 60)) as Herr.
    exact Herr.
Qed.

Lemma summary_adds_up_witness :
  (sumQ (map snd (subjectDistribution
                    (generateSummary
                       [studyOf "ds"; plainSlot "break" None 10; studyOf "10"; studyOf "ds"]
                       [] 1)))
   == 3)%Q
  /\ map fst (subjectDistribution
                (generateSummary
                   [studyOf "ds"; plainSlot "break" None 10; studyOf "10"; studyOf "ds"]
                   [] 1))
     = [subjectName (studyOf "10"); subjectName (studyOf "ds")].
Proof.
  split; [|vm_compute; reflexivity].
  destruct (summary_adds_up
              [studyOf "ds"; plainSlot "break" None 10; studyOf "10"; studyOf "ds"] [] 1)
    as [Hsum _]; [vm_compute; repeat constructor|].
  rewrite Hsum. reflexivity.
Defined.

(** ** Sessions and breaks take turns *)

Lemma paired_app (l l' : list Slot) (count after : Z) :
  paired count l = Some after -> paired count (app l l') = paired after l'.
Proof.
  remember (length l) as n eqn:Hn. revert l count Hn.
  induction n as [n IH] using lt_wf_ind. intros l count Hn.
  destruct l as [|s [|b rest]]; cbn [paired app].
  - intros [= <-]. reflexivity.
  - discriminate.
  - destruct (isStudySlot s && isBreakSlot b)%bool; [|discriminate].
    destruct (Z.leb _ (count + 1)).
    + destruct (_ && _)%bool; [|discriminate].
      apply (IH (length rest)); [subst n; cbn; lia|reflexivity].
    + destruct (bool_decide _); [|discriminate].
      apply (IH (length rest)); [subst n; cbn; lia|reflexivity].
Qed.

Section Pacing.

Variable engine : RulesEngine.
Variable this : SmartScheduler.
Variable todaysSubjects : list Allocation.
Variable settings : SessionSettings.
Variable dayIndex : nat.

Hypothesis long_breaks :
  forall count most, eng_needsLongBreak engine count most = needsLongBreak count most.

Lemma fillStep_paced (st st' : FillState) (again : bool) :
  (0 < remainingHours st)%Q ->
  fillStep engine this todaysSubjects settings dayIndex st = Return (again, st') ->
  pacedSoFar st -> pacedSoFar st'.
Proof.
  intros Hrem Hstep [Hpaired|[Hout _]]; [|lra].
  unfold fillStep in Hstep.
  destruct (nth_error _ _) as [alloc|]; [|injection Hstep as _ <-; left; exact Hpaired].
  destruct (_ && _)%bool; [injection Hstep as _ <-; left; exact Hpaired|].
  destruct (eng_getOptimalSessionLength _ _ _) as [len|e]; cbn [bind] in Hstep; [|discriminate].
  destruct (eng_getBreakDuration _ _ _) as [brk|e]; cbn [bind] in Hstep; [|discriminate].
  rewrite long_breaks in Hstep. unfold needsLongBreak in Hstep.
  destruct (Z.leb _ (sessionCount st + 1)) eqn:Hlong.
  - injection Hstep as _ <-. left. cbn [daySlots sessionCount].
    rewrite (paired_app _ _ _ _ Hpaired). cbn [paired].
    rewrite session_is_study, Hlong. reflexivity.
  - destruct (Qgtb _ 0) eqn:Hleft; injection Hstep as _ <-.
    + left. cbn [daySlots sessionCount].
      rewrite (paired_app _ _ _ _ Hpaired). cbn [paired].
      rewrite session_is_study, Hlong. reflexivity.
    + right. cbn [daySlots remainingHours]. split.
      * apply Qnot_lt_le. intros Hlt. apply Qgtb_pos in Hlt. congruence.
      * eexists _, _. split; [reflexivity|]. split; [eexists; exact Hpaired|].
        apply session_is_study.
Qed.

End Pacing.

(** X10. In a generated day sessions and breaks take turns: the lunch break
    apart, the day starts with a session, every session is followed by
    a break, except possibly the last slot of the day, and the break is
    a long one of 30 minutes after every fourth session since the last
    long break and a regular one otherwise.  This holds for an engine
    that asks for long breaks as [needsLongBreak] does. *)
Theorem sessions_and_breaks_take_turns (engine : RulesEngine)
    (calculateDate : nat -> string) (this : SmartScheduler) (fuel dayIndex : nat)
    (allocs : list Allocation) (settings : SessionSettings) (d : DaySchedule) :
  (forall count most, eng_needsLongBreak engine count most = needsLongBreak count most) ->
  generateDaySchedule engine calculateDate this fuel dayIndex allocs settings
    = Some (Return d) ->
  paced (withoutLunch (slots d)).
Proof.
  intros Hlong Hgen.
  destruct (generated_day_state _ _ _ _ _ _ _ _ Hgen) as (st & Hfill & -> & _).
  assert (Hpaced : pacedSoFar st).
  { unfold runFill in Hfill. destruct (dailyHours settings) as [h|].
    - apply (fillDay_outcome _ _ _ _ _ pacedSoFar) in Hfill as [Hp _]; [exact Hp| |].
      + intros st1 st2 again Hrem _. apply fillStep_paced; assumption.
      + left. reflexivity.
    - injection Hfill as <-. left. reflexivity. }
  destruct Hpaced as [Hpairs|[_ Hlast]].
  - left. eexists. exact Hpairs.
  - right. exact Hlast.
Qed.

Lemma sessions_and_breaks_take_turns_witness :
  exists d,
    generateDaySchedule suppliedEngine noDate newScheduler 100 0
      defaultAllocations exampleSettings = Some (Return d)
    /\ map breakType (List.filter isBreakSlot (slots d))
       = [Some "regular"; Some "regular"; Some "regular"; Some "long"]
    /\ paced (withoutLunch (slots d)).
Proof.
  eexists. split; [vm_compute; reflexivity|].
  split; [vm_compute; reflexivity|].
  apply (sessions_and_breaks_take_turns suppliedEngine noDate newScheduler 100 0
           defaultAllocations exampleSettings).
  - intros count most. reflexivity.
  - vm_compute. reflexivity.
Defined.
